(** * Sandboxed game launcher: backends, manager, instance registry, monitor

    A shallow embedding of
      - [app/utils/windows_sandbox.py]   ([WindowsSandbox]),
      - [app/utils/built_in_sandbox.py]  ([BuiltInSandbox]),
      - [app/utils/sandbox_manager.py]   ([SandboxManager]),
      - [app/services/game_launcher_service.py] ([GameLauncherService]),
      - [app/utils/dependency_installer.py] ([DependencyInstaller]),
    together with the properties of the specification that concern them
    and further properties of the same code (X1 to X28).

    Python objects are modelled by records, dictionaries by finite maps
    (insertion-ordered association lists where the iteration order is
    observable), and the operating system by an explicit [world] that is
    threaded through every call.  What the environment decides during a call
    (random draws, whether a spawn succeeds) is an explicit argument.

    What the model leaves out: the clock counts whole seconds and only
    [time.sleep] advances it; of a file only its existence is kept, not
    its contents (writing a file always succeeds), and a child's
    environment variables are not kept at all;
    of the log only the error lines of the manager are kept; the monitor
    and the removal threads run in one fixed interleaving; a handle is
    the process identifier it stands for, and the identifier of a launcher
    that has already exited is not kept in the process table, so that a
    later process may be given it; [str.lower] is modelled on the ASCII
    letters only. *)

From Stdlib Require Import ZArith NArith List Ascii String Bool Lia.
From stdpp Require Import base option list gmap strings pretty.

Open Scope string_scope.

(* ------------------------------------------------------------------ *)
(** ** Python-level helpers: strings and formatting                    *)
(* ------------------------------------------------------------------ *)

Module Py.

(** [needle in hay] on strings. *)
Fixpoint str_in (needle hay : string) : bool :=
  if String.prefix needle hay then true
  else match hay with
       | EmptyString => false
       | String _ hay' => str_in needle hay'
       end.

(** [str.lower()] restricted to the ASCII range. *)
Definition lower_char (c : ascii) : ascii :=
  let n := N_of_ascii c in
  if ((65 <=? n) && (n <=? 90))%N then ascii_of_N (n + 32) else c.

Fixpoint lower (s : string) : string :=
  match s with
  | EmptyString => EmptyString
  | String c s' => String (lower_char c) (lower s')
  end.

(** [s[:n]]. *)
Fixpoint take (n : nat) (s : string) : string :=
  match n, s with
  | S n', String c s' => String c (take n' s')
  | _, _ => EmptyString
  end.

(** [s[n:]]. *)
Fixpoint drop (n : nat) (s : string) : string :=
  match n, s with
  | S n', String _ s' => drop n' s'
  | _, _ => s
  end.

(** [sep.join(parts)]. *)
Fixpoint join (sep : string) (parts : list string) : string :=
  match parts with
  | [] => ""
  | [p] => p
  | p :: ps => p +:+ sep +:+ join sep ps
  end.

(** Lower-case hexadecimal digit of a value below 16. *)
Definition hex_digit (d : N) : ascii :=
  match d with
  | 0 => "0" | 1 => "1" | 2 => "2" | 3 => "3" | 4 => "4" | 5 => "5"
  | 6 => "6" | 7 => "7" | 8 => "8" | 9 => "9" | 10 => "a" | 11 => "b"
  | 12 => "c" | 13 => "d" | 14 => "e" | _ => "f"
  end%char%N.

(** [n] written with exactly [w] hexadecimal digits, most significant
    first (the value is reduced modulo [16^w]): ['%02x' % n] is
    [hex_fixed 2 n] for a byte, and [uuid.hex] is [hex_fixed 32]. *)
Fixpoint hex_fixed_acc (w : nat) (n : N) (acc : string) : string :=
  match w with
  | O => acc
  | S w' => hex_fixed_acc w' (n / 16) (String (hex_digit (n mod 16)) acc)
  end.

Definition hex_fixed (w : nat) (n : N) : string := hex_fixed_acc w n "".

Definition is_hex_char (c : ascii) : bool :=
  let n := N_of_ascii c in
  ((48 <=? n) && (n <=? 57) || (97 <=? n) && (n <=? 102))%N.

Fixpoint all_chars (P : ascii -> bool) (s : string) : bool :=
  match s with
  | EmptyString => true
  | String c s' => P c && all_chars P s'
  end.

(** [uuid.UUID.hex] and [str(uuid.UUID)] of a 128-bit value. *)
Definition uuid_hex (u : N) : string := hex_fixed 32 u.

Definition uuid_str (u : N) : string :=
  let h := uuid_hex u in
  take 8 h +:+ "-" +:+ take 4 (drop 8 h) +:+ "-" +:+ take 4 (drop 12 h)
    +:+ "-" +:+ take 4 (drop 16 h) +:+ "-" +:+ drop 20 h.

(** [''.join(random.choices(alphabet, k=...))]: the draw is the list of
    chosen positions. *)
Fixpoint nth_char (i : nat) (s : string) : ascii :=
  match s, i with
  | EmptyString, _ => "?"%char
  | String c _, O => c
  | String _ s', S i' => nth_char i' s'
  end.

Fixpoint choices (alphabet : string) (picks : list nat) : string :=
  match picks with
  | [] => ""
  | i :: picks' => String (nth_char i alphabet) (choices alphabet picks')
  end.

Definition ascii_uppercase : string := "ABCDEFGHIJKLMNOPQRSTUVWXYZ".
Definition digits : string := "0123456789".

(** [os.path.basename] for paths written with [\] or [/]. *)
Definition is_sep (c : ascii) : bool :=
  (Ascii.eqb c "\" || Ascii.eqb c "/")%char.

Fixpoint has_sep (p : string) : bool :=
  match p with
  | EmptyString => false
  | String c p' => is_sep c || has_sep p'
  end.

Fixpoint basename (p : string) : string :=
  match p with
  | EmptyString => EmptyString
  | String c p' =>
      if is_sep c then basename p'
      else if has_sep p' then basename p' else p
  end.

(** [os.path.join(a, b)] for a relative [b]. *)
Definition path_join (a b : string) : string := a +:+ "\" +:+ b.

End Py.

(* ------------------------------------------------------------------ *)
(** ** The operating system as seen by the program                     *)
(* ------------------------------------------------------------------ *)

Module OS.

(** Exceptions that the modelled code raises or catches. *)
Inductive exn :=
| NoSuchProcess | AccessDenied | TimeoutExpired   (* psutil / subprocess *)
| OSError                                         (* spawn and file errors *)
| AttributeError | TypeError | UnboundLocalError | KeyError. (* Python run-time errors *)

Inductive outcome (A : Type) :=
| Ok (a : A)
| Raise (e : exn).
Arguments Ok {A} a.
Arguments Raise {A} e.

Definition pid := positive.

(** How a live process answers a termination request. *)
Inductive reaction := Exits | Survives | Denied.

Record os_proc := {
  p_name : string;          (* image name, as psutil reports it *)
  p_create_time : Z;
  p_zombie : bool;          (* status() == STATUS_ZOMBIE *)
  p_on_terminate : reaction;
  p_on_kill : reaction;
  p_titles : list string;   (* titles of its visible windows *)
  p_cmdline : list string
}.

(** The process table lists the processes that currently exist, in the
    order in which [psutil.process_iter] yields them. *)
Record world := {
  now : Z;                        (* int(time.time()) *)
  tempdir : string;               (* tempfile.gettempdir() *)
  paths : gset string;            (* paths that exist on disk *)
  pinned : gset string;           (* trees whose removal fails *)
  unwritable : gset string;       (* directories that cannot be created *)
  procs : list (pid * os_proc);
  feature_query : option string   (* stdout of the PowerShell query for the
                                     optional feature; None: it cannot run *)
}.

Definition set_now (t : Z) (w : world) : world :=
  {| now := t; tempdir := tempdir w; paths := paths w; pinned := pinned w;
     unwritable := unwritable w; procs := procs w;
     feature_query := feature_query w |}.

Definition set_paths (ps : gset string) (w : world) : world :=
  {| now := now w; tempdir := tempdir w; paths := ps; pinned := pinned w;
     unwritable := unwritable w; procs := procs w;
     feature_query := feature_query w |}.

Definition set_procs (pt : list (pid * os_proc)) (w : world) : world :=
  {| now := now w; tempdir := tempdir w; paths := paths w; pinned := pinned w;
     unwritable := unwritable w; procs := pt;
     feature_query := feature_query w |}.

(** [time.sleep(d)]. *)
Definition sleep (d : Z) (w : world) : world := set_now (now w + d) w.

(** *** File system *)

Definition path_exists (p : string) (w : world) : bool :=
  bool_decide (p ∈ paths w).

Definition makedirs (p : string) (w : world) : outcome unit * world :=
  if bool_decide (p ∈ unwritable w) then (Raise OSError, w)
  else (Ok tt, set_paths ({[ p ]} ∪ paths w) w).

Definition write_file (p : string) (w : world) : world :=
  set_paths ({[ p ]} ∪ paths w) w.

(** [q] is [p] or lies below it. *)
Definition under (p q : string) : bool :=
  String.eqb q p || String.prefix (p +:+ "\") q.

(** [shutil.rmtree(p, ignore_errors=True)]: a failing removal is silent
    and leaves the tree in place. *)
Definition rmtree_ignore_errors (p : string) (w : world) : world :=
  if bool_decide (p ∈ pinned w) then w
  else set_paths (filter (λ q, under p q = false) (paths w)) w.

(** *** Processes *)

Fixpoint find_proc (pt : list (pid * os_proc)) (p : pid) : option os_proc :=
  match pt with
  | [] => None
  | (q, pr) :: pt' => if Pos.eqb q p then Some pr else find_proc pt' p
  end.

Fixpoint remove_proc (pt : list (pid * os_proc)) (p : pid)
  : list (pid * os_proc) :=
  match pt with
  | [] => []
  | (q, pr) :: pt' =>
      if Pos.eqb q p then remove_proc pt' p else (q, pr) :: remove_proc pt' p
  end.

Definition fresh_pid (pt : list (pid * os_proc)) : pid :=
  Pos.succ (fold_right (λ e m, Pos.max (fst e) m) 1%positive pt).

(** [psutil.pid_exists]. *)
Definition pid_exists (w : world) (p : pid) : bool :=
  match find_proc (procs w) p with Some _ => true | None => false end.

(** A handle on a process: [subprocess.Popen] or [psutil.Process].  The
    two classes do not offer the same methods. *)
Inductive handle :=
| Popen (p : pid)
| PsProcess (p : pid).

Definition handle_pid (h : handle) : pid :=
  match h with Popen p | PsProcess p => p end.

(** [Popen.poll() is None]. *)
Definition popen_running (w : world) (p : pid) : bool :=
  match find_proc (procs w) p with
  | Some pr => negb (p_zombie pr)
  | None => false
  end.

(** [psutil.Process.is_running() and status() != STATUS_ZOMBIE]. *)
Definition ps_running (w : world) (p : pid) : bool :=
  match find_proc (procs w) p with
  | Some pr => negb (p_zombie pr)
  | None => false
  end.

(** A termination request, graceful ([p_on_terminate]) or forced
    ([p_on_kill]).  [gone] is what the call does when the process no
    longer exists, [denied] the exception of a refused request. *)
Definition signal (react : os_proc → reaction) (gone : outcome unit)
    (denied : exn) (p : pid) (w : world) : outcome unit * world :=
  match find_proc (procs w) p with
  | None => (gone, w)
  | Some pr =>
      match react pr with
      | Exits => (Ok tt, set_procs (remove_proc (procs w) p) w)
      | Survives => (Ok tt, w)
      | Denied => (Raise denied, w)
      end
  end.

Definition popen_terminate := signal p_on_terminate (Ok tt) OSError.
Definition popen_kill := signal p_on_kill (Ok tt) OSError.
Definition ps_terminate := signal p_on_terminate (Raise NoSuchProcess) AccessDenied.
Definition ps_kill := signal p_on_kill (Raise NoSuchProcess) AccessDenied.

(** [wait(timeout=...)]: returns once the process is gone, raises
    [TimeoutExpired] while it is still there. *)
Definition popen_wait (p : pid) (w : world) : outcome unit :=
  if popen_running w p then Raise TimeoutExpired else Ok tt.

Definition ps_wait (p : pid) (w : world) : outcome unit :=
  if pid_exists w p then Raise TimeoutExpired else Ok tt.

(** [psutil.Process(pid)]. *)
Definition ps_open (w : world) (p : pid) : outcome handle :=
  if pid_exists w p then Ok (PsProcess p) else Raise NoSuchProcess.

(** What a [subprocess.Popen(...)] call meets: the operating system
    refuses to start the command, or starts a process that has already
    exited when the caller looks at it again, or that is still there. *)
Inductive spawn :=
| SpawnFails
| SpawnExited
| SpawnLives (pr : os_proc).

Definition popen (s : spawn) (w : world) : outcome handle * world :=
  match s with
  | SpawnFails => (Raise OSError, w)
  | SpawnExited => (Ok (Popen (fresh_pid (procs w))), w)
  | SpawnLives pr =>
      let p := fresh_pid (procs w) in
      (Ok (Popen p), set_procs (procs w ++ [(p, pr)]) w)
  end.

End OS.

Export OS (outcome, Ok, Raise).

Import OS.

(** What [random] and [uuid] hand out: the model takes the raw draws as
    arguments and renders them as the code does. *)
Module Rand.

(** [random.randint(lo, hi)] from a raw draw. *)
Definition randint (lo hi r : N) : N := (lo + r mod (hi - lo + 1))%N.

(** [''.join(random.choices(alphabet, k=k))]. *)
Definition choices (alphabet : string) (k : nat) (pick : nat → nat) : string :=
  Py.choices alphabet
    (map (λ i, pick i `mod` String.length alphabet) (seq 0 k)).

Definition upper_digits : string := Py.ascii_uppercase +:+ Py.digits.

(** [':'.join(['%02x' % random.randint(0, 255) for _ in range(6)])]. *)
Definition mac_address (byte : nat → N) : string :=
  Py.join ":" (map (λ i, Py.hex_fixed 2 (randint 0 255 (byte i))) (seq 0 6)).

(** [f"192.168.{random.randint(1, 254)}.{random.randint(1, 254)}"]. *)
Definition ip_address (a b : N) : string :=
  "192.168." +:+ pretty (randint 1 254 a) +:+ "." +:+ pretty (randint 1 254 b).

End Rand.

(** The dictionary returned by the [check_sandbox_health] functions. *)
Module Health.

Record t := {
  status : string;
  process_count : option nat;
  network_isolated : option bool;
  identity_spoofed : option bool;
  uptime : option Z;
  directory : option string;
  pid : option OS.pid;
  start_time : option Z;
  detected : option bool;
  error : option string
}.

Definition only (s : string) : t :=
  {| status := s; process_count := None; network_isolated := None;
     identity_spoofed := None; uptime := None; directory := None;
     pid := None; start_time := None; detected := None; error := None |}.

Definition failed (msg : string) : t :=
  {| status := "error"; process_count := None; network_isolated := None;
     identity_spoofed := None; uptime := None; directory := None;
     pid := None; start_time := None; detected := None; error := Some msg |}.

End Health.

(** [str(e)] of a caught exception; only its presence matters here. *)
Definition str_exn (e : exn) : string :=
  match e with
  | NoSuchProcess => "process no longer exists"
  | AccessDenied => "access denied"
  | TimeoutExpired => "timed out"
  | OSError => "operating system error"
  | AttributeError => "object has no such attribute"
  | TypeError => "argument of this type is not iterable"
  | UnboundLocalError => "local variable referenced before assignment"
  | KeyError => "key not found"
  end.

(* ------------------------------------------------------------------ *)
(** ** [windows_sandbox.py]                                            *)
(* ------------------------------------------------------------------ *)

Module WindowsSandbox.

(** An entry of [self.sandboxes]. *)
Record sandbox := {
  dir : string;
  config : string;
  running : bool;
  computer_name : string;
  mac_address : string;
  ip_address : string;
  process : option handle
}.

Record draw := {
  d_computer_name : nat → nat;
  d_mac : nat → N;
  d_ip : N * N
}.

Definition sandbox_path : string := "C:\Windows\System32\WindowsSandbox.exe".

(** [is_available]: the host binary must exist and the feature query must
    print [State : Enabled]. *)
Definition is_available (w : world) : bool :=
  if negb (path_exists sandbox_path w) then false
  else match feature_query w with
       | Some stdout => Py.str_in "State : Enabled" stdout
       | None => false
       end.

(** [create_sandbox_config]: [None] when writing the files fails. *)
Definition create_sandbox_config (name executable_path : string) (d : draw)
    (sbs : gmap string sandbox) (w : world)
  : option string * gmap string sandbox * world :=
  let sandbox_dir := Py.path_join (tempdir w) ("wydbot_winsandbox_" +:+ name) in
  match makedirs sandbox_dir w with
  | (Raise _, w1) => (None, sbs, w1)
  | (Ok _, w1) =>
      let cn := Rand.choices Py.ascii_uppercase 8 (d_computer_name d) in
      let mac := Rand.mac_address (d_mac d) in
      let ip := Rand.ip_address (fst (d_ip d)) (snd (d_ip d)) in
      let w2 := write_file (Py.path_join sandbox_dir "setup.ps1") w1 in
      let config_path := Py.path_join sandbox_dir (name +:+ "_config.wsb") in
      let w3 := write_file config_path w2 in
      let sb := {| dir := sandbox_dir; config := config_path; running := false;
                   computer_name := cn; mac_address := mac; ip_address := ip;
                   process := None |} in
      (Some config_path, <[name := sb]> sbs, w3)
  end.

Definition launch_in_sandbox (name executable_path : string) (d : draw)
    (s : spawn) (sbs : gmap string sandbox) (w : world)
  : bool * gmap string sandbox * world :=
  match create_sandbox_config name executable_path d sbs w with
  | (None, sbs1, w1) => (false, sbs1, w1)
  | (Some config_path, sbs1, w1) =>
      match popen s w1 with
      | (Raise _, w2) => (false, sbs1, w2)
      | (Ok h, w2) =>
          match sbs1 !! name with
          | None => (false, sbs1, w2)
          | Some sb =>
              let sb' := {| dir := dir sb; config := config sb; running := true;
                            computer_name := computer_name sb;
                            mac_address := mac_address sb;
                            ip_address := ip_address sb;
                            process := Some h |} in
              (true, <[name := sb']> sbs1, w2)
          end
      end
  end.

(** The body of the [try] of [terminate_sandbox] up to the directory
    clean-up: stop the host process. *)
Definition stop_process (sb : sandbox) (w : world) : outcome unit * world :=
  match running sb, process sb with
  | true, Some (Popen p) =>
      if popen_running w p then
        match popen_terminate p w with
        | (Raise e, w1) => (Raise e, w1)
        | (Ok _, w1) =>
            match popen_wait p w1 with
            | Raise e => (Raise e, w1)
            | Ok _ =>
                (* force kill if still running *)
                if popen_running w1 p then popen_kill p w1 else (Ok tt, w1)
            end
        end
      else (Ok tt, w)
  | true, Some (PsProcess _) => (Raise AttributeError, w)
  | _, _ => (Ok tt, w)
  end.

Definition terminate_sandbox (name : string) (sbs : gmap string sandbox)
    (w : world) : bool * gmap string sandbox * world :=
  match sbs !! name with
  | None => (false, sbs, w)
  | Some sb =>
      match stop_process sb w with
      | (Raise _, w1) => (false, sbs, w1)
      | (Ok _, w1) =>
          (true, delete name sbs, rmtree_ignore_errors (dir sb) w1)
      end
  end.

Definition check_sandbox_health (name : string) (sbs : gmap string sandbox)
    (w : world) : Health.t :=
  match sbs !! name with
  | None => Health.only "not_found"
  | Some sb =>
      match process sb with
      | Some (PsProcess _) => Health.failed (str_exn AttributeError)
      | other =>
          let is_running :=
            match other with Some (Popen p) => popen_running w p | _ => false end in
          {| Health.status := if is_running then "running" else "stopped";
             Health.process_count := None;
             Health.network_isolated := Some false;
             Health.identity_spoofed := None;
             Health.uptime := None;
             Health.directory := Some (dir sb);
             Health.pid := None;
             Health.start_time := None;
             Health.detected := None;
             Health.error := None |}
      end
  end.

End WindowsSandbox.

(* ------------------------------------------------------------------ *)
(** ** [built_in_sandbox.py]                                           *)
(* ------------------------------------------------------------------ *)

Module BuiltInSandbox.

(** [identity_data]. *)
Record identity := {
  hwid : string;
  mac : string;
  computer_name : string;
  ip_address : string;
  disk_serial : string;
  bios_uuid : string;
  motherboard_serial : string;
  cpu_id : string;
  user_name : string;
  sandbox_id : string;
  machine_guid : string;
  product_id : string
}.

(** The keys of [identity_data], one file [<key>.txt] each. *)
Definition identity_keys : list string :=
  ["hwid"; "mac"; "computer_name"; "ip_address"; "disk_serial"; "bios_uuid";
   "motherboard_serial"; "cpu_id"; "user_name"; "sandbox_id"; "machine_guid";
   "product_id"].

(** [process_info], the dictionary a successful launch returns. *)
Record process_info := {
  pi_pid : pid;
  pi_process : handle;
  pi_executable : string;
  pi_start_time : Z;
  pi_in_sandbox : bool;
  pi_sandbox_name : string;
  pi_sandbox_type : string;
  pi_identity : identity;
  pi_window_title : string
}.

(** [{"success": False, "error": ..., ...}]. *)
Record failure := {
  f_error : string;
  f_sandbox_name : option string;
  f_sandbox_type : option string
}.

Inductive launch_result :=
| Launched (info : process_info)
| Failed (f : failure).

(** An entry of [self.sandboxes]. *)
Record sandbox := {
  sb_id : string;
  sb_running : bool;
  sb_processes : list process_info;
  sb_hwid : string;
  sb_mac : string;
  sb_computer_name : string;
  sb_creation_time : Z;
  sb_temp_dir : option string;
  sb_identity : option identity
}.

(** Draws of [create_sandbox]. *)
Record base_draw := {
  bd_uuid : N;
  bd_hwid : nat → nat;
  bd_mac : nat → N;
  bd_computer_name : nat → nat
}.

(** Draws of [launch_in_sandbox]. *)
Record ext_draw := {
  ed_ip : N * N;
  ed_disk_serial : nat → nat;
  ed_bios_uuid : N;
  ed_motherboard_serial : nat → nat;
  ed_cpu_id : nat → nat;
  ed_user : N;
  ed_machine_guid : N;
  ed_product_id : (nat → nat) * (nat → nat) * (nat → nat)
}.

(** What the environment contributes to one launch. *)
Record launch_env := {
  le_base : base_draw;       (* used only when the sandbox is created *)
  le_ext : ext_draw;
  le_spawn : spawn;          (* fate of the launcher script *)
  le_game : option os_proc   (* process the script has started by the end
                                of the settle delay, if any *)
}.

Definition create_sandbox (name : string) (d : base_draw)
    (sbs : gmap string sandbox) (w : world) : bool * gmap string sandbox :=
  let sandbox_id := Py.uuid_str (bd_uuid d) in
  let hw_id := Rand.choices Rand.upper_digits 16 (bd_hwid d) in
  let mac_address := Rand.mac_address (bd_mac d) in
  let computer_name := Rand.choices Py.ascii_uppercase 8 (bd_computer_name d) in
  (true,
   <[name := {| sb_id := sandbox_id; sb_running := false; sb_processes := [];
                sb_hwid := hw_id; sb_mac := mac_address;
                sb_computer_name := computer_name;
                sb_creation_time := now w;
                sb_temp_dir := None; sb_identity := None |}]> sbs).

Definition identity_data (sb : sandbox) (d : ext_draw) : identity :=
  {| hwid := sb_hwid sb;
     mac := sb_mac sb;
     computer_name := sb_computer_name sb;
     ip_address := Rand.ip_address (fst (ed_ip d)) (snd (ed_ip d));
     disk_serial := Rand.choices Rand.upper_digits 8 (ed_disk_serial d);
     bios_uuid := Py.uuid_str (ed_bios_uuid d);
     motherboard_serial := Rand.choices Rand.upper_digits 12 (ed_motherboard_serial d);
     cpu_id := Rand.choices Rand.upper_digits 16 (ed_cpu_id d);
     user_name := "User_" +:+ pretty (Rand.randint 1000 9999 (ed_user d));
     sandbox_id := sb_id sb;
     machine_guid := Py.uuid_str (ed_machine_guid d);
     product_id :=
       Rand.choices Rand.upper_digits 5 (fst (fst (ed_product_id d))) +:+ "-"
       +:+ Rand.choices Rand.upper_digits 5 (snd (fst (ed_product_id d))) +:+ "-"
       +:+ Rand.choices Py.digits 5 (snd (ed_product_id d)) |}.

Definition temp_dir_of (w : world) (name : string) (sb : sandbox) : string :=
  Py.path_join (tempdir w) ("wydbot_identity_" +:+ name +:+ "_" +:+ sb_id sb).

Definition window_title_of (name : string) (sb : sandbox) : string :=
  "WydBot_" +:+ name +:+ "_" +:+ Py.take 8 (sb_id sb).

(** Identity manifest, one file per key, and the launcher script. *)
Definition write_identity_files (temp_dir : string) (w : world) : world :=
  let w1 := write_file (Py.path_join temp_dir "identity.json") w in
  let w2 := fold_left (λ acc key,
              write_file (Py.path_join temp_dir (key +:+ ".txt")) acc)
              identity_keys w1 in
  write_file (Py.path_join temp_dir "launch_game.bat") w2.

(** The private profile tree [Users/<user>/AppData/{Roaming,Local,Local/Temp}]. *)
Definition make_profile_tree (temp_dir user : string) (w : world)
  : outcome unit * world :=
  let sandbox_user_dir := Py.path_join (Py.path_join temp_dir "Users") user in
  let sandbox_appdata :=
    Py.path_join (Py.path_join sandbox_user_dir "AppData") "Roaming" in
  let sandbox_localappdata :=
    Py.path_join (Py.path_join sandbox_user_dir "AppData") "Local" in
  let sandbox_temp := Py.path_join sandbox_localappdata "Temp" in
  match makedirs sandbox_user_dir w with
  | (Raise e, w1) => (Raise e, w1)
  | (Ok _, w1) =>
  match makedirs sandbox_appdata w1 with
  | (Raise e, w2) => (Raise e, w2)
  | (Ok _, w2) =>
  match makedirs sandbox_localappdata w2 with
  | (Raise e, w3) => (Raise e, w3)
  | (Ok _, w3) => makedirs sandbox_temp w3
  end end end.

(** First process with the executable's name created in the last ten
    seconds. *)
Definition find_by_name (game_exe_name : string) (w : world) : option pid :=
  fst <$> List.find
    (λ e, String.eqb (Py.lower (p_name (snd e))) game_exe_name
          && (now w - 10 <? p_create_time (snd e))%Z)
    (procs w).

(** Owners of the visible windows whose title contains [title]. *)
Definition find_window_by_title (title : string) (w : world) : list pid :=
  flat_map (λ e, map (λ _, fst e)
                   (List.filter (Py.str_in title) (p_titles (snd e))))
           (procs w).

Definition find_game_process (game_exe_name window_title : string) (w : world)
  : option handle :=
  match find_by_name game_exe_name w with
  | Some p => Some (PsProcess p)
  | None =>
      match find_window_by_title window_title w with
      | p :: _ =>
          match ps_open w p with
          | Ok h => Some h
          | Raise _ => None
          end
      | [] => None
      end
  end.

(** The launcher script runs and, during the settle delay, starts the
    game. *)
Definition settle (game : option os_proc) (w : world) : world :=
  let w1 := sleep 2 w in
  match game with
  | Some pr => set_procs (procs w1 ++ [(fresh_pid (procs w1), pr)]) w1
  | None => w1
  end.

(** [launch_in_sandbox] from [sandbox = self.sandboxes[name]] on; an
    exception leaves the [try] at the point where it is raised. *)
Definition launch_body (name executable_path : string) (args : list string)
    (env : launch_env) (sbs : gmap string sandbox) (w : world)
  : outcome process_info * gmap string sandbox * world :=
  match sbs !! name with
  | None => (Raise KeyError, sbs, w)
  | Some sb =>
      let temp_dir := temp_dir_of w name sb in
      match makedirs temp_dir w with
      | (Raise e, w1) => (Raise e, sbs, w1)
      | (Ok _, w1) =>
          let identity := identity_data sb (le_ext env) in
          let w2 := write_identity_files temp_dir w1 in
          match make_profile_tree temp_dir (user_name identity) w2 with
          | (Raise e, w3) => (Raise e, sbs, w3)
          | (Ok _, w3) =>
              match popen (le_spawn env) w3 with
              | (Raise e, w4) => (Raise e, sbs, w4)
              | (Ok process, w4) =>
                  let w5 := settle (le_game env) w4 in
                  let game_exe_name := Py.lower (Py.basename executable_path) in
                  let window_title := window_title_of name sb in
                  let game_process :=
                    find_game_process game_exe_name window_title w5 in
                  (* without a game process the launcher script is tracked *)
                  let tracked := default process game_process in
                  let info :=
                    {| pi_pid := handle_pid tracked;
                       pi_process := tracked;
                       pi_executable := executable_path;
                       pi_start_time := now w5;
                       pi_in_sandbox := true;
                       pi_sandbox_name := name;
                       pi_sandbox_type := "built_in";
                       pi_identity := identity;
                       pi_window_title := window_title |} in
                  let sb' :=
                    {| sb_id := sb_id sb;
                       sb_running := true;
                       sb_processes := sb_processes sb ++ [info];
                       sb_hwid := sb_hwid sb;
                       sb_mac := sb_mac sb;
                       sb_computer_name := sb_computer_name sb;
                       sb_creation_time := sb_creation_time sb;
                       sb_temp_dir := Some temp_dir;
                       sb_identity := Some identity |} in
                  (Ok info, <[name := sb']> sbs, w5)
              end
          end
      end
  end.

Definition failure_of (e : exn) (name : string) : failure :=
  {| f_error := str_exn e; f_sandbox_name := Some name;
     f_sandbox_type := Some "built_in" |}.

Definition launch_created (name executable_path : string)
    (args : list string) (env : launch_env) (sbs : gmap string sandbox)
    (w : world) : launch_result * gmap string sandbox * world :=
  match launch_body name executable_path args env sbs w with
  | (Ok info, sbs', w') => (Launched info, sbs', w')
  | (Raise e, sbs', w') => (Failed (failure_of e name), sbs', w')
  end.

Definition launch_in_sandbox (name executable_path : string)
    (args : list string) (env : launch_env) (sbs : gmap string sandbox)
    (w : world) : launch_result * gmap string sandbox * world :=
  match sbs !! name with
  | None =>
      (* create sandbox if it doesn't exist *)
      let '(created, sbs1) := create_sandbox name (le_base env) sbs w in
      if created then launch_created name executable_path args env sbs1 w
      else (Failed {| f_error := "Failed to create sandbox";
                      f_sandbox_name := None; f_sandbox_type := None |},
            sbs1, w)
  | Some _ => launch_created name executable_path args env sbs w
  end.

(** One iteration of the loop of [terminate_sandbox] over
    [sandbox["processes"]], inside its own [try]. *)
Definition stop_process (h : handle) (w : world) : outcome unit * world :=
  match h with
  | PsProcess _ => (Raise AttributeError, w)   (* no [poll] on psutil.Process *)
  | Popen p =>
      if popen_running w p then
        match popen_terminate p w with
        | (Raise e, w1) => (Raise e, w1)
        | (Ok _, w1) =>
            match popen_wait p w1 with
            | Raise e => (Raise e, w1)
            | Ok _ =>
                (* force kill if still running *)
                if popen_running w1 p then popen_kill p w1 else (Ok tt, w1)
            end
        end
      else (Ok tt, w)
  end.

(** The loop itself: an exception is logged and the loop goes on. *)
Definition stop_processes (ps : list process_info) (w : world) : world :=
  fold_left (λ acc info, snd (stop_process (pi_process info) acc)) ps w.

Definition cleanup_temp_dir (sb : sandbox) (w : world) : world :=
  match sb_temp_dir sb with
  | Some d => if path_exists d w then rmtree_ignore_errors d w else w
  | None => w
  end.

Definition terminate_sandbox (name : string) (sbs : gmap string sandbox)
    (w : world) : bool * gmap string sandbox * world :=
  match sbs !! name with
  | None => (false, sbs, w)
  | Some sb =>
      let w1 := stop_processes (sb_processes sb) w in
      let w2 := cleanup_temp_dir sb w1 in
      (true, delete name sbs, w2)
  end.

(** [process.poll() is None] for every tracked process; a
    [psutil.Process] has no [poll] and the access raises. *)
Fixpoint running_processes (ps : list process_info) (w : world)
  : outcome (list process_info) :=
  match ps with
  | [] => Ok []
  | info :: ps' =>
      match pi_process info with
      | PsProcess _ => Raise AttributeError
      | Popen p =>
          match running_processes ps' w with
          | Raise e => Raise e
          | Ok rs => Ok (if popen_running w p then info :: rs else rs)
          end
      end
  end.

Definition check_sandbox_health (name : string) (sbs : gmap string sandbox)
    (w : world) : Health.t :=
  match sbs !! name with
  | None => Health.only "not_found"
  | Some sb =>
      match running_processes (sb_processes sb) w with
      | Raise e => Health.failed (str_exn e)
      | Ok rs =>
          {| Health.status := match rs with [] => "stopped" | _ => "running" end;
             Health.process_count := Some (length rs);
             Health.network_isolated := Some false;
             Health.identity_spoofed := Some true;
             Health.uptime := Some (now w - sb_creation_time sb)%Z;
             Health.directory := None;
             Health.pid := None;
             Health.start_time := None;
             Health.detected := None;
             Health.error := None |}
      end
  end.

End BuiltInSandbox.

(* ------------------------------------------------------------------ *)
(** ** Python list objects                                             *)
(* ------------------------------------------------------------------ *)

(** Lists are mutable objects: a variable holds a reference, and two
    variables may hold the same one.  The store maps references to the
    current contents. *)
Module Store.

Abbreviation loc := positive.
Abbreviation t := (gmap positive (list string)).

Definition deref (σ : t) (l : loc) : list string := default [] (σ !! l).

(** A new list object with contents [v]. *)
Definition alloc (σ : t) (v : list string) : loc * t :=
  let l := fresh (dom σ) in (l, <[l := v]> σ).

(** [l.append(x)]. *)
Definition append (l : loc) (x : string) (σ : t) : t :=
  <[l := (deref σ l ++ [x])%list]> σ.

(** Any in-place mutation of the object at [l] ([append], [remove],
    [clear], item assignment, ...), given by the contents it leaves. *)
Definition mutate (l : loc) (v : list string) (σ : t) : t := <[l := v]> σ.

End Store.

(* ------------------------------------------------------------------ *)
(** ** [sandbox_manager.py]                                            *)
(* ------------------------------------------------------------------ *)

Module SandboxManager.

(** An entry of [self.sandboxes]. *)
Record sandbox_info := {
  si_type : string;
  si_executable : string;
  si_creation_time : option Z;
  si_process : option handle;
  si_pid : option pid;
  si_start_time : option Z
}.

Record t := {
  config : gmap string string;
  sandboxes : gmap string sandbox_info;
  sandbox_executables : gmap string string;
  available_sandboxes : Store.loc;
  built_in_sandbox : gmap string BuiltInSandbox.sandbox;
  windows_sandbox : gmap string WindowsSandbox.sandbox;
  errors : list string      (* lines written by [self.logger.error] *)
}.

Definition set_sandboxes (sbs : gmap string sandbox_info) (m : t) : t :=
  {| config := config m; sandboxes := sbs;
     sandbox_executables := sandbox_executables m;
     available_sandboxes := available_sandboxes m;
     built_in_sandbox := built_in_sandbox m;
     windows_sandbox := windows_sandbox m; errors := errors m |}.

Definition set_executables (ex : gmap string string) (m : t) : t :=
  {| config := config m; sandboxes := sandboxes m;
     sandbox_executables := ex;
     available_sandboxes := available_sandboxes m;
     built_in_sandbox := built_in_sandbox m;
     windows_sandbox := windows_sandbox m; errors := errors m |}.

Definition set_built_in (b : gmap string BuiltInSandbox.sandbox) (m : t) : t :=
  {| config := config m; sandboxes := sandboxes m;
     sandbox_executables := sandbox_executables m;
     available_sandboxes := available_sandboxes m;
     built_in_sandbox := b;
     windows_sandbox := windows_sandbox m; errors := errors m |}.

Definition set_windows (b : gmap string WindowsSandbox.sandbox) (m : t) : t :=
  {| config := config m; sandboxes := sandboxes m;
     sandbox_executables := sandbox_executables m;
     available_sandboxes := available_sandboxes m;
     built_in_sandbox := built_in_sandbox m;
     windows_sandbox := b; errors := errors m |}.

Definition log_error (line : string) (m : t) : t :=
  {| config := config m; sandboxes := sandboxes m;
     sandbox_executables := sandbox_executables m;
     available_sandboxes := available_sandboxes m;
     built_in_sandbox := built_in_sandbox m;
     windows_sandbox := windows_sandbox m;
     errors := (errors m ++ [line])%list |}.

(** [d.get(key, "")]; the empty string is falsy. *)
Definition get_str (d : gmap string string) (key : string) : string :=
  default "" (d !! key).

Definition common_paths : list string :=
  ["C:\Program Files\Sandboxie\Start.exe";
   "C:\Program Files\Sandboxie-Plus\Start.exe";
   "C:\Program Files (x86)\Sandboxie\Start.exe";
   "C:\Program Files (x86)\Sandboxie-Plus\Start.exe"].

(** [_is_sandboxie_available]; a common path that is found is remembered
    in [sandbox_executables]. *)
Definition _is_sandboxie_available (ex : gmap string string) (w : world)
  : bool * gmap string string :=
  let path := get_str ex "sandboxie" in
  if negb (String.eqb path "") && path_exists path w then (true, ex)
  else match List.find (λ p, path_exists p w) common_paths with
       | Some common_path => (true, <["sandboxie" := common_path]> ex)
       | None => (false, ex)
       end.

(** [_is_windows_sandbox_available]: only the feature query. *)
Definition _is_windows_sandbox_available (w : world) : bool :=
  match feature_query w with
  | Some stdout => Py.str_in "Enabled" stdout
  | None => false
  end.

Definition _is_virtualbox_available (ex : gmap string string) (w : world)
  : bool :=
  let path := get_str ex "virtualbox" in
  if String.eqb path "" then false else path_exists path w.

(** [_check_available_sandboxes]: the list it builds. *)
Definition _check_available_sandboxes (ex : gmap string string) (w : world)
  : list string * gmap string string :=
  let '(sandboxie, ex1) := _is_sandboxie_available ex w in
  (((if sandboxie then ["sandboxie"] else [])
      ++ (if _is_windows_sandbox_available w then ["windows_sandbox"] else [])
      ++ (if _is_virtualbox_available ex1 w then ["virtualbox"] else []))%list,
   ex1).

(** [__init__]. *)
Definition init (cfg : gmap string string) (σ : Store.t) (w : world)
  : t * Store.t :=
  let ex0 : gmap string string :=
    <["virtualbox" := get_str cfg "virtualbox_path"]>
      (<["windows_sandbox" := "WindowsSandbox.exe"]>
         (<["sandboxie" := get_str cfg "sandboxie_path"]> ∅)) in
  let '(available, ex1) := _check_available_sandboxes ex0 w in
  let '(l, σ1) := Store.alloc σ available in
  let σ2 := if WindowsSandbox.is_available w
            then Store.append l "windows_sandbox" σ1 else σ1 in
  let σ3 := Store.append l "built_in" σ2 in
  ({| config := cfg; sandboxes := ∅; sandbox_executables := ex1;
      available_sandboxes := l; built_in_sandbox := ∅;
      windows_sandbox := ∅; errors := [] |}, σ3).

Definition is_sandbox_available (σ : Store.t) (m : t) (sandbox_type : string)
  : bool :=
  bool_decide (sandbox_type ∈ Store.deref σ (available_sandboxes m)).

(** [get_available_sandboxes]: [self.available_sandboxes.copy()]. *)
Definition get_available_sandboxes (σ : Store.t) (m : t)
  : Store.loc * Store.t :=
  Store.alloc σ (Store.deref σ (available_sandboxes m)).

(** What [launch_in_sandbox] returns: a boolean, the dictionary of the
    built-in backend, or the dictionary of [_launch_in_sandboxie]. *)
Inductive sandboxie_result :=
| SbxStarted (sandbox : string) (process : handle) (pid : OS.pid)
| SbxFailed (error : string).

Inductive launch_result :=
| RBool (b : bool)
| RBuiltIn (r : BuiltInSandbox.launch_result)
| RSandboxie (r : sandboxie_result).

(** Truth value of a result in [if result:]; a non-empty dictionary is
    true whatever it holds. *)
Definition truthy (r : launch_result) : bool :=
  match r with
  | RBool b => b
  | RBuiltIn _ | RSandboxie _ => true
  end.

Definition is_dict (r : launch_result) : bool :=
  match r with
  | RBool _ => false
  | RBuiltIn _ | RSandboxie _ => true
  end.

(** [result.get("success")]. *)
Definition success_field (r : launch_result) : option bool :=
  match r with
  | RBool _ => None
  | RBuiltIn (BuiltInSandbox.Launched _) => None
  | RBuiltIn (BuiltInSandbox.Failed _) => Some false
  | RSandboxie (SbxStarted _ _ _) => Some true
  | RSandboxie (SbxFailed _) => Some false
  end.

(** [result["process"]] and [result["pid"]], when the keys are there. *)
Definition process_field (r : launch_result) : option handle :=
  match r with
  | RBuiltIn (BuiltInSandbox.Launched info) => Some (BuiltInSandbox.pi_process info)
  | RSandboxie (SbxStarted _ h _) => Some h
  | _ => None
  end.

Definition pid_field (r : launch_result) : option pid :=
  match r with
  | RBuiltIn (BuiltInSandbox.Launched info) => Some (BuiltInSandbox.pi_pid info)
  | RSandboxie (SbxStarted _ _ p) => Some p
  | _ => None
  end.

(** The value is a failure: [False], or a dictionary whose [success] is
    [False]. *)
Definition is_failure (r : launch_result) : bool :=
  match r with
  | RBool b => negb b
  | _ => bool_decide (success_field r = Some false)
  end.

(** What the environment contributes to one launch. *)
Record launch_env := {
  le_built_in : BuiltInSandbox.launch_env;
  le_windows : WindowsSandbox.draw;
  le_spawn : spawn;       (* fate of the sandbox host or Sandboxie launcher *)
  le_stderr : string      (* what a launcher that exits at once has written *)
}.

(** The dictionary stored by [launch_in_sandbox] under the name. *)
Definition info_of (sandbox_type executable_path : string) (w : world)
  : sandbox_info :=
  {| si_type := sandbox_type; si_executable := executable_path;
     si_creation_time := Some (now w); si_process := None; si_pid := None;
     si_start_time := None |}.

(** [_launch_in_sandboxie]. *)
Definition _launch_in_sandboxie (executable_path : string)
    (args : list string) (name : string) (env : launch_env) (m : t)
    (w : world) : sandboxie_result * t * world :=
  let sandboxie_path := get_str (sandbox_executables m) "sandboxie" in
  if String.eqb sandboxie_path "" then
    (SbxFailed "Sandboxie path not configured",
     log_error "Sandboxie path not configured" m, w)
  else if negb (path_exists sandboxie_path w) then
    (SbxFailed ("Sandboxie executable not found at " +:+ sandboxie_path),
     log_error ("Sandboxie executable not found at " +:+ sandboxie_path) m, w)
  else
    let name := if String.eqb name "" then "Sandbox_" +:+ pretty (now w)
                else name in
    match popen (le_spawn env) w with
    | (Raise e, w1) =>
        (SbxFailed (str_exn e),
         log_error ("Error launching in Sandboxie: " +:+ str_exn e) m, w1)
    | (Ok process, w1) =>
        if negb (popen_running w1 (handle_pid process)) then
          (* the launcher has already exited *)
          let error_msg := if String.eqb (le_stderr env) "" then "Unknown error"
                           else le_stderr env in
          (SbxFailed error_msg,
           log_error ("Failed to launch in Sandboxie: " +:+ error_msg) m, w1)
        else
          let info :=
            {| si_type := "sandboxie"; si_executable := executable_path;
               si_creation_time := None; si_process := Some process;
               si_pid := Some (handle_pid process);
               si_start_time := Some (now w1) |} in
          (SbxStarted name process (handle_pid process),
           set_sandboxes (<[name := info]> (sandboxes m)) m, w1)
    end.

(** [_launch_in_virtualbox]. *)
Definition _launch_in_virtualbox (executable_path : string)
    (args : list string) (name : string) : bool := true.

(** [launch_in_sandbox]. *)
Definition launch_in_sandbox (σ : Store.t) (sandbox_type executable_path : string)
    (args : list string) (name : string) (env : launch_env) (m : t)
    (w : world) : launch_result * t * world :=
  if negb (is_sandbox_available σ m sandbox_type) then
    (RBool false,
     log_error ("Sandbox type " +:+ sandbox_type +:+ " not available") m, w)
  else if negb (path_exists executable_path w) then
    (RBool false,
     log_error ("Executable path does not exist: " +:+ executable_path) m, w)
  else
    (* generate a name if not provided *)
    let name := if String.eqb name "" then "sandbox_" +:+ pretty (now w)
                else name in
    if String.eqb sandbox_type "built_in" then
      let '(r, b, w1) :=
        BuiltInSandbox.launch_in_sandbox name executable_path args
          (le_built_in env) (built_in_sandbox m) w in
      let result := RBuiltIn r in
      let m1 := set_built_in b m in
      let m2 :=
        if is_dict result && negb (bool_decide (success_field result = Some false))
        then set_sandboxes
               (<[name := info_of "built_in" executable_path w1]> (sandboxes m1)) m1
        else m1 in
      (result, m2, w1)
    else if String.eqb sandbox_type "windows_sandbox" then
      let '(r, b, w1) :=
        WindowsSandbox.launch_in_sandbox name executable_path
          (le_windows env) (le_spawn env) (windows_sandbox m) w in
      let result := RBool r in
      let m1 := set_windows b m in
      let m2 :=
        if truthy result
        then set_sandboxes
               (<[name := info_of "windows_sandbox" executable_path w1]> (sandboxes m1)) m1
        else m1 in
      (result, m2, w1)
    else if String.eqb sandbox_type "sandboxie" then
      let '(r, m1, w1) := _launch_in_sandboxie executable_path args name env m w in
      let result := RSandboxie r in
      let m2 :=
        if truthy result
        then set_sandboxes
               (<[name := info_of "sandboxie" executable_path w1]> (sandboxes m1)) m1
        else m1 in
      (result, m2, w1)
    else if String.eqb sandbox_type "virtualbox" then
      let result := RBool (_launch_in_virtualbox executable_path args name) in
      let m2 :=
        if truthy result
        then set_sandboxes
               (<[name := info_of "virtualbox" executable_path w]> (sandboxes m)) m
        else m in
      (result, m2, w)
    else
      (RBool false,
       log_error ("Unsupported sandbox type: " +:+ sandbox_type) m, w).

(** A Sandboxie-branded process whose command line names the box. *)
Definition is_box_process (name : string) (pr : os_proc) : bool :=
  Py.str_in "sandboxie" (Py.lower (p_name pr))
  && existsb (λ arg, Py.str_in ("/box:" +:+ name) (Py.lower arg)) (p_cmdline pr).

(** [_check_sandboxie_health]. *)
Definition _check_sandboxie_health (name : string) (m : t) (w : world)
  : Health.t :=
  let tracked :=
    match sandboxes m !! name with
    | Some info =>
        match si_process info with
        | Some (Popen p) =>
            if popen_running w p then Some (Ok info) else None
        | Some (PsProcess _) => Some (Raise AttributeError)
        | None => None
        end
    | None => None
    end in
  match tracked with
  | Some (Raise e) => Health.failed (str_exn e)
  | Some (Ok info) =>
      {| Health.status := "running";
         Health.process_count := None;
         Health.network_isolated := Some true;
         Health.identity_spoofed := None;
         Health.uptime := Some (now w - default (now w) (si_start_time info))%Z;
         Health.directory := None;
         Health.pid := si_pid info;
         Health.start_time := Some (default 0%Z (si_start_time info));
         Health.detected := None;
         Health.error := None |}
  | None =>
      match List.find (λ e, is_box_process name (snd e)) (procs w) with
      | Some (p, _) =>
          {| Health.status := "running";
             Health.process_count := None;
             Health.network_isolated := Some true;
             Health.identity_spoofed := None;
             Health.uptime := None;
             Health.directory := None;
             Health.pid := Some p;
             Health.start_time := None;
             Health.detected := Some true;
             Health.error := None |}
      | None => Health.only "not_running"
      end
  end.

(** [_check_virtualbox_health]. *)
Definition _check_virtualbox_health (name : string) : Health.t :=
  {| Health.status := "running";
     Health.process_count := None;
     Health.network_isolated := Some true;
     Health.identity_spoofed := None;
     Health.uptime := None;
     Health.directory := None;
     Health.pid := None;
     Health.start_time := None;
     Health.detected := None;
     Health.error := None |}.

(** [check_sandbox_health]. *)
Definition check_sandbox_health (name : string) (m : t) (w : world)
  : Health.t :=
  match sandboxes m !! name with
  | None => Health.only "not_found"
  | Some info =>
      let sandbox_type := si_type info in
      if String.eqb sandbox_type "built_in" then
        BuiltInSandbox.check_sandbox_health name (built_in_sandbox m) w
      else if String.eqb sandbox_type "sandboxie" then
        _check_sandboxie_health name m w
      else if String.eqb sandbox_type "windows_sandbox" then
        WindowsSandbox.check_sandbox_health name (windows_sandbox m) w
      else if String.eqb sandbox_type "virtualbox" then
        _check_virtualbox_health name
      else Health.only "unknown_type"
  end.

(** The scan of [_terminate_sandboxie]: every matching process is asked
    to terminate; a refusal is skipped. *)
Fixpoint terminate_box_processes (name : string)
    (pt : list (pid * os_proc)) (w : world) : bool * world :=
  match pt with
  | [] => (false, w)
  | (p, pr) :: pt' =>
      if is_box_process name pr then
        match ps_terminate p w with
        | (Ok _, w1) =>
            let '(_, w2) := terminate_box_processes name pt' w1 in (true, w2)
        | (Raise _, w1) => terminate_box_processes name pt' w1
        end
      else terminate_box_processes name pt' w
  end.

(** [_terminate_sandboxie]. *)
Definition _terminate_sandboxie (name : string) (m : t) (w : world)
  : bool * t * world :=
  let by_handle :=
    match sandboxes m !! name with
    | Some info =>
        match si_process info with
        | Some (Popen p) =>
            match popen_terminate p w with
            | (Ok _, w1) =>
                match popen_wait p w1 with
                | Ok _ => (true, w1)
                | Raise _ => (false, w1)
                end
            | (Raise _, w1) => (false, w1)
            end
        | Some (PsProcess p) =>
            match ps_terminate p w with
            | (Ok _, w1) =>
                match ps_wait p w1 with
                | Ok _ => (true, w1)
                | Raise _ => (false, w1)
                end
            | (Raise _, w1) => (false, w1)
            end
        | None => (false, w)
        end
    | None => (false, w)
    end in
  match by_handle with
  | (true, w1) => (true, set_sandboxes (delete name (sandboxes m)) m, w1)
  | (false, w1) =>
      let '(terminated, w2) := terminate_box_processes name (procs w1) w1 in
      if terminated
      then (true, set_sandboxes (delete name (sandboxes m)) m, w2)
      else (false, m, w2)
  end.

(** [_terminate_virtualbox]. *)
Definition _terminate_virtualbox (name : string) : bool := true.

(** [terminate_sandbox]. *)
Definition terminate_sandbox (name : string) (m : t) (w : world)
  : bool * t * world :=
  match sandboxes m !! name with
  | None => (false, m, w)
  | Some info =>
      let sandbox_type := si_type info in
      if String.eqb sandbox_type "built_in" then
        let '(r, b, w1) :=
          BuiltInSandbox.terminate_sandbox name (built_in_sandbox m) w in
        (r, set_built_in b m, w1)
      else if String.eqb sandbox_type "sandboxie" then
        _terminate_sandboxie name m w
      else if String.eqb sandbox_type "windows_sandbox" then
        let '(r, b, w1) :=
          WindowsSandbox.terminate_sandbox name (windows_sandbox m) w in
        (r, set_windows b m, w1)
      else if String.eqb sandbox_type "virtualbox" then
        (_terminate_virtualbox name, m, w)
      else
        (false, log_error ("Unsupported sandbox type: " +:+ sandbox_type) m, w)
  end.

End SandboxManager.

(* ------------------------------------------------------------------ *)
(** ** Python dictionaries whose iteration order is observed           *)
(* ------------------------------------------------------------------ *)

(** A [dict] keeps its keys in insertion order; assigning to a key that is
    present keeps its place. *)
Module Dict.

Section Ops.
Context {V : Type}.

Definition t := list (string * V).

Fixpoint get (d : t) (k : string) : option V :=
  match d with
  | [] => None
  | (k', v) :: d' => if String.eqb k' k then Some v else get d' k
  end.

Definition mem (d : t) (k : string) : bool :=
  match get d k with Some _ => true | None => false end.

(** [d[k] = v]. *)
Fixpoint set (d : t) (k : string) (v : V) : t :=
  match d with
  | [] => [(k, v)]
  | (k', v') :: d' =>
      if String.eqb k' k then (k', v) :: d' else (k', v') :: set d' k v
  end.

(** [del d[k]] for a key that is present; nothing otherwise. *)
Fixpoint del (d : t) (k : string) : t :=
  match d with
  | [] => []
  | (k', v') :: d' =>
      if String.eqb k' k then d' else (k', v') :: del d' k
  end.

(** [list(d.keys())]. *)
Definition keys (d : t) : list string := map fst d.
End Ops.

Arguments t V : clear implicits.

End Dict.

(* ------------------------------------------------------------------ *)
(** ** [game_launcher_service.py]                                      *)
(* ------------------------------------------------------------------ *)

Module GameLauncherService.

(** A record dictionary of [self.running_games]; a key that is absent is
    [None]. *)
Record game_dict := {
  gd_game_id : option string;
  gd_sandbox : option string;
  gd_sandbox_type : option string;
  gd_start_time : option Z;
  gd_in_sandbox : option bool;
  gd_process_info_pending : option bool;
  gd_process : option handle;
  gd_pid : option pid;
  gd_terminated : option bool;
  gd_end_time : option Z
}.

(** The values of [self.running_games] are of three shapes: the [Popen]
    object itself ([launch_game]), a record dictionary (sandboxed
    launches), or a boolean (handled by the code, stored nowhere). *)
Inductive game_info :=
| GIPopen (h : handle)
| GIDict (d : game_dict)
| GIBool (b : bool).

Record t := {
  games : gmap string string;                (* game_id -> path *)
  running_games : Dict.t game_info;          (* instance_id -> value *)
  monitoring : bool;                         (* the monitor thread is alive *)
  removals : list (Z * string);              (* pending [remove_after_delay]
                                                threads: due time, instance *)
  sandbox_manager : SandboxManager.t
}.

Definition set_running (rg : Dict.t game_info) (s : t) : t :=
  {| games := games s; running_games := rg; monitoring := monitoring s;
     removals := removals s; sandbox_manager := sandbox_manager s |}.

Definition set_manager (m : SandboxManager.t) (s : t) : t :=
  {| games := games s; running_games := running_games s;
     monitoring := monitoring s; removals := removals s;
     sandbox_manager := m |}.

Definition start_monitoring (s : t) : t :=
  {| games := games s; running_games := running_games s; monitoring := true;
     removals := removals s; sandbox_manager := sandbox_manager s |}.

Definition schedule_removal (due : Z) (instance_id : string) (s : t) : t :=
  {| games := games s; running_games := running_games s;
     monitoring := monitoring s;
     removals := (removals s ++ [(due, instance_id)])%list;
     sandbox_manager := sandbox_manager s |}.

(** [register_game]. *)
Definition register_game (game_id game_path : string) (s : t) (w : world)
  : bool * t :=
  if negb (path_exists game_path w) then (false, s)
  else (true,
        {| games := <[game_id := game_path]> (games s);
           running_games := running_games s; monitoring := monitoring s;
           removals := removals s; sandbox_manager := sandbox_manager s |}).

(** [launch_game]. *)
Definition launch_game (game_id : string) (args : list string) (sp : spawn)
    (s : t) (w : world) : bool * t * world :=
  match games s !! game_id with
  | None => (false, s, w)
  | Some game_path =>
      if Dict.mem (running_games s) game_id then (false, s, w)
      else
        match popen sp w with
        | (Raise _, w1) => (false, s, w1)
        | (Ok process, w1) =>
            (true,
             start_monitoring
               (set_running (Dict.set (running_games s) game_id (GIPopen process)) s),
             w1)
        end
  end.

(** The instance identifier of a sandboxed launch:
    [f"{game_id}_{int(time.time())}_{uuid.uuid4().hex[:8]}"]. *)
Definition mint_instance_id (game_id : string) (ts : Z) (u : N) : string :=
  game_id +:+ "_" +:+ pretty ts +:+ "_" +:+ Py.take 8 (Py.uuid_hex u).

(** [launch_game_in_sandbox]; [u] is the value of [uuid.uuid4()]. *)
Definition launch_game_in_sandbox (σ : Store.t) (game_id sandbox_type : string)
    (args : list string) (u : N) (env : SandboxManager.launch_env)
    (s : t) (w : world) : bool * t * world :=
  match games s !! game_id with
  | None => (false, s, w)
  | Some game_path =>
      let instance_id := mint_instance_id game_id (now w) u in
      let sandbox_name := game_id +:+ "_" +:+ pretty (now w) in
      let '(result, m, w1) :=
        SandboxManager.launch_in_sandbox σ sandbox_type game_path args
          sandbox_name env (sandbox_manager s) w in
      let s1 := set_manager m s in
      if SandboxManager.truthy result then
        if SandboxManager.is_dict result then
          if bool_decide (SandboxManager.success_field result = Some false)
          then (false, s1, w1)
          else
            let d :=
              {| gd_game_id := Some game_id;
                 gd_sandbox := Some sandbox_name;
                 gd_sandbox_type := Some sandbox_type;
                 gd_start_time := Some (now w1);
                 gd_in_sandbox := Some true;
                 gd_process_info_pending := None;
                 gd_process := SandboxManager.process_field result;
                 gd_pid := SandboxManager.pid_field result;
                 gd_terminated := None;
                 gd_end_time := None |} in
            (true,
             start_monitoring
               (set_running (Dict.set (running_games s1) instance_id (GIDict d)) s1),
             w1)
        else
          let d :=
            {| gd_game_id := Some game_id;
               gd_sandbox := Some sandbox_name;
               gd_sandbox_type := Some sandbox_type;
               gd_start_time := Some (now w1);
               gd_in_sandbox := Some true;
               gd_process_info_pending := Some true;
               gd_process := None;
               gd_pid := None;
               gd_terminated := None;
               gd_end_time := None |} in
          (true,
           start_monitoring
             (set_running (Dict.set (running_games s1) instance_id (GIDict d)) s1),
           w1)
      else (false, s1, w1)
  end.

Definition mark_terminated (end_time : Z) (d : game_dict) : game_dict :=
  {| gd_game_id := gd_game_id d; gd_sandbox := gd_sandbox d;
     gd_sandbox_type := gd_sandbox_type d; gd_start_time := gd_start_time d;
     gd_in_sandbox := gd_in_sandbox d;
     gd_process_info_pending := gd_process_info_pending d;
     gd_process := gd_process d; gd_pid := gd_pid d;
     gd_terminated := Some true; gd_end_time := Some end_time |}.

Definition set_process (h : handle) (d : game_dict) : game_dict :=
  {| gd_game_id := gd_game_id d; gd_sandbox := gd_sandbox d;
     gd_sandbox_type := gd_sandbox_type d; gd_start_time := gd_start_time d;
     gd_in_sandbox := gd_in_sandbox d;
     gd_process_info_pending := gd_process_info_pending d;
     gd_process := Some h; gd_pid := Some (handle_pid h);
     gd_terminated := gd_terminated d; gd_end_time := gd_end_time d |}.

(** [terminate(); wait(timeout=5)] and, when that raises one of the psutil
    exceptions, [kill()], on a [psutil.Process]: the value of the local
    [terminated] afterwards. *)
Definition ps_stop (p : pid) (w : world) : bool * world :=
  let graceful :=
    match ps_terminate p w with
    | (Raise e, w1) => (Raise e, w1)
    | (Ok _, w1) => (ps_wait p w1, w1)
    end in
  match graceful with
  | (Ok _, w1) => (true, w1)
  | (Raise _, w1) =>
      match ps_kill p w1 with
      | (Ok _, w2) => (true, w2)
      | (Raise _, w2) => (false, w2)
      end
  end.

(** First stage of [terminate_game], the handle stored in the record.
    On a [Popen] the call of [terminate()] is outside every inner [try]:
    what it raises leaves the function's [try]. *)
Definition stop_by_handle (d : game_dict) (w : world)
  : outcome bool * world :=
  match gd_process d with
  | None => (Ok false, w)
  | Some (PsProcess p) => let '(b, w1) := ps_stop p w in (Ok b, w1)
  | Some (Popen p) =>
      match popen_terminate p w with
      | (Raise e, w1) => (Raise e, w1)
      | (Ok _, w1) =>
          match popen_wait p w1 with
          | Ok _ => (Ok true, w1)
          | Raise _ =>
              match popen_kill p w1 with
              | (Ok _, w2) => (Ok true, w2)
              | (Raise _, w2) => (Ok false, w2)
              end
          end
      end
  end.

(** [kill()] in the handler of the second stage, on whatever the local
    [process] is bound to; only the psutil exceptions are caught there. *)
Definition kill_bound (process : option handle) (w : world)
  : outcome bool * world :=
  match process with
  | None => (Raise UnboundLocalError, w)
  | Some (PsProcess p) =>
      match ps_kill p w with
      | (Ok _, w1) => (Ok true, w1)
      | (Raise _, w1) => (Ok false, w1)
      end
  | Some (Popen p) =>
      match popen_kill p w with
      | (Ok _, w1) => (Ok true, w1)
      | (Raise e, w1) => (Raise e, w1)
      end
  end.

(** Second stage, by process identifier, entered when the first has not
    set [terminated]. *)
Definition stop_by_pid (d : game_dict) (w : world) : outcome bool * world :=
  match gd_pid d with
  | None => (Ok false, w)
  | Some p =>
      match ps_open w p with
      | Raise _ => kill_bound (gd_process d) w
      | Ok _ =>
          match ps_terminate p w with
          | (Raise _, w1) => kill_bound (Some (PsProcess p)) w1
          | (Ok _, w1) =>
              match ps_wait p w1 with
              | Ok _ => (Ok true, w1)
              | Raise _ => kill_bound (Some (PsProcess p)) w1
              end
          end
      end
  end.

(** The [try] block of [terminate_game] for a record dictionary. *)
Definition terminate_record (instance_id : string) (d : game_dict) (s : t)
    (w : world) : outcome unit * t * world :=
  match stop_by_handle d w with
  | (Raise e, w1) => (Raise e, s, w1)
  | (Ok terminated, w1) =>
      let second :=
        if negb terminated then stop_by_pid d w1 else (Ok terminated, w1) in
      match second with
      | (Raise e, w2) => (Raise e, s, w2)
      | (Ok terminated, w2) =>
          (* for sandbox games, terminate the sandbox *)
          let '(terminated, s3, w3) :=
            match gd_in_sandbox d, gd_sandbox d with
            | Some true, Some sandbox_name =>
                let '(_, m, w3) :=
                  SandboxManager.terminate_sandbox sandbox_name
                    (sandbox_manager s) w2 in
                (true, set_manager m s, w3)
            | _, _ => (terminated, s, w2)
            end in
          (* mark as terminated, then remove from running games *)
          let marked :=
            Dict.set (running_games s3) instance_id
              (GIDict (mark_terminated (now w3) d)) in
          (Ok tt, set_running (Dict.del marked instance_id) s3, w3)
      end
  end.

(** [terminate_game]. *)
Definition terminate_game (instance_id : string) (s : t) (w : world)
  : bool * t * world :=
  match Dict.get (running_games s) instance_id with
  | None => (false, s, w)
  | Some (GIBool _) => (false, s, w)
  | Some (GIPopen _) =>
      (* ["process" in game_info] on a Popen object raises TypeError *)
      (false, s, w)
  | Some (GIDict d) =>
      match terminate_record instance_id d s w with
      | (Ok _, s1, w1) => (true, s1, w1)
      | (Raise _, s1, w1) => (false, s1, w1)
      end
  end.

(** Liveness of the process of a record, as [_update_running_games]
    determines it before it looks at the sandbox. *)
Definition process_alive (d : game_dict) (w : world) : bool :=
  match gd_process d with
  | Some (PsProcess p) => ps_running w p
  | Some (Popen p) => popen_running w p
  | None =>
      match gd_pid d with
      | Some p => ps_running w p
      | None => false
      end
  end.

(** Rediscovery for the built-in backend: the first process whose name is
    the executable's. *)
Definition rediscover (s : t) (d : game_dict) (w : world) : option pid :=
  match gd_game_id d with
  | None => None
  | Some game_id =>
      match games s !! game_id with
      | None => None
      | Some executable_path =>
          let executable_name := Py.lower (Py.basename executable_path) in
          fst <$> List.find
            (λ e, String.eqb (Py.lower (p_name (snd e))) executable_name)
            (procs w)
      end
  end.

(** One iteration of the loop of [_update_running_games]. *)
Definition update_one (instance_id : string) (s : t) (w : world)
  : outcome t :=
  match Dict.get (running_games s) instance_id with
  | None => Raise KeyError
  | Some (GIPopen _) => Raise AttributeError   (* no [get] on a Popen object *)
  | Some (GIBool _) => Raise AttributeError    (* nor on a boolean *)
  | Some (GIDict d) =>
      if bool_decide (gd_terminated d = Some true) then Ok s
      else
        let is_running := process_alive d w in
        let '(is_running, d) :=
          match negb is_running, gd_in_sandbox d, gd_sandbox d with
          | true, Some true, Some sandbox_name =>
              let sandbox_type := default "unknown" (gd_sandbox_type d) in
              if String.eqb sandbox_type "built_in" then
                match rediscover s d w with
                | Some p => (true, set_process (PsProcess p) d)
                | None => (is_running, d)
                end
              else
                let health :=
                  SandboxManager.check_sandbox_health sandbox_name
                    (sandbox_manager s) w in
                (String.eqb (Health.status health) "running", d)
          | _, _, _ => (is_running, d)
          end in
        if is_running then
          Ok (set_running (Dict.set (running_games s) instance_id (GIDict d)) s)
        else
          Ok (schedule_removal (now w + 2) instance_id
                (set_running
                   (Dict.set (running_games s) instance_id
                      (GIDict (mark_terminated (now w) d))) s))
  end.

(** The loop over the snapshot of the keys; an exception ends it, and
    what was done before stays done. *)
Fixpoint update_loop (instance_ids : list string) (s : t) (w : world) : t :=
  match instance_ids with
  | [] => s
  | instance_id :: rest =>
      match update_one instance_id s w with
      | Ok s1 => update_loop rest s1 w
      | Raise _ => s
      end
  end.

(** [_update_running_games]. *)
Definition _update_running_games (s : t) (w : world) : t :=
  update_loop (Dict.keys (running_games s)) s w.

(** [get_running_games]. *)
Definition get_running_games (s : t) (w : world) : list string * t :=
  let s1 := _update_running_games s w in
  (Dict.keys (running_games s1), s1).

(** The [remove_after_delay] threads whose two seconds have passed. *)
Definition fire_removals (s : t) (w : world) : t :=
  let due := List.filter (λ r, (fst r <=? now w)%Z) (removals s) in
  let rest := List.filter (λ r, negb (fst r <=? now w)%Z) (removals s) in
  {| games := games s;
     running_games :=
       fold_left (λ rg r, Dict.del rg (snd r)) due (running_games s);
     monitoring := monitoring s;
     removals := rest;
     sandbox_manager := sandbox_manager s |}.

(** One turn of [_monitor_games]: a pass, then [time.sleep(1.0)].  The
    removal threads are run when the clock has reached their time. *)
Definition monitor_turn (s : t) (w : world) : t * world :=
  let s1 := _update_running_games s w in
  let w1 := sleep 1 w in
  (fire_removals s1 w1, w1).

Fixpoint monitor_turns (n : nat) (s : t) (w : world) : t * world :=
  match n with
  | O => (s, w)
  | S n' => let '(s1, w1) := monitor_turn s w in monitor_turns n' s1 w1
  end.

(** [is_game_registered]. *)
Definition is_game_registered (game_id : string) (s : t) : bool :=
  bool_decide (is_Some (games s !! game_id)).

(** [unregister_game]: a game that is running (a value is recorded under
    its identifier) is terminated first. *)
Definition unregister_game (game_id : string) (s : t) (w : world)
  : bool * t * world :=
  match games s !! game_id with
  | None => (false, s, w)
  | Some _ =>
      let '(s1, w1) :=
        if Dict.mem (running_games s) game_id
        then let '(_, s1, w1) := terminate_game game_id s w in (s1, w1)
        else (s, w) in
      (true,
       {| games := delete game_id (games s1);
          running_games := running_games s1; monitoring := monitoring s1;
          removals := removals s1; sandbox_manager := sandbox_manager s1 |},
       w1)
  end.

(** The test of the loop of [is_game_running] on one entry. *)
Definition is_instance_of (game_id : string) (entry : string * game_info)
  : bool :=
  match snd entry with
  | GIDict d =>
      bool_decide (gd_game_id d = Some game_id) || String.eqb (fst entry) game_id
  | _ => String.eqb (fst entry) game_id
  end.

(** [is_game_running]. *)
Definition is_game_running (game_id : string) (s : t) (w : world) : bool * t :=
  let s1 := _update_running_games s w in
  (existsb (is_instance_of game_id) (running_games s1), s1).

(** [is_game_in_sandbox]. *)
Definition is_game_in_sandbox (instance_id : string) (s : t) : bool :=
  match Dict.get (running_games s) instance_id with
  | Some (GIDict d) => default false (gd_in_sandbox d)
  | _ => false
  end.

(** [get_available_sandbox_types]. *)
Definition get_available_sandbox_types (σ : Store.t) (s : t)
  : Store.loc * Store.t :=
  SandboxManager.get_available_sandboxes σ (sandbox_manager s).

(** [del game_info["sandbox"]]. *)
Definition drop_sandbox (d : game_dict) : game_dict :=
  {| gd_game_id := gd_game_id d; gd_sandbox := None;
     gd_sandbox_type := gd_sandbox_type d; gd_start_time := gd_start_time d;
     gd_in_sandbox := gd_in_sandbox d;
     gd_process_info_pending := gd_process_info_pending d;
     gd_process := gd_process d; gd_pid := gd_pid d;
     gd_terminated := gd_terminated d; gd_end_time := gd_end_time d |}.

(** [not game_info]: the dictionary has no key at all. *)
Definition is_empty_dict (d : game_dict) : bool :=
  match gd_game_id d, gd_sandbox d, gd_sandbox_type d, gd_start_time d,
        gd_in_sandbox d, gd_process_info_pending d, gd_process d, gd_pid d,
        gd_terminated d, gd_end_time d with
  | None, None, None, None, None, None, None, None, None, None => true
  | _, _, _, _, _, _, _, _, _, _ => false
  end.

(** [terminate_sandbox] of the service.  The function has no [try]: the
    test ["sandbox" not in game_info] on a value that is not a dictionary
    raises, and the exception reaches the caller. *)
Definition terminate_sandbox (game_id : string) (s : t) (w : world)
  : outcome bool * t * world :=
  match Dict.get (running_games s) game_id with
  | None => (Ok false, s, w)
  | Some (GIPopen _) => (Raise TypeError, s, w)
  | Some (GIBool _) => (Raise TypeError, s, w)
  | Some (GIDict d) =>
      match gd_sandbox d with
      | None => (Ok false, s, w)
      | Some sandbox_name =>
          let '(success, m, w1) :=
            SandboxManager.terminate_sandbox sandbox_name (sandbox_manager s) w in
          let s1 := set_manager m s in
          if success then
            let d' := drop_sandbox d in
            let rg := Dict.set (running_games s1) game_id (GIDict d') in
            (Ok true,
             set_running (if is_empty_dict d' then Dict.del rg game_id else rg) s1,
             w1)
          else (Ok false, s1, w1)
      end
  end.

(** The dictionary returned by [check_sandbox_network]. *)
Record network_status := {
  ns_status : string;
  ns_network_isolated : option bool;
  ns_sandbox_status : option Health.t;
  ns_details : option Health.t;
  ns_accessible : option (list string);
  ns_sandbox_type : option string
}.

Definition status_only (status : string) : network_status :=
  {| ns_status := status; ns_network_isolated := None;
     ns_sandbox_status := None; ns_details := None; ns_accessible := None;
     ns_sandbox_type := None |}.

(** [check_sandbox_network].  No code of the application writes the key
    [network_isolation] that the function consults for the built-in
    backend; the records have no such key. *)
Definition check_sandbox_network (instance_id : string) (s : t) (w : world)
  : network_status :=
  match Dict.get (running_games s) instance_id with
  | None => status_only "not_running"
  | Some (GIPopen _) => status_only "invalid_info"
  | Some (GIBool _) => status_only "invalid_info"
  | Some (GIDict d) =>
      if bool_decide (gd_terminated d = Some true) then status_only "not_running"
      else if negb (default false (gd_in_sandbox d)) then status_only "no_sandbox"
      else
        match gd_sandbox d with
        | None => status_only "no_sandbox_name"
        | Some sandbox_name =>
            if String.eqb sandbox_name "" then status_only "no_sandbox_name"
            else
              let sandbox_type := default "unknown" (gd_sandbox_type d) in
              let m := sandbox_manager s in
              let health :=
                if String.eqb sandbox_type "built_in" then
                  BuiltInSandbox.check_sandbox_health sandbox_name
                    (SandboxManager.built_in_sandbox m) w
                else if String.eqb sandbox_type "windows_sandbox" then
                  WindowsSandbox.check_sandbox_health sandbox_name
                    (SandboxManager.windows_sandbox m) w
                else SandboxManager.check_sandbox_health sandbox_name m w in
              if negb (String.eqb (Health.status health) "running") then
                {| ns_status := "sandbox_not_running";
                   ns_network_isolated := None; ns_sandbox_status := None;
                   ns_details := Some health; ns_accessible := None;
                   ns_sandbox_type := None |}
              else
                let network_isolated :=
                  default false (Health.network_isolated health) in
                {| ns_status := if network_isolated then "ok"
                                else "network_not_isolated";
                   ns_network_isolated := Some network_isolated;
                   ns_sandbox_status := Some health;
                   ns_details := None;
                   ns_accessible := Some (if network_isolated then []
                                          else ["Internet"]);
                   ns_sandbox_type := Some sandbox_type |}
        end
  end.

End GameLauncherService.

(* ------------------------------------------------------------------ *)
(** ** [dependency_installer.py]                                       *)
(* ------------------------------------------------------------------ *)

Module DependencyInstaller.

(** [is_dependency_installed]: the module can be imported. *)
Definition is_dependency_installed (module_name : string)
    (importable : gset string) : bool :=
  bool_decide (module_name ∈ importable).

(** [install_dependency]: [pip] decides; a package that was installed can
    be imported from then on. *)
Definition install_dependency (pip : string → bool) (module_name : string)
    (importable : gset string) : bool * gset string :=
  if pip module_name then (true, {[ module_name ]} ∪ importable)
  else (false, importable).

(** The loop of [ensure_dependencies]. *)
Fixpoint ensure_loop (pip : string → bool) (dependencies : list string)
    (importable : gset string) (failed : list string)
  : list string * gset string :=
  match dependencies with
  | [] => (failed, importable)
  | dependency :: rest =>
      if negb (is_dependency_installed dependency importable) then
        let '(installed, importable1) :=
          install_dependency pip dependency importable in
        if negb installed
        then ensure_loop pip rest importable1 (failed ++ [dependency])
        else ensure_loop pip rest importable1 failed
      else ensure_loop pip rest importable failed
  end.

(** [ensure_dependencies]. *)
Definition ensure_dependencies (pip : string → bool)
    (dependencies : list string) (importable : gset string)
  : bool * list string :=
  let failed_dependencies := (ensure_loop pip dependencies importable []).1 in
  (Nat.eqb (length failed_dependencies) 0, failed_dependencies).

End DependencyInstaller.

(* ------------------------------------------------------------------ *)
(** ** Concrete hosts, draws and processes used in the examples        *)
(* ------------------------------------------------------------------ *)

Module Scenario.

Definition game_path : string := "C:\Games\demo.exe".

(** A host where only the game is installed. *)
Definition bare : world :=
  {| now := 1700000000; tempdir := "C:\Temp"; paths := {[ game_path ]};
     pinned := ∅; unwritable := ∅; procs := []; feature_query := None |}.

(** The optional feature is enabled, the sandbox host binary is not on
    disk. *)
Definition feature_without_binary : world :=
  {| now := 1700000000; tempdir := "C:\Temp"; paths := {[ game_path ]};
     pinned := ∅; unwritable := ∅; procs := [];
     feature_query := Some "State            : Enabled" |}.

(** Binary and feature are both there. *)
Definition windows_sandbox_host : world :=
  {| now := 1700000000; tempdir := "C:\Temp";
     paths := {[ game_path; WindowsSandbox.sandbox_path ]};
     pinned := ∅; unwritable := ∅; procs := [];
     feature_query := Some "State : Enabled" |}.

(** Sandboxie-Plus is installed at one of the common paths. *)
Definition sandboxie_host : world :=
  {| now := 1700000000; tempdir := "C:\Temp";
     paths := {[ game_path; "C:\Program Files\Sandboxie-Plus\Start.exe" ]};
     pinned := ∅; unwritable := ∅; procs := []; feature_query := None |}.

Definition base_draw : BuiltInSandbox.base_draw :=
  {| BuiltInSandbox.bd_uuid := 0x0123456789abcdef0123456789abcdef;
     BuiltInSandbox.bd_hwid := λ i, 7 * i;
     BuiltInSandbox.bd_mac := λ i, N.of_nat (40 * i);
     BuiltInSandbox.bd_computer_name := λ i, 3 * i |}.

Definition ext_draw (k : N) : BuiltInSandbox.ext_draw :=
  {| BuiltInSandbox.ed_ip := (k, 3%N);
     BuiltInSandbox.ed_disk_serial := λ i, i + N.to_nat k;
     BuiltInSandbox.ed_bios_uuid := k;
     BuiltInSandbox.ed_motherboard_serial := λ i, 2 * i + N.to_nat k;
     BuiltInSandbox.ed_cpu_id := λ i, 5 * i + N.to_nat k;
     BuiltInSandbox.ed_user := k;
     BuiltInSandbox.ed_machine_guid := (k + 1)%N;
     BuiltInSandbox.ed_product_id := (λ i, i, λ i, 2 * i, λ i, 3 * i) |}.

Definition built_in_env (k : N) (sp : spawn) (game : option os_proc)
  : BuiltInSandbox.launch_env :=
  {| BuiltInSandbox.le_base := base_draw;
     BuiltInSandbox.le_ext := ext_draw k;
     BuiltInSandbox.le_spawn := sp;
     BuiltInSandbox.le_game := game |}.

Definition windows_draw : WindowsSandbox.draw :=
  {| WindowsSandbox.d_computer_name := λ i, i;
     WindowsSandbox.d_mac := λ i, N.of_nat i;
     WindowsSandbox.d_ip := (7%N, 9%N) |}.

Definition env (k : N) (sp : spawn) (game : option os_proc)
  : SandboxManager.launch_env :=
  {| SandboxManager.le_built_in := built_in_env k sp game;
     SandboxManager.le_windows := windows_draw;
     SandboxManager.le_spawn := sp;
     SandboxManager.le_stderr := "" |}.

(** A game process that exits when asked to. *)
Definition game_proc (created : Z) : os_proc :=
  {| p_name := "demo.exe"; p_create_time := created; p_zombie := false;
     p_on_terminate := Exits; p_on_kill := Exits;
     p_titles := ["Demo"]; p_cmdline := [game_path] |}.

(** A game process that the launcher may not terminate. *)
Definition protected_proc (created : Z) : os_proc :=
  {| p_name := "demo.exe"; p_create_time := created; p_zombie := false;
     p_on_terminate := Denied; p_on_kill := Denied;
     p_titles := ["Demo"]; p_cmdline := [game_path] |}.

(** The service right after start-up on host [w], once the game has been
    registered. *)
Definition service (w : world) : GameLauncherService.t * Store.t :=
  let '(m, σ) := SandboxManager.init ∅ ∅ w in
  let started :=
    {| GameLauncherService.games := ∅;
       GameLauncherService.running_games := [];
       GameLauncherService.monitoring := false;
       GameLauncherService.removals := [];
       GameLauncherService.sandbox_manager := m |} in
  ((GameLauncherService.register_game "demo" game_path started w).2, σ).

(** The private directory of the sandbox [box] of the scenarios. *)
Definition box_temp_dir : string :=
  "C:\Temp\wydbot_identity_box_01234567-89ab-cdef-0123-456789abcdef".

(** A host where that directory cannot be removed (a file in it is still
    open, say). *)
Definition pinned_host : world :=
  {| now := 1700000000; tempdir := "C:\Temp";
     paths := {[ game_path ]};
     pinned := {[ box_temp_dir ]}; unwritable := ∅; procs := [];
     feature_query := None |}.

(** Values of [uuid.uuid4()]; the first two begin with the same eight
    digits. *)
Definition uuid_a : N := 0xdeadbeef00000000000000000000aaaa.
Definition uuid_b : N := 0xdeadbeef00000000000000000000bbbb.
Definition uuid_c : N := 0x0badcafe00000000000000000000cccc.

End Scenario.

(* ------------------------------------------------------------------ *)
(** ** Notions used to state the properties                            *)
(* ------------------------------------------------------------------ *)

(** The eight characters that end an instance identifier. *)
Definition hex8 (u : N) : string := Py.take 8 (Py.uuid_hex u).

Definition underscore_free (s : string) : bool :=
  Py.all_chars (λ c, negb (Ascii.eqb c "_")) s.

(** The part of a built-in sandbox entry that [create_sandbox] draws. *)
Definition same_base (a b : BuiltInSandbox.sandbox) : Prop :=
  BuiltInSandbox.sb_id a = BuiltInSandbox.sb_id b
  ∧ BuiltInSandbox.sb_hwid a = BuiltInSandbox.sb_hwid b
  ∧ BuiltInSandbox.sb_mac a = BuiltInSandbox.sb_mac b
  ∧ BuiltInSandbox.sb_computer_name a = BuiltInSandbox.sb_computer_name b.

(** The identity carried by the result of a built-in launch. *)
Definition identity_of (r : BuiltInSandbox.launch_result)
  : option BuiltInSandbox.identity :=
  match r with
  | BuiltInSandbox.Launched info => Some (BuiltInSandbox.pi_identity info)
  | BuiltInSandbox.Failed _ => None
  end.

(** A failure value that says which sandbox type was asked for: a
    dictionary with [success] false whose text contains the type. *)
Definition structured_failure_naming (sandbox_type : string)
    (r : SandboxManager.launch_result) : Prop :=
  match r with
  | SandboxManager.RBuiltIn (BuiltInSandbox.Failed f) =>
      Py.str_in sandbox_type (BuiltInSandbox.f_error f) = true
  | SandboxManager.RSandboxie (SandboxManager.SbxFailed e) =>
      Py.str_in sandbox_type e = true
  | _ => False
  end.

(** The four sandbox types that the manager knows. *)
Definition known_types : list string :=
  ["sandboxie"; "windows_sandbox"; "virtualbox"; "built_in"].

(** [sandbox_executables] as [__init__] sets it before probing. *)
Definition initial_executables (cfg : gmap string string) : gmap string string :=
  <["virtualbox" := SandboxManager.get_str cfg "virtualbox_path"]>
    (<["windows_sandbox" := "WindowsSandbox.exe"]>
       (<["sandboxie" := SandboxManager.get_str cfg "sandboxie_path"]> ∅)).

(** An ASCII upper-case letter. *)
Definition is_upper_char (c : ascii) : bool :=
  let n := N_of_ascii c in ((65 <=? n) && (n <=? 90))%N.

(** The string has no upper-case letter. *)
Definition upper_free (s : string) : bool :=
  Py.all_chars (λ c, negb (is_upper_char c)) s.

(** The script process of a tracked entry is running. *)
Definition script_running (w : world) (info : BuiltInSandbox.process_info) : bool :=
  match BuiltInSandbox.pi_process info with
  | Popen p => popen_running w p
  | PsProcess _ => false
  end.

(** The result of a built-in launch is a process dictionary. *)
Definition launched (r : BuiltInSandbox.launch_result) : bool :=
  match r with
  | BuiltInSandbox.Launched _ => true
  | BuiltInSandbox.Failed _ => false
  end.


(** What the file-system steps of a launch preserve. *)
Definition fs_extends (w w' : world) : Prop :=
  paths w ⊆ paths w' ∧ unwritable w' = unwritable w ∧ tempdir w' = tempdir w
  ∧ pinned w' = pinned w.

(** The tracked process of an entry is a [psutil.Process]. *)
Definition psutil_tracked (info : BuiltInSandbox.process_info) : bool :=
  match BuiltInSandbox.pi_process info with
  | PsProcess _ => true
  | Popen _ => false
  end.

(** The process exits on a graceful termination request. *)
Definition exits_when_asked (pr : os_proc) : bool :=
  match p_on_terminate pr with Exits => true | _ => false end.

(** The launch found the game process and tracks it. *)
Definition discovered (r : BuiltInSandbox.launch_result) : bool :=
  match r with
  | BuiltInSandbox.Launched info => psutil_tracked info
  | BuiltInSandbox.Failed _ => false
  end.

(** The fields of a record that a launch writes and nothing changes
    afterwards. *)
Definition same_launch (d d' : GameLauncherService.game_dict) : Prop :=
  GameLauncherService.gd_game_id d' = GameLauncherService.gd_game_id d
  ∧ GameLauncherService.gd_sandbox d' = GameLauncherService.gd_sandbox d
  ∧ GameLauncherService.gd_sandbox_type d'
    = GameLauncherService.gd_sandbox_type d
  ∧ GameLauncherService.gd_start_time d' = GameLauncherService.gd_start_time d
  ∧ GameLauncherService.gd_in_sandbox d' = GameLauncherService.gd_in_sandbox d.

(** An entry of [running_games] before and after a pass of the monitor. *)
Definition refreshed (e e' : string * GameLauncherService.game_info) : Prop :=
  fst e' = fst e
  ∧ match snd e, snd e' with
    | GameLauncherService.GIDict d, GameLauncherService.GIDict d' =>
        same_launch d d'
    | v, v' => v' = v
    end.


(** The dependency can be imported, or [pip] can install it. *)
Definition satisfiable (pip : string → bool) (importable : gset string)
    (d : string) : bool :=
  DependencyInstaller.is_dependency_installed d importable || pip d.





(** A call of [launch_game_in_sandbox]: its arguments, what the
    environment contributes, and the host at the time of the call. *)
Record sandboxed_call := {
  sc_game_id : string;
  sc_sandbox_type : string;
  sc_args : list string;
  sc_uuid : N;
  sc_env : SandboxManager.launch_env;
  sc_host : world
}.

(** The identifier that the call mints. *)
Definition minted (c : sandboxed_call) : string :=
  GameLauncherService.mint_instance_id (sc_game_id c) (now (sc_host c))
    (sc_uuid c).

(** What the identifier is made of: game, second of the call, first eight
    digits of the UUID. *)
Definition minted_from (c : sandboxed_call) : string * Z * string :=
  (sc_game_id c, now (sc_host c), hex8 (sc_uuid c)).

(** The calls one after the other; the answers in the order of the
    calls. *)
Fixpoint launch_all (σ : Store.t) (cs : list sandboxed_call)
    (s : GameLauncherService.t) : list bool * GameLauncherService.t :=
  match cs with
  | [] => ([], s)
  | c :: cs' =>
      let out :=
        GameLauncherService.launch_game_in_sandbox σ (sc_game_id c)
          (sc_sandbox_type c) (sc_args c) (sc_uuid c) (sc_env c) s (sc_host c) in
      let rest := launch_all σ cs' out.1.2 in
      (out.1.1 :: rest.1, rest.2)
  end.

(* ------------------------------------------------------------------ *)
(** ** Further hosts, processes and states                              *)
(* ------------------------------------------------------------------ *)

Module Cases.

(** The command interpreter that runs the launcher script. *)
Definition script_proc : os_proc :=
  {| p_name := "cmd.exe"; p_create_time := 1700000000; p_zombie := false;
     p_on_terminate := Exits; p_on_kill := Exits;
     p_titles := []; p_cmdline := ["cmd.exe"; "/c"; "launch_game.bat"] |}.

(** A process that ignores a graceful request and dies when killed. *)
Definition stubborn_proc : os_proc :=
  {| p_name := "WindowsSandbox.exe"; p_create_time := 1700000000;
     p_zombie := false; p_on_terminate := Survives; p_on_kill := Exits;
     p_titles := []; p_cmdline := [] |}.

(** The Sandboxie launcher of the box [Demo_1700000000]. *)
Definition boxed_proc : os_proc :=
  {| p_name := "SandboxieStart.exe"; p_create_time := 1700000000;
     p_zombie := false; p_on_terminate := Exits; p_on_kill := Exits;
     p_titles := [];
     p_cmdline := ["C:\Program Files\Sandboxie-Plus\Start.exe";
                   "/box:Demo_1700000000"; Scenario.game_path] |}.

Definition virtualbox_path : string := "C:\VirtualBox\VBoxManage.exe".

Definition virtualbox_config : gmap string string :=
  {[ "virtualbox_path" := virtualbox_path ]}.

Definition virtualbox_host : world :=
  {| now := 1700000000; tempdir := "C:\Temp";
     paths := {[ Scenario.game_path; virtualbox_path ]};
     pinned := ∅; unwritable := ∅; procs := []; feature_query := None |}.

(** The script starts the game, which is then found by its name. *)
Definition found_env : SandboxManager.launch_env :=
  Scenario.env 1 (SpawnLives script_proc) (Some (Scenario.game_proc 1700000001)).

(** A sandboxed launch of the registered game on the bare host. *)
Definition sandboxed : bool * GameLauncherService.t * world :=
  GameLauncherService.launch_game_in_sandbox (Scenario.service Scenario.bare).2
    "demo" "built_in" [] Scenario.uuid_a found_env
    (Scenario.service Scenario.bare).1 Scenario.bare.

Definition instance : string := "demo_1700000000_deadbeef".

(** The record that this launch writes. *)
Definition record : GameLauncherService.game_dict :=
  {| GameLauncherService.gd_game_id := Some "demo";
     GameLauncherService.gd_sandbox := Some "demo_1700000000";
     GameLauncherService.gd_sandbox_type := Some "built_in";
     GameLauncherService.gd_start_time := Some 1700000002%Z;
     GameLauncherService.gd_in_sandbox := Some true;
     GameLauncherService.gd_process_info_pending := None;
     GameLauncherService.gd_process := Some (PsProcess 3%positive);
     GameLauncherService.gd_pid := Some 3%positive;
     GameLauncherService.gd_terminated := None;
     GameLauncherService.gd_end_time := None |}.


(** The entry that a Windows Sandbox launch of [box] writes. *)
Definition windows_box : WindowsSandbox.sandbox :=
  {| WindowsSandbox.dir := "C:\Temp\wydbot_winsandbox_box";
     WindowsSandbox.config := "C:\Temp\wydbot_winsandbox_box\box_config.wsb";
     WindowsSandbox.running := true;
     WindowsSandbox.computer_name := "ABCDEFGH";
     WindowsSandbox.mac_address := "00:01:02:03:04:05";
     WindowsSandbox.ip_address := "192.168.8.10";
     WindowsSandbox.process := Some (Popen 2%positive) |}.

Definition windows_launch
  : bool * gmap string WindowsSandbox.sandbox * world :=
  WindowsSandbox.launch_in_sandbox "box" Scenario.game_path
    Scenario.windows_draw (SpawnLives stubborn_proc) ∅
    Scenario.windows_sandbox_host.

(** [pip] can install [psutil] only. *)
Definition pip (module_name : string) : bool := String.eqb module_name "psutil".

End Cases.

(* ------------------------------------------------------------------ *)
(** ** The definitions at work                                         *)
(* ------------------------------------------------------------------ *)

Example str_in_ex1 : Py.str_in "Enabled" "State : Enabled" = true.
Proof. reflexivity. Qed.

Example str_in_ex2 :
  Py.str_in "State : Enabled" "State            : Enabled" = false.
Proof. reflexivity. Qed.

Example basename_ex : Py.basename "C:\Games\WYD\Game.exe" = "Game.exe".
Proof. reflexivity. Qed.

Example uuid_str_ex :
  Py.uuid_str 0x0123456789abcdef0123456789abcdef
  = "01234567-89ab-cdef-0123-456789abcdef".
Proof. reflexivity. Qed.

Example mac_ex :
  Rand.mac_address (λ i, N.of_nat (i * 40)) = "00:28:50:78:a0:c8".
Proof. reflexivity. Qed.

Example choices_ex : Rand.choices Rand.upper_digits 4 (λ i, 10 * i + 1) = "BLV5".
Proof. reflexivity. Qed.

Example mint_ex :
  GameLauncherService.mint_instance_id "demo" 1700000000
    0xdeadbeef000000000000000000000001
  = "demo_1700000000_deadbeef".
Proof. vm_compute. reflexivity. Qed.

(* ------------------------------------------------------------------ *)
(** ** Strings                                                         *)
(* ------------------------------------------------------------------ *)

Section Strings.

Lemma string_app_cons (c : ascii) (a b : string) :
  String c a +:+ b = String c (a +:+ b).
Proof. reflexivity. Qed.

Lemma string_app_nil (b : string) : "" +:+ b = b.
Proof. reflexivity. Qed.

Lemma string_app_assoc (a b c : string) : (a +:+ b) +:+ c = a +:+ (b +:+ c).
Proof.
  induction a as [|x a IH]; [done|]. rewrite !string_app_cons. by f_equal.
Qed.

Lemma string_app_length (a b : string) :
  String.length (a +:+ b) = String.length a + String.length b.
Proof.
  induction a as [|x a IH]; [done|]. rewrite string_app_cons. simpl. by f_equal.
Qed.

(** Two concatenations whose last parts have the same length agree part
    by part. *)
Lemma string_app_inj_suffix (x1 x2 h1 h2 : string) :
  String.length h1 = String.length h2 →
  x1 +:+ h1 = x2 +:+ h2 → x1 = x2 ∧ h1 = h2.
Proof.
  revert x2. induction x1 as [|c x1 IH]; intros [|c2 x2] Hlen Heq;
    rewrite ?string_app_cons, ?string_app_nil in Heq.
  - done.
  - subst h1. simpl in Hlen. rewrite string_app_length in Hlen. lia.
  - subst h2. simpl in Hlen. rewrite string_app_length in Hlen. lia.
  - injection Heq as -> Heq. destruct (IH x2 Hlen Heq) as [-> ->]. done.
Qed.

Lemma underscore_free_app (a b : string) :
  underscore_free (a +:+ b) = underscore_free a && underscore_free b.
Proof.
  induction a as [|c a IH]; [done|]. rewrite string_app_cons.
  unfold underscore_free in *. simpl. rewrite IH. by rewrite andb_assoc.
Qed.

(** What follows the last underscore fixes where the string is cut. *)
Lemma split_at_last_underscore (g1 g2 d1 d2 : string) :
  underscore_free d1 = true → underscore_free d2 = true →
  g1 +:+ "_" +:+ d1 = g2 +:+ "_" +:+ d2 → g1 = g2 ∧ d1 = d2.
Proof.
  intros H1 H2. revert g2.
  induction g1 as [|c g1 IH]; intros [|c2 g2] Heq;
    rewrite ?string_app_cons, ?string_app_nil in Heq.
  - by injection Heq as ->.
  - injection Heq as <- ->.
    rewrite underscore_free_app in H1. simpl in H1.
    by rewrite andb_false_r in H1.
  - injection Heq as -> <-.
    rewrite underscore_free_app in H2. simpl in H2.
    by rewrite andb_false_r in H2.
  - injection Heq as -> Heq. by destruct (IH g2 Heq) as [-> ->].
Qed.

Lemma underscore_free_pretty_N_go (x : N) (s : string) :
  underscore_free s = true → underscore_free (pretty_N_go x s) = true.
Proof.
  revert s. induction (N.lt_wf_0 x) as [x _ IH]; intros s Hs.
  assert (x = 0 ∨ 0 < x)%N as [->|Hpos] by lia.
  - by rewrite pretty_N_go_0.
  - rewrite pretty_N_go_step by done. apply IH.
    + by apply N.div_lt.
    + unfold underscore_free in *. simpl. rewrite Hs.
      unfold pretty_N_char. by repeat case_match.
Qed.

Lemma underscore_free_pretty_N (x : N) : underscore_free (pretty x) = true.
Proof.
  unfold pretty, pretty_N. case_decide; [done|].
  by apply underscore_free_pretty_N_go.
Qed.

Lemma underscore_free_pretty_Z (z : Z) : underscore_free (pretty z) = true.
Proof.
  destruct z as [|p|p]; unfold pretty, pretty_Z; [done|..].
  - apply (underscore_free_pretty_N (Npos p)).
  - rewrite underscore_free_app. simpl.
    apply (underscore_free_pretty_N (Npos p)).
Qed.

Lemma hex_fixed_acc_length (w : nat) (n : N) (acc : string) :
  String.length (Py.hex_fixed_acc w n acc) = w + String.length acc.
Proof.
  revert n acc. induction w as [|w IH]; intros n acc; simpl; [done|].
  rewrite IH. simpl. lia.
Qed.

Lemma take_length (n : nat) (s : string) :
  (n ≤ String.length s)%nat → String.length (Py.take n s) = n.
Proof.
  revert s. induction n as [|n IH]; intros [|c s] Hle; simpl in *; try lia.
  rewrite IH; lia.
Qed.

Lemma hex_digit_is_hex (d : N) : Py.is_hex_char (Py.hex_digit d) = true.
Proof. unfold Py.hex_digit. by repeat case_match. Qed.

Lemma hex_fixed_acc_hex (w : nat) (n : N) (acc : string) :
  Py.all_chars Py.is_hex_char acc = true →
  Py.all_chars Py.is_hex_char (Py.hex_fixed_acc w n acc) = true.
Proof.
  revert n acc. induction w as [|w IH]; intros n acc Hacc; simpl; [done|].
  apply IH. simpl. by rewrite hex_digit_is_hex, Hacc.
Qed.

Lemma take_all_chars (P : ascii → bool) (n : nat) (s : string) :
  Py.all_chars P s = true → Py.all_chars P (Py.take n s) = true.
Proof.
  revert s. induction n as [|n IH]; intros [|c s] H; simpl in *; try done.
  apply andb_true_iff in H as [Hc Hs]. by rewrite Hc, IH.
Qed.

Lemma hex8_length (u : N) : String.length (hex8 u) = 8.
Proof.
  unfold hex8. apply take_length. unfold Py.uuid_hex, Py.hex_fixed.
  rewrite hex_fixed_acc_length. simpl. lia.
Qed.

Lemma hex8_hex (u : N) : Py.all_chars Py.is_hex_char (hex8 u) = true.
Proof. apply take_all_chars, hex_fixed_acc_hex. done. Qed.

Lemma prefix_app (t b : string) : String.prefix t (t +:+ b) = true.
Proof.
  induction t as [|c t IH]; simpl; [by destruct b|].
  rewrite IH. by destruct (Ascii.ascii_dec c c).
Qed.

Lemma str_in_app_r (t a b : string) :
  Py.str_in t b = true → Py.str_in t (a +:+ b) = true.
Proof.
  intros H. induction a as [|c a IH]; [done|].
  change (String c a +:+ b) with (String c (a +:+ b)).
  change (Py.str_in t (String c (a +:+ b)))
    with (if String.prefix t (String c (a +:+ b)) then true
          else Py.str_in t (a +:+ b)).
  rewrite IH. by destruct (String.prefix t (String c (a +:+ b))).
Qed.

(** A text contains what has been spliced into it. *)
Lemma str_in_middle (t a b : string) : Py.str_in t (a +:+ t +:+ b) = true.
Proof.
  apply str_in_app_r.
  assert (Hhead : ∀ s, Py.str_in t s
            = if String.prefix t s then true
              else match s with
                   | EmptyString => false
                   | String _ s' => Py.str_in t s'
                   end) by (by intros []).
  by rewrite Hhead, prefix_app.
Qed.

End Strings.

(** Two minted identifiers are the same exactly when game, second and the
    eight hexadecimal digits are. *)
Lemma mint_inj (g1 : string) (t1 : Z) (u1 : N) (g2 : string) (t2 : Z) (u2 : N) :
  GameLauncherService.mint_instance_id g1 t1 u1
  = GameLauncherService.mint_instance_id g2 t2 u2
  ↔ g1 = g2 ∧ t1 = t2 ∧ hex8 u1 = hex8 u2.
Proof.
  unfold GameLauncherService.mint_instance_id. fold (hex8 u1) (hex8 u2). split.
  - intros Heq.
    assert (Hshape : ∀ (g : string) (t : Z) (h : string),
      g +:+ "_" +:+ pretty t +:+ "_" +:+ h
      = ((g +:+ "_" +:+ pretty t) +:+ "_") +:+ h).
    { intros g t h. by rewrite !string_app_assoc. }
    rewrite (Hshape g1 t1), (Hshape g2 t2) in Heq.
    apply string_app_inj_suffix in Heq as [Heq Hh];
      [|by rewrite !hex8_length].
    apply string_app_inj_suffix in Heq as [Heq _]; [|done].
    apply split_at_last_underscore in Heq as [Hg Ht];
      [|apply underscore_free_pretty_Z..].
    split_and!; try done. by apply (inj pretty).
  - intros (-> & -> & Hh). by rewrite Hh.
Qed.

(** A minted identifier is never the bare game identifier. *)
Lemma mint_not_game_id (g : string) (t : Z) (u : N) :
  GameLauncherService.mint_instance_id g t u ≠ g.
Proof.
  intros Heq. apply (f_equal String.length) in Heq.
  unfold GameLauncherService.mint_instance_id in Heq.
  rewrite !string_app_length in Heq. simpl in Heq. lia.
Qed.

(* ------------------------------------------------------------------ *)
(** ** Ordered dictionaries and the list store                         *)
(* ------------------------------------------------------------------ *)

Section DictFacts.
Context {V : Type}.
Implicit Types (d : Dict.t V) (k : string) (v : V).

Lemma dict_get_set_eq d k v : Dict.get (Dict.set d k v) k = Some v.
Proof.
  induction d as [|[k' v'] d IH]; simpl.
  - by rewrite String.eqb_refl.
  - destruct (String.eqb k' k) eqn:E; simpl; rewrite E; [done|apply IH].
Qed.

Lemma dict_get_set_ne d k k' v :
  k' ≠ k → Dict.get (Dict.set d k v) k' = Dict.get d k'.
Proof.
  intros Hne. induction d as [|[k0 v0] d IH]; simpl.
  - destruct (String.eqb k k') eqn:E; [|done].
    apply String.eqb_eq in E. congruence.
  - destruct (String.eqb k0 k) eqn:E; simpl.
    + apply String.eqb_eq in E as ->.
      destruct (String.eqb k k') eqn:E'; [|done].
      apply String.eqb_eq in E'. congruence.
    + by rewrite IH.
Qed.

Lemma dict_mem_keys d k : Dict.mem d k = true ↔ k ∈ Dict.keys d.
Proof.
  unfold Dict.mem, Dict.keys. induction d as [|[k0 v0] d IH]; simpl.
  - split; [done|]. intros H. by apply elem_of_nil in H.
  - rewrite elem_of_cons. destruct (String.eqb k0 k) eqn:E.
    + apply String.eqb_eq in E as ->. split; auto.
    + rewrite IH. apply String.eqb_neq in E. split; [auto|].
      intros [->|H]; [done|exact H].
Qed.

Lemma dict_keys_set_absent d k v :
  Dict.mem d k = false → Dict.keys (Dict.set d k v) = (Dict.keys d ++ [k])%list.
Proof.
  unfold Dict.mem, Dict.keys. induction d as [|[k0 v0] d IH]; simpl; [done|].
  destruct (String.eqb k0 k); [done|]. intros H. simpl. by rewrite IH.
Qed.

Lemma dict_keys_set_mem d k v :
  Dict.mem d k = true → Dict.keys (Dict.set d k v) = Dict.keys d.
Proof.
  unfold Dict.mem, Dict.keys. induction d as [|[k0 v0] d IH]; simpl; [done|].
  destruct (String.eqb k0 k); [done|]. intros H. simpl. by rewrite IH.
Qed.

End DictFacts.

Section StoreFacts.

Lemma alloc_fresh (σ : Store.t) (v : list string) :
  σ !! (Store.alloc σ v).1 = None.
Proof. unfold Store.alloc; simpl. apply not_elem_of_dom, is_fresh. Qed.

Lemma deref_alloc (σ : Store.t) (v : list string) :
  Store.deref (Store.alloc σ v).2 (Store.alloc σ v).1 = v.
Proof. unfold Store.alloc, Store.deref; simpl. by rewrite lookup_insert_eq. Qed.

End StoreFacts.

(* ------------------------------------------------------------------ *)
(** ** Backend discovery                                               *)
(* ------------------------------------------------------------------ *)

Section Discovery.
Import SandboxManager.

(** The list that [__init__] leaves in [available_sandboxes]. *)
Lemma init_available (cfg : gmap string string) (σ : Store.t) (w : world) :
  Store.deref (init cfg σ w).2 (available_sandboxes (init cfg σ w).1)
  = ((_check_available_sandboxes
        (<["virtualbox" := get_str cfg "virtualbox_path"]>
          (<["windows_sandbox" := "WindowsSandbox.exe"]>
            (<["sandboxie" := get_str cfg "sandboxie_path"]> ∅))) w).1
     ++ (if WindowsSandbox.is_available w then ["windows_sandbox"] else [])
     ++ ["built_in"])%list.
Proof.
  unfold init. destruct (_check_available_sandboxes _ w) as [av ex1] eqn:E.
  simpl. unfold Store.append, Store.deref, Store.alloc.
  destruct (WindowsSandbox.is_available w); simpl;
    rewrite ?lookup_insert_eq; simpl; rewrite ?lookup_insert_eq; simpl;
    by rewrite <- ?app_assoc.
Qed.

Lemma init_allocates (cfg : gmap string string) (σ : Store.t) (w : world) :
  is_Some ((init cfg σ w).2 !! available_sandboxes (init cfg σ w).1).
Proof.
  unfold init. destruct (_check_available_sandboxes _ w) as [av ex1].
  simpl. unfold Store.append.
  destruct (WindowsSandbox.is_available w); rewrite lookup_insert_eq; eauto.
Qed.

Lemma built_in_always_available cfg σ w :
  is_sandbox_available (init cfg σ w).2 (init cfg σ w).1 "built_in" = true.
Proof.
  unfold is_sandbox_available. rewrite init_available.
  apply bool_decide_eq_true. rewrite !elem_of_app. right; right.
  by apply list_elem_of_singleton.
Qed.

Lemma elem_of_optional (b : bool) (x y : string) :
  x ∈ (if b then [y] else []) ↔ b = true ∧ x = y.
Proof.
  destruct b; [rewrite list_elem_of_singleton | rewrite elem_of_nil];
    intuition congruence.
Qed.

(** [windows_sandbox] is listed as soon as one of the two probes says so;
    the manager's own probe does not look at the host binary. *)
Lemma windows_sandbox_listed_iff cfg σ w :
  is_sandbox_available (init cfg σ w).2 (init cfg σ w).1 "windows_sandbox" = true
  ↔ _is_windows_sandbox_available w = true ∨ WindowsSandbox.is_available w = true.
Proof.
  unfold is_sandbox_available. rewrite init_available.
  rewrite bool_decide_eq_true. unfold _check_available_sandboxes.
  destruct (_is_sandboxie_available _ w) as [sbx ex1]. simpl.
  rewrite !elem_of_app, !elem_of_optional, list_elem_of_singleton.
  split.
  - intros [[[_ [=]]|[[H _]|[_ [=]]]]|[[H _]|[=]]]; auto.
  - intros [H|H]; auto.
Qed.

End Discovery.

(* ------------------------------------------------------------------ *)
(** ** The built-in backend                                            *)
(* ------------------------------------------------------------------ *)

Section BuiltIn.
Import BuiltInSandbox.


Lemma launch_body_ok name exe args env sbs w info sbs' w' :
  launch_body name exe args env sbs w = (Ok info, sbs', w') →
  ∃ sb sb', sbs !! name = Some sb
    ∧ sbs' = <[name := sb']> sbs
    ∧ same_base sb sb'
    ∧ pi_identity info = identity_data sb (le_ext env)
    ∧ sb_temp_dir sb' = Some (temp_dir_of w name sb).
Proof.
  unfold launch_body. intros H.
  destruct (sbs !! name) as [sb|] eqn:Hsb; [|done].
  destruct (makedirs _ w) as [[[]|e] w1]; [|done].
  destruct (make_profile_tree _ _ _) as [[[]|e] w3]; [|done].
  destruct (popen _ w3) as [[process|e] w4]; [|done].
  injection H as <- <- <-.
  eexists sb, _. split_and!; try reflexivity. done.
Qed.


(** Termination requests touch the process table only. *)
Lemma signal_frame react gone denied p w :
  paths (signal react gone denied p w).2 = paths w
  ∧ pinned (signal react gone denied p w).2 = pinned w.
Proof.
  unfold signal. destruct (find_proc _ p); [|done].
  by destruct (react _).
Qed.

Lemma stop_process_frame h w :
  paths (stop_process h w).2 = paths w ∧ pinned (stop_process h w).2 = pinned w.
Proof.
  destruct h as [p|p]; simpl; [|done].
  destruct (popen_running w p); [|done].
  pose proof (signal_frame p_on_terminate (Ok tt) OSError p w) as Ht.
  unfold popen_terminate.
  destruct (signal p_on_terminate _ _ p w) as [[[]|e] w1]; simpl in *; [|done].
  destruct (popen_wait p w1); simpl; [|done].
  destruct (popen_running w1 p); simpl; [|done].
  pose proof (signal_frame p_on_kill (Ok tt) OSError p w1) as Hk.
  unfold popen_kill. destruct Hk as [Hk1 Hk2], Ht as [Ht1 Ht2].
  by rewrite Hk1, Hk2.
Qed.

Lemma stop_processes_frame ps w :
  paths (stop_processes ps w) = paths w
  ∧ pinned (stop_processes ps w) = pinned w.
Proof.
  unfold stop_processes. revert w.
  induction ps as [|info ps IH]; intros w; simpl; [done|].
  destruct (IH (stop_process (pi_process info) w).2) as [-> ->].
  apply stop_process_frame.
Qed.

Lemma under_refl d : under d d = true.
Proof. unfold under. by rewrite String.eqb_refl. Qed.

Lemma rmtree_removes d w :
  d ∉ pinned w → path_exists d (rmtree_ignore_errors d w) = false.
Proof.
  intros Hfree. unfold rmtree_ignore_errors.
  case_bool_decide; [done|]. unfold path_exists. simpl.
  apply bool_decide_eq_false_2. rewrite elem_of_filter.
  intros [Hu _]. by rewrite under_refl in Hu.
Qed.








End BuiltIn.

(* ------------------------------------------------------------------ *)
(** ** The instance registry and the monitor                           *)
(* ------------------------------------------------------------------ *)

Section Service.
Import GameLauncherService.

(** A pass of the monitor ends at the first value that is not a record
    dictionary: with such a value in front, the pass does nothing. *)
Lemma update_stuck_on_popen s w k h rest :
  running_games s = (k, GIPopen h) :: rest → _update_running_games s w = s.
Proof.
  intros Hrg. unfold _update_running_games. rewrite Hrg. simpl.
  unfold update_one. rewrite Hrg. simpl. by rewrite String.eqb_refl.
Qed.

Lemma fire_nothing s w : removals s = [] → fire_removals s w = s.
Proof. intros H. destruct s. simpl in *. subst. reflexivity. Qed.

Lemma monitor_turns_stuck n s w k h rest :
  running_games s = (k, GIPopen h) :: rest → removals s = [] →
  (monitor_turns n s w).1 = s ∧ procs (monitor_turns n s w).2 = procs w.
Proof.
  intros Hrg Hrm. revert w. induction n as [|n IH]; intros w; simpl; [done|].
  unfold monitor_turn. rewrite (update_stuck_on_popen _ _ _ _ _ Hrg).
  rewrite (fire_nothing _ _ Hrm). by destruct (IH (sleep 1 w)) as [-> ->].
Qed.

Lemma guard_rejects game_id args sp s w :
  Dict.mem (running_games s) game_id = true →
  launch_game game_id args sp s w = (false, s, w).
Proof.
  intros H. unfold launch_game. destruct (games s !! game_id); [|done].
  by rewrite H.
Qed.

Lemma sandboxed_launch_records σ game_id ty args u env s w s' w' :
  launch_game_in_sandbox σ game_id ty args u env s w = (true, s', w') →
  ∃ d, running_games s'
       = Dict.set (running_games s) (mint_instance_id game_id (now w) u) (GIDict d)
     ∧ gd_game_id d = Some game_id ∧ gd_in_sandbox d = Some true.
Proof.
  unfold launch_game_in_sandbox. intros H.
  destruct (games s !! game_id) as [path|]; [|done].
  destruct (SandboxManager.launch_in_sandbox _ _ _ _ _ _ _ _) as [[r m] w1].
  destruct (SandboxManager.truthy r); [|done].
  destruct (SandboxManager.is_dict r).
  - case_bool_decide; [done|]. injection H as <- <-.
    eexists. split; [reflexivity|done].
  - injection H as <- <-. eexists. split; [reflexivity|done].
Qed.

Lemma sandboxed_launch_ignores_running σ game_id ty args u env s w rg :
  (launch_game_in_sandbox σ game_id ty args u env (set_running rg s) w).1.1
  = (launch_game_in_sandbox σ game_id ty args u env s w).1.1.
Proof.
  unfold launch_game_in_sandbox. simpl.
  destruct (games s !! game_id) as [path|]; [|done].
  destruct (SandboxManager.launch_in_sandbox _ _ _ _ _ _ _ _) as [[r m] w1].
  destruct (SandboxManager.truthy r); [|done].
  destruct (SandboxManager.is_dict r); [|done].
  by case_bool_decide.
Qed.

(** With a [psutil.Process] in the record no exception leaves the [try]
    of [terminate_game]: the call answers [True] whatever became of the
    process. *)
Lemma terminate_game_psutil_record instance_id d p s w :
  Dict.get (running_games s) instance_id = Some (GIDict d) →
  gd_process d = Some (PsProcess p) →
  (terminate_game instance_id s w).1.1 = true.
Proof.
  intros Hget Hproc. unfold terminate_game. rewrite Hget.
  unfold terminate_record, stop_by_handle. rewrite Hproc.
  destruct (ps_stop p w) as [b w1].
  assert (Hsecond : ∃ b' w2,
    (if negb b then stop_by_pid d w1 else (Ok b, w1)) = (Ok b', w2)).
  { destruct b; simpl; [by eauto|].
    unfold stop_by_pid. destruct (gd_pid d) as [q|]; [|by eauto].
    rewrite Hproc. destruct (ps_open w1 q); simpl.
    - destruct (ps_terminate q w1) as [[[]|e] w2]; simpl.
      + destruct (ps_wait q w2); simpl; [by eauto|].
        destruct (ps_kill q w2) as [[[]|e'] w3]; by eauto.
      + destruct (ps_kill q w2) as [[[]|e'] w3]; by eauto.
    - destruct (ps_kill p w1) as [[[]|e'] w3]; by eauto. }
  destruct Hsecond as (b' & w2 & ->).
  destruct (gd_in_sandbox d) as [[]|], (gd_sandbox d) as [name|]; try done.
  by destruct (SandboxManager.terminate_sandbox _ _ _) as [[r m] w3].
Qed.

Lemma sandboxed_launch_record_fields σ game_id ty args u env s w s' w' :
  launch_game_in_sandbox σ game_id ty args u env s w = (true, s', w') →
  ∃ d, running_games s'
       = Dict.set (running_games s) (mint_instance_id game_id (now w) u) (GIDict d)
     ∧ gd_game_id d = Some game_id
     ∧ gd_sandbox d = Some (game_id +:+ "_" +:+ pretty (now w))
     ∧ gd_sandbox_type d = Some ty
     ∧ gd_in_sandbox d = Some true.
Proof.
  unfold launch_game_in_sandbox. intros H.
  destruct (games s !! game_id) as [path|]; [|done].
  destruct (SandboxManager.launch_in_sandbox _ _ _ _ _ _ _ _) as [[r m] w1].
  destruct (SandboxManager.truthy r); [|done].
  destruct (SandboxManager.is_dict r).
  - case_bool_decide; [done|]. injection H as <- <-.
    eexists. split; [reflexivity|done].
  - injection H as <- <-. eexists. split; [reflexivity|done].
Qed.

Lemma minted_from_inj c c' : minted c = minted c' ↔ minted_from c = minted_from c'.
Proof.
  unfold minted, minted_from. rewrite mint_inj. split.
  - intros (Hg & Ht & Hh). rewrite Hg, Ht, Hh. reflexivity.
  - intros H. apply pair_equal_spec in H as [H Hh].
    apply pair_equal_spec in H as [Hg Ht].
    split; [exact Hg|split; [exact Ht|exact Hh]].
Qed.

Lemma launch_all_tracks σ cs s :
  forallb (λ b, b) (launch_all σ cs s).1 = true →
  NoDup (map minted_from cs) →
  (∀ c, c ∈ cs → Dict.mem (running_games s) (minted c) = false) →
  NoDup (map minted cs)
  ∧ Dict.keys (running_games (launch_all σ cs s).2)
    = (Dict.keys (running_games s) ++ map minted cs)%list
  ∧ ∀ k, k ∉ map minted cs →
         Dict.get (running_games (launch_all σ cs s).2) k
         = Dict.get (running_games s) k.
Proof.
  revert s. induction cs as [|c cs IH]; intros s Hok Hnd Hfresh.
  { simpl. split_and!; [constructor|by rewrite app_nil_r|done]. }
  cbn [launch_all fst snd forallb map] in *.
  apply andb_true_iff in Hok as [Hc Hok].
  apply NoDup_cons in Hnd as [Hhead Hnd].
  destruct (launch_game_in_sandbox σ (sc_game_id c) (sc_sandbox_type c)
              (sc_args c) (sc_uuid c) (sc_env c) s (sc_host c))
    as [[b s1] w1] eqn:E.
  cbn [fst snd] in *. subst b.
  apply sandboxed_launch_records in E as (d & Hrg & _).
  fold (minted c) in Hrg.
  assert (Hmem : Dict.mem (running_games s) (minted c) = false).
  { apply Hfresh. by left. }
  assert (Hne : ∀ c', c' ∈ cs → minted c' ≠ minted c).
  { intros c' Hin Heq. apply minted_from_inj in Heq. apply Hhead.
    rewrite <- Heq. apply list_elem_of_fmap. by exists c'. }
  destruct (IH s1 Hok Hnd) as (Hids & Hkeys & Hget).
  { intros c' Hin. unfold Dict.mem. rewrite Hrg.
    rewrite dict_get_set_ne by (by apply Hne).
    apply (Hfresh c'). by right. }
  split_and!.
  - apply NoDup_cons. split; [|done].
    intros Hin. apply list_elem_of_fmap in Hin as (c' & Heq & Hin).
    by apply (Hne c' Hin).
  - rewrite Hkeys, Hrg, dict_keys_set_absent by done.
    by rewrite <- app_assoc.
  - intros k Hk. apply not_elem_of_cons in Hk as [Hk1 Hk2].
    rewrite Hget by done. rewrite Hrg. by apply dict_get_set_ne.
Qed.

End Service.

(* ------------------------------------------------------------------ *)
(** ** Properties of the specification                                 *)
(* ------------------------------------------------------------------ *)

(** C1 (backend gating).  On a host where the optional feature reports
    enabled and the sandbox host binary is absent, the list of available
    sandbox types still contains [windows_sandbox]: the manager's own probe
    looks at the feature only, while [WindowsSandbox.is_available], which
    asks for both, answers no. *)
Theorem C1_windows_sandbox_listed_without_host_binary :
  let w := Scenario.feature_without_binary in
  let m := (SandboxManager.init ∅ ∅ w).1 in
  let σ := (SandboxManager.init ∅ ∅ w).2 in
  path_exists WindowsSandbox.sandbox_path w = false
  ∧ SandboxManager._is_windows_sandbox_available w = true
  ∧ WindowsSandbox.is_available w = false
  ∧ Store.deref (SandboxManager.get_available_sandboxes σ m).2
      (SandboxManager.get_available_sandboxes σ m).1
    = ["windows_sandbox"; "built_in"]
  ∧ SandboxManager.is_sandbox_available σ m "windows_sandbox" = true.
Proof. vm_compute. split_and!; reflexivity. Qed.

(** C10 (the availability list is copied).  [get_available_sandboxes]
    returns a new list object with the contents of the manager's list and
    changes no object that existed; whatever is then done to the returned
    list, [is_sandbox_available] and [get_available_sandboxes] answer as
    before. *)
Theorem C10_available_list_is_copied (σ : Store.t) (m : SandboxManager.t) :
  is_Some (σ !! SandboxManager.available_sandboxes m) →
  let l := (SandboxManager.get_available_sandboxes σ m).1 in
  let σ1 := (SandboxManager.get_available_sandboxes σ m).2 in
  l ≠ SandboxManager.available_sandboxes m
  ∧ σ !! l = None
  ∧ Store.deref σ1 l = Store.deref σ (SandboxManager.available_sandboxes m)
  ∧ (∀ l', l' ≠ l → σ1 !! l' = σ !! l')
  ∧ ∀ v : list string,
      let σ2 := Store.mutate l v σ1 in
      (∀ ty, SandboxManager.is_sandbox_available σ2 m ty
             = SandboxManager.is_sandbox_available σ m ty)
      ∧ Store.deref (SandboxManager.get_available_sandboxes σ2 m).2
          (SandboxManager.get_available_sandboxes σ2 m).1
        = Store.deref σ (SandboxManager.available_sandboxes m).
Proof.
  intros Hm l σ1.
  assert (Hfresh : σ !! l = None) by apply alloc_fresh.
  assert (Hne : l ≠ SandboxManager.available_sandboxes m).
  { intros Heq. rewrite Heq in Hfresh. rewrite Hfresh in Hm. by destruct Hm. }
  assert (Hother : ∀ l', l' ≠ l → σ1 !! l' = σ !! l').
  { intros l' Hl'.
    unfold σ1, SandboxManager.get_available_sandboxes, Store.alloc; simpl.
    by rewrite lookup_insert_ne. }
  split_and!; try done.
  - apply deref_alloc.
  - intros v σ2.
    assert (Hsame : Store.deref σ2 (SandboxManager.available_sandboxes m)
                    = Store.deref σ (SandboxManager.available_sandboxes m)).
    { unfold σ2, Store.mutate, Store.deref.
      rewrite lookup_insert_ne by done. by rewrite Hother. }
    split.
    + intros ty. unfold SandboxManager.is_sandbox_available. by rewrite Hsame.
    + unfold SandboxManager.get_available_sandboxes at 1 2.
      rewrite deref_alloc. exact Hsame.
Qed.

(** The manager of a host with Sandboxie, and a caller that empties the
    list it was given. *)
Lemma C10_available_list_is_copied_witness :
  let m := (SandboxManager.init ∅ ∅ Scenario.sandboxie_host).1 in
  let σ := (SandboxManager.init ∅ ∅ Scenario.sandboxie_host).2 in
  let l := (SandboxManager.get_available_sandboxes σ m).1 in
  let σ2 := Store.mutate l [] (SandboxManager.get_available_sandboxes σ m).2 in
  is_Some (σ !! SandboxManager.available_sandboxes m)
  ∧ Store.deref σ2 l = []
  ∧ (∀ ty, SandboxManager.is_sandbox_available σ2 m ty
           = SandboxManager.is_sandbox_available σ m ty)
  ∧ Store.deref (SandboxManager.get_available_sandboxes σ2 m).2
      (SandboxManager.get_available_sandboxes σ2 m).1
    = ["sandboxie"; "built_in"].
Proof.
  intros m σ l σ2.
  assert (Hm : is_Some (σ !! SandboxManager.available_sandboxes m))
    by (vm_compute; eauto).
  destruct (C10_available_list_is_copied σ m Hm) as (_ & _ & _ & _ & Hmut).
  destruct (Hmut []) as [Hq Hcopy].
  split_and!.
  - exact Hm.
  - vm_compute. reflexivity.
  - exact Hq.
  - etransitivity; [exact Hcopy|]. vm_compute. reflexivity.
Defined.

(** C5 (unknown or unavailable backend), as the specification puts it: the
    value returned for a type that is not available would be a structured
    failure naming the type.  It is the bare boolean [False], for a known
    type that is not installed and for a tag that does not exist. *)
Lemma C5_unavailable_returns_bare_false :
  let m := (SandboxManager.init ∅ ∅ Scenario.bare).1 in
  let σ := (SandboxManager.init ∅ ∅ Scenario.bare).2 in
  let launch ty :=
    (SandboxManager.launch_in_sandbox σ ty Scenario.game_path [] "box"
       (Scenario.env 1 SpawnExited None) m Scenario.bare).1.1 in
  SandboxManager.is_sandbox_available σ m "sandboxie" = false
  ∧ launch "sandboxie" = SandboxManager.RBool false
  ∧ ¬ structured_failure_naming "sandboxie" (launch "sandboxie")
  ∧ SandboxManager.is_sandbox_available σ m "qemu" = false
  ∧ launch "qemu" = SandboxManager.RBool false
  ∧ ¬ structured_failure_naming "qemu" (launch "qemu").
Proof. vm_compute. split_and!; auto. Qed.

(** C5, amended.  For a sandbox type that is not in the availability list
    (unknown, or known and not available) [launch_in_sandbox] raises
    nothing and returns the boolean [False]; the registry and the world are
    as before; the requested type is named in the line written to the error
    log, and nowhere in the returned value. *)
Theorem C5_unavailable_type_is_logged_and_refused
    (σ : Store.t) (m : SandboxManager.t) (w : world)
    (sandbox_type executable_path : string) (args : list string)
    (name : string) (env : SandboxManager.launch_env) :
  SandboxManager.is_sandbox_available σ m sandbox_type = false →
  let out :=
    SandboxManager.launch_in_sandbox σ sandbox_type executable_path args name
      env m w in
  out.1.1 = SandboxManager.RBool false
  ∧ out.2 = w
  ∧ SandboxManager.sandboxes out.1.2 = SandboxManager.sandboxes m
  ∧ SandboxManager.built_in_sandbox out.1.2 = SandboxManager.built_in_sandbox m
  ∧ SandboxManager.windows_sandbox out.1.2 = SandboxManager.windows_sandbox m
  ∧ ∃ line, SandboxManager.errors out.1.2
            = (SandboxManager.errors m ++ [line])%list
          ∧ Py.str_in sandbox_type line = true.
Proof.
  intros H out. unfold out, SandboxManager.launch_in_sandbox. rewrite H. simpl.
  split_and!; try done.
  eexists. split; [reflexivity|].
  apply (str_in_middle sandbox_type "Sandbox type " " not available").
Qed.

Lemma C5_unavailable_type_is_logged_and_refused_witness :
  let m := (SandboxManager.init ∅ ∅ Scenario.bare).1 in
  let σ := (SandboxManager.init ∅ ∅ Scenario.bare).2 in
  let out :=
    SandboxManager.launch_in_sandbox σ "sandboxie" Scenario.game_path [] "box"
      (Scenario.env 1 SpawnExited None) m Scenario.bare in
  SandboxManager.is_sandbox_available σ m "sandboxie" = false
  ∧ out.1.1 = SandboxManager.RBool false
  ∧ SandboxManager.sandboxes out.1.2 = SandboxManager.sandboxes m.
Proof.
  intros m σ out.
  assert (H : SandboxManager.is_sandbox_available σ m "sandboxie" = false)
    by (vm_compute; reflexivity).
  destruct (C5_unavailable_type_is_logged_and_refused σ m Scenario.bare
              "sandboxie" Scenario.game_path [] "box"
              (Scenario.env 1 SpawnExited None) H) as (Hr & _ & Hs & _).
  split_and!; [exact H | exact Hr | exact Hs].
Defined.

(** C9 (a failed launch leaves the registry alone).  Sandboxie was found at
    start-up; the launcher then cannot be started.  [launch_in_sandbox]
    returns the dictionary of the failure, whose [success] is false, and
    has nevertheless stored an entry under the requested name: a non-empty
    dictionary is true in [if result:].  The built-in branch tests the
    [success] field and does not have the defect. *)
Theorem C9_failed_sandboxie_launch_is_registered :
  let w := Scenario.sandboxie_host in
  let m := (SandboxManager.init ∅ ∅ w).1 in
  let σ := (SandboxManager.init ∅ ∅ w).2 in
  let out :=
    SandboxManager.launch_in_sandbox σ "sandboxie" Scenario.game_path [] "box"
      (Scenario.env 1 SpawnFails None) m w in
  SandboxManager.is_sandbox_available σ m "sandboxie" = true
  ∧ out.1.1 = SandboxManager.RSandboxie
                (SandboxManager.SbxFailed "operating system error")
  ∧ SandboxManager.is_failure out.1.1 = true
  ∧ SandboxManager.sandboxes m !! "box" = None
  ∧ SandboxManager.sandboxes out.1.2 !! "box"
    = Some (SandboxManager.info_of "sandboxie" Scenario.game_path w).
Proof. vm_compute. split_and!; reflexivity. Qed.

(** The Sandboxie branch stores an entry whatever [_launch_in_sandboxie]
    has returned. *)
Lemma sandboxie_branch_always_registers
    (σ : Store.t) (m : SandboxManager.t) (w : world) (executable_path : string)
    (args : list string) (name : string) (env : SandboxManager.launch_env) :
  SandboxManager.is_sandbox_available σ m "sandboxie" = true →
  path_exists executable_path w = true →
  String.eqb name "" = false →
  is_Some
    (SandboxManager.sandboxes
       (SandboxManager.launch_in_sandbox σ "sandboxie" executable_path args
          name env m w).1.2 !! name).
Proof.
  intros Hav Hex Hname. unfold SandboxManager.launch_in_sandbox.
  rewrite Hav, Hex, Hname. cbn [negb].
  change (String.eqb "sandboxie" "built_in") with false.
  change (String.eqb "sandboxie" "windows_sandbox") with false.
  change (String.eqb "sandboxie" "sandboxie") with true. cbv iota.
  destruct (SandboxManager._launch_in_sandboxie _ _ _ _ _ _) as [[r m1] w1].
  cbn. rewrite lookup_insert_eq. eauto.
Qed.

(** In the built-in branch of the manager a failure leaves the registry as
    it was. *)
Lemma built_in_failure_keeps_registry
    (σ : Store.t) (m : SandboxManager.t) (w : world) (executable_path : string)
    (args : list string) (name : string) (env : SandboxManager.launch_env) :
  let out :=
    SandboxManager.launch_in_sandbox σ "built_in" executable_path args name
      env m w in
  SandboxManager.is_failure out.1.1 = true →
  SandboxManager.sandboxes out.1.2 = SandboxManager.sandboxes m.
Proof.
  unfold SandboxManager.launch_in_sandbox.
  destruct (SandboxManager.is_sandbox_available σ m "built_in"); simpl; [|done].
  destruct (path_exists executable_path w); simpl; [|done].
  destruct (BuiltInSandbox.launch_in_sandbox _ _ _ _ _ _) as [[r b] w1].
  by destruct r.
Qed.




(** C7 (termination convergence), as the specification puts it: after
    [terminate_sandbox] the private directory would be gone.  The removal
    ignores errors: where the tree cannot be removed, [terminate_sandbox]
    returns [True], the health check says [not_found], and the directory is
    still on disk. *)
Lemma C7_temp_dir_survives_failed_removal :
  let launched :=
    BuiltInSandbox.launch_in_sandbox "box" Scenario.game_path []
      (Scenario.built_in_env 1 SpawnExited None) ∅ Scenario.pinned_host in
  let out := BuiltInSandbox.terminate_sandbox "box" launched.1.2 launched.2 in
  BuiltInSandbox.sb_temp_dir <$> (launched.1.2 !! "box")
    = Some (Some Scenario.box_temp_dir)
  ∧ out.1.1 = true
  ∧ Health.status (BuiltInSandbox.check_sandbox_health "box" out.1.2 out.2)
    = "not_found"
  ∧ path_exists Scenario.box_temp_dir out.2 = true.
Proof. vm_compute. split_and!; reflexivity. Qed.

(** A launch that fails after the directory was made does not record it,
    and termination then has nothing to remove. *)
Example failed_launch_leaves_temp_dir :
  let launched :=
    BuiltInSandbox.launch_in_sandbox "box" Scenario.game_path []
      (Scenario.built_in_env 1 SpawnFails None) ∅ Scenario.bare in
  let out := BuiltInSandbox.terminate_sandbox "box" launched.1.2 launched.2 in
  identity_of launched.1.1 = None
  ∧ BuiltInSandbox.sb_temp_dir <$> (launched.1.2 !! "box") = Some None
  ∧ out.1.1 = true
  ∧ path_exists Scenario.box_temp_dir out.2 = true.
Proof. vm_compute. split_and!; reflexivity. Qed.

(** C7, amended.  For a sandbox that exists, [terminate_sandbox] returns
    [True] and every later health check reports [not_found]; the directory
    recorded for the sandbox is no longer on disk, provided its tree can be
    removed. *)
Theorem C7_terminated_sandbox_is_not_found
    (name : string) (sbs : gmap string BuiltInSandbox.sandbox) (w : world) :
  is_Some (sbs !! name) →
  let out := BuiltInSandbox.terminate_sandbox name sbs w in
  out.1.1 = true
  ∧ (∀ w', Health.status (BuiltInSandbox.check_sandbox_health name out.1.2 w')
           = "not_found")
  ∧ (∀ sb d, sbs !! name = Some sb → BuiltInSandbox.sb_temp_dir sb = Some d →
             d ∉ pinned w → path_exists d out.2 = false).
Proof.
  intros [sb Hsb] out. unfold out, BuiltInSandbox.terminate_sandbox.
  rewrite Hsb. simpl. split_and!.
  - done.
  - intros w'. unfold BuiltInSandbox.check_sandbox_health.
    by rewrite lookup_delete_eq.
  - intros sb' d [= <-] Hd Hfree. unfold BuiltInSandbox.cleanup_temp_dir.
    rewrite Hd.
    destruct (stop_processes_frame (BuiltInSandbox.sb_processes sb) w)
      as [Hp Hq].
    destruct (path_exists d
                (BuiltInSandbox.stop_processes (BuiltInSandbox.sb_processes sb) w))
      eqn:Hex; [|done].
    apply rmtree_removes. by rewrite Hq.
Qed.

Lemma C7_terminated_sandbox_is_not_found_witness :
  let launched :=
    BuiltInSandbox.launch_in_sandbox "box" Scenario.game_path []
      (Scenario.built_in_env 1 SpawnExited None) ∅ Scenario.bare in
  let out := BuiltInSandbox.terminate_sandbox "box" launched.1.2 launched.2 in
  is_Some (launched.1.2 !! "box")
  ∧ path_exists Scenario.box_temp_dir launched.2 = true
  ∧ out.1.1 = true
  ∧ Health.status (BuiltInSandbox.check_sandbox_health "box" out.1.2 out.2)
    = "not_found"
  ∧ path_exists Scenario.box_temp_dir out.2 = false.
Proof.
  intros launched out.
  assert (Hsome : is_Some (launched.1.2 !! "box")) by (vm_compute; eauto).
  destruct (C7_terminated_sandbox_is_not_found "box" launched.1.2 launched.2
              Hsome) as (Hr & Hh & Hd).
  split_and!.
  - exact Hsome.
  - vm_compute. reflexivity.
  - exact Hr.
  - apply Hh.
  - destruct Hsome as [sb Hsb]. apply (Hd sb Scenario.box_temp_dir Hsb).
    + revert Hsb. vm_compute. by intros [= <-].
    + vm_compute. set_solver.
Defined.

(** C2 (monitor convergence).  A game started by [launch_game] is tracked
    by its [Popen] object, not by a record dictionary.  After its process
    has been killed from outside, every pass of the monitor stops at that
    value (a [Popen] object has no [get]) and changes nothing: however many
    turns the monitor takes, the instance is never marked terminated, no
    removal is scheduled, and [get_running_games] keeps listing it. *)
Theorem C2_plain_instance_is_never_reaped :
  let s0 := (Scenario.service Scenario.bare).1 in
  let launched :=
    GameLauncherService.launch_game "demo" []
      (SpawnLives (Scenario.game_proc 1700000000)) s0 Scenario.bare in
  let s1 := launched.1.2 in
  let killed := set_procs [] launched.2 in
  launched.1.1 = true
  ∧ GameLauncherService.running_games s1
    = [("demo", GameLauncherService.GIPopen (Popen 2%positive))]
  ∧ pid_exists launched.2 2%positive = true
  ∧ pid_exists killed 2%positive = false
  ∧ ∀ n : nat,
      let after := GameLauncherService.monitor_turns n s1 killed in
      GameLauncherService.running_games after.1
      = [("demo", GameLauncherService.GIPopen (Popen 2%positive))]
      ∧ GameLauncherService.removals after.1 = []
      ∧ (GameLauncherService.get_running_games after.1 after.2).1 = ["demo"].
Proof.
  intros s0 launched s1 killed.
  assert (Hrg : GameLauncherService.running_games s1
                = [("demo", GameLauncherService.GIPopen (Popen 2%positive))])
    by (vm_compute; reflexivity).
  assert (Hrm : GameLauncherService.removals s1 = [])
    by (vm_compute; reflexivity).
  split; [vm_compute; reflexivity|].
  split; [exact Hrg|].
  split; [vm_compute; reflexivity|].
  split; [vm_compute; reflexivity|].
  intros n after.
  destruct (monitor_turns_stuck n s1 killed _ _ _ Hrg Hrm) as [Hs _].
  unfold after. rewrite Hs. split_and!; try assumption.
  unfold GameLauncherService.get_running_games.
  rewrite (update_stuck_on_popen _ _ _ _ _ Hrg). by rewrite Hrg.
Qed.

(** The monitor at work on a record dictionary: the process of a sandboxed
    instance is killed from outside; the first turn marks the record and
    schedules its removal, the second turn removes it. *)
Example monitor_reaps_sandboxed_instance :
  let s0 := (Scenario.service Scenario.bare).1 in
  let σ0 := (Scenario.service Scenario.bare).2 in
  let launched :=
    GameLauncherService.launch_game_in_sandbox σ0 "demo" "built_in" []
      0xdeadbeef000000000000000000000001
      (Scenario.env 1 SpawnExited (Some (Scenario.game_proc 1700000001)))
      s0 Scenario.bare in
  let killed := set_procs [] launched.2 in
  let turn n := GameLauncherService.monitor_turns n launched.1.2 killed in
  Dict.keys (GameLauncherService.running_games launched.1.2)
    = ["demo_1700000000_deadbeef"]
  ∧ GameLauncherService.removals (turn 1).1
    = [(1700000004%Z, "demo_1700000000_deadbeef")]
  ∧ Dict.keys (GameLauncherService.running_games (turn 1).1)
    = ["demo_1700000000_deadbeef"]
  ∧ now (turn 2).2 = 1700000004%Z
  ∧ GameLauncherService.running_games (turn 2).1 = [].
Proof. vm_compute. split_and!; reflexivity. Qed.

(** C4 (termination failure).  A sandboxed game whose process refuses both
    the graceful and the forced request: [terminate_game] answers [True]
    and has removed the record, while the process is still there.  The
    function keeps a local [terminated] and never reads it. *)
Theorem C4_terminate_game_succeeds_for_a_survivor :
  let s0 := (Scenario.service Scenario.bare).1 in
  let σ0 := (Scenario.service Scenario.bare).2 in
  let launched :=
    GameLauncherService.launch_game_in_sandbox σ0 "demo" "built_in" []
      0xdeadbeef000000000000000000000001
      (Scenario.env 1 SpawnExited (Some (Scenario.protected_proc 1700000001)))
      s0 Scenario.bare in
  let instance_id := "demo_1700000000_deadbeef" in
  let out :=
    GameLauncherService.terminate_game instance_id launched.1.2 launched.2 in
  launched.1.1 = true
  ∧ (∃ d, Dict.get (GameLauncherService.running_games launched.1.2) instance_id
          = Some (GameLauncherService.GIDict d)
        ∧ GameLauncherService.gd_process d = Some (PsProcess 2%positive)
        ∧ GameLauncherService.gd_pid d = Some 2%positive)
  ∧ (ps_terminate 2%positive launched.2).1 = Raise AccessDenied
  ∧ (ps_kill 2%positive launched.2).1 = Raise AccessDenied
  ∧ out.1.1 = true
  ∧ GameLauncherService.running_games out.1.2 = []
  ∧ pid_exists out.2 2%positive = true.
Proof. vm_compute. split_and!; try reflexivity. eexists. split_and!; reflexivity. Qed.

(** C6 (uniqueness), as the specification puts it: identifiers minted by
    successful launches would always differ.  Two launches in the same
    second whose UUIDs begin with the same eight digits both succeed and
    mint the same identifier; the second record replaces the first. *)
Lemma C6_colliding_draws_share_an_identifier :
  let host := Scenario.windows_sandbox_host in
  let s0 := (Scenario.service host).1 in
  let σ0 := (Scenario.service host).2 in
  let env := Scenario.env 1 (SpawnLives (Scenario.game_proc 1700000000)) None in
  let first :=
    GameLauncherService.launch_game_in_sandbox σ0 "demo" "windows_sandbox" []
      Scenario.uuid_a env s0 host in
  let second :=
    GameLauncherService.launch_game_in_sandbox σ0 "demo" "windows_sandbox" []
      Scenario.uuid_b env first.1.2 first.2 in
  Scenario.uuid_a ≠ Scenario.uuid_b
  ∧ first.1.1 = true
  ∧ second.1.1 = true
  ∧ GameLauncherService.mint_instance_id "demo" (now host) Scenario.uuid_a
    = GameLauncherService.mint_instance_id "demo" (now first.2) Scenario.uuid_b
  ∧ Dict.keys (GameLauncherService.running_games first.1.2)
    = ["demo_1700000000_deadbeef"]
  ∧ Dict.keys (GameLauncherService.running_games second.1.2)
    = ["demo_1700000000_deadbeef"].
Proof. vm_compute. split_and!; try reflexivity. discriminate. Qed.

(** C6, amended.  A successful [launch_game_in_sandbox] records the
    instance under the identifier [{game_id}_{unix_ts}_{h}], where [h]
    consists of eight hexadecimal digits, the first eight of the UUID; two
    minted identifiers are the same exactly when game, second and those
    eight digits are the same, so that launches differing in one of them
    have different identifiers. *)
Theorem C6_instance_id_form_and_collisions
    (σ : Store.t) (game_id sandbox_type : string) (args : list string) (u : N)
    (env : SandboxManager.launch_env) (s : GameLauncherService.t) (w : world) :
  let out :=
    GameLauncherService.launch_game_in_sandbox σ game_id sandbox_type args u
      env s w in
  let instance_id := GameLauncherService.mint_instance_id game_id (now w) u in
  out.1.1 = true →
  Dict.mem (GameLauncherService.running_games out.1.2) instance_id = true
  ∧ instance_id = game_id +:+ "_" +:+ pretty (now w) +:+ "_" +:+ hex8 u
  ∧ String.length (hex8 u) = 8
  ∧ Py.all_chars Py.is_hex_char (hex8 u) = true
  ∧ ∀ (game_id' : string) (ts' : Z) (u' : N),
      instance_id = GameLauncherService.mint_instance_id game_id' ts' u'
      ↔ game_id = game_id' ∧ now w = ts' ∧ hex8 u = hex8 u'.
Proof.
  intros out instance_id Hok. unfold out in *. clear out.
  destruct (GameLauncherService.launch_game_in_sandbox _ _ _ _ _ _ _ _)
    as [[r s'] w'] eqn:E.
  cbn [fst snd] in *. subst r.
  apply sandboxed_launch_records in E as (d & Hrg & _).
  split_and!.
  - unfold Dict.mem, instance_id. rewrite Hrg. by rewrite dict_get_set_eq.
  - reflexivity.
  - apply hex8_length.
  - apply hex8_hex.
  - intros game_id' ts' u'. apply mint_inj.
Qed.

Lemma C6_instance_id_form_and_collisions_witness :
  let host := Scenario.windows_sandbox_host in
  let s0 := (Scenario.service host).1 in
  let σ0 := (Scenario.service host).2 in
  let env := Scenario.env 1 (SpawnLives (Scenario.game_proc 1700000000)) None in
  let out :=
    GameLauncherService.launch_game_in_sandbox σ0 "demo" "windows_sandbox" []
      Scenario.uuid_a env s0 host in
  out.1.1 = true
  ∧ Dict.mem (GameLauncherService.running_games out.1.2)
      (GameLauncherService.mint_instance_id "demo" (now host) Scenario.uuid_a) = true
  ∧ GameLauncherService.mint_instance_id "demo" (now host) Scenario.uuid_a
    ≠ GameLauncherService.mint_instance_id "demo" (now host) Scenario.uuid_c.
Proof.
  intros host s0 σ0 env out.
  assert (Hok : out.1.1 = true) by (vm_compute; reflexivity).
  destruct (C6_instance_id_form_and_collisions σ0 "demo" "windows_sandbox" []
              Scenario.uuid_a env s0 host Hok) as (Hmem & _ & _ & _ & Hinj).
  split_and!; [exact Hok | exact Hmem |].
  intros Heq. apply Hinj in Heq as (_ & _ & Hh).
  vm_compute in Hh. discriminate Hh.
Defined.

(** C8 (duplicate-launch guard), as the specification puts it: every call
    of [launch_game_in_sandbox] would mint a fresh identifier.  Here the
    identifier that the second call mints is already in use when the call
    is made: the call succeeds, the record of the first instance is
    replaced, and one instance is tracked where two were launched. *)
Lemma C8_minted_identifier_may_be_in_use :
  let host := Scenario.windows_sandbox_host in
  let s0 := (Scenario.service host).1 in
  let σ0 := (Scenario.service host).2 in
  let env := Scenario.env 1 (SpawnLives (Scenario.game_proc 1700000000)) None in
  let first :=
    GameLauncherService.launch_game_in_sandbox σ0 "demo" "windows_sandbox" []
      Scenario.uuid_a env s0 host in
  let second :=
    GameLauncherService.launch_game_in_sandbox σ0 "demo" "windows_sandbox" []
      Scenario.uuid_b env first.1.2 first.2 in
  first.1.1 = true
  ∧ Dict.mem (GameLauncherService.running_games first.1.2)
      (GameLauncherService.mint_instance_id "demo" (now first.2) Scenario.uuid_b)
    = true
  ∧ second.1.1 = true
  ∧ length (GameLauncherService.running_games first.1.2) = 1
  ∧ length (GameLauncherService.running_games second.1.2) = 1
  ∧ length (procs second.2) = 2.
Proof. vm_compute. split_and!; reflexivity. Qed.

(** C8, amended.  [launch_game] returns false, and leaves registry and
    world as they are (no process is started), whenever a value is
    recorded under the game's identifier, which is where a plain launch
    records its instance.  [launch_game_in_sandbox] does not look at the
    running games: whether it succeeds does not depend on them.  When it
    succeeds the record goes under the minted identifier, which is never
    the game's identifier, and no other record is touched; the instance
    is tracked in addition to the earlier ones when the identifier is not
    in use, and replaces the record under it otherwise.  Successful calls
    that differ pairwise in game, second or the first eight digits of the
    UUID, none of whose identifiers is in use beforehand, mint pairwise
    different identifiers and are all tracked side by side. *)
Theorem C8_duplicate_guard_is_for_plain_launches_only :
  (∀ game_id args sp s w,
      Dict.mem (GameLauncherService.running_games s) game_id = true →
      GameLauncherService.launch_game game_id args sp s w = (false, s, w))
  ∧ (∀ game_id args sp s w,
      (GameLauncherService.launch_game game_id args sp s w).1.1 = true →
      ∃ process,
        Dict.get (GameLauncherService.running_games
                    (GameLauncherService.launch_game game_id args sp s w).1.2)
          game_id
        = Some (GameLauncherService.GIPopen process))
  ∧ (∀ σ game_id sandbox_type args u env s w rg,
      (GameLauncherService.launch_game_in_sandbox σ game_id sandbox_type args
         u env (GameLauncherService.set_running rg s) w).1.1
      = (GameLauncherService.launch_game_in_sandbox σ game_id sandbox_type args
           u env s w).1.1)
  ∧ (∀ σ game_id sandbox_type args u env s w,
      let out :=
        GameLauncherService.launch_game_in_sandbox σ game_id sandbox_type args
          u env s w in
      let instance_id :=
        GameLauncherService.mint_instance_id game_id (now w) u in
      out.1.1 = true →
      instance_id ≠ game_id
      ∧ (∃ d, Dict.get (GameLauncherService.running_games out.1.2) instance_id
              = Some (GameLauncherService.GIDict d)
            ∧ GameLauncherService.gd_game_id d = Some game_id
            ∧ GameLauncherService.gd_sandbox d
              = Some (game_id +:+ "_" +:+ pretty (now w)))
      ∧ (∀ k, k ≠ instance_id →
              Dict.get (GameLauncherService.running_games out.1.2) k
              = Dict.get (GameLauncherService.running_games s) k)
      ∧ (Dict.mem (GameLauncherService.running_games s) instance_id = false →
         Dict.keys (GameLauncherService.running_games out.1.2)
         = (Dict.keys (GameLauncherService.running_games s)
              ++ [instance_id])%list)
      ∧ (Dict.mem (GameLauncherService.running_games s) instance_id = true →
         Dict.keys (GameLauncherService.running_games out.1.2)
         = Dict.keys (GameLauncherService.running_games s)))
  ∧ (∀ σ cs s,
      let out := launch_all σ cs s in
      forallb (λ b, b) out.1 = true →
      NoDup (map minted_from cs) →
      (∀ c, c ∈ cs →
            Dict.mem (GameLauncherService.running_games s) (minted c) = false) →
      NoDup (map minted cs)
      ∧ Dict.keys (GameLauncherService.running_games out.2)
        = (Dict.keys (GameLauncherService.running_games s)
             ++ map minted cs)%list
      ∧ ∀ k, k ∉ map minted cs →
             Dict.get (GameLauncherService.running_games out.2) k
             = Dict.get (GameLauncherService.running_games s) k).
Proof.
  split_and!.
  - intros. by apply guard_rejects.
  - intros game_id args sp s w. unfold GameLauncherService.launch_game.
    destruct (GameLauncherService.games s !! game_id); [|done].
    destruct (Dict.mem _ game_id); [done|].
    destruct (popen sp w) as [[process|e] w1]; [|done].
    intros _. exists process. cbn [fst snd].
    apply dict_get_set_eq.
  - intros. apply sandboxed_launch_ignores_running.
  - intros σ game_id sandbox_type args u env s w out instance_id Hok.
    unfold out in *. clear out.
    destruct (GameLauncherService.launch_game_in_sandbox _ _ _ _ _ _ _ _)
      as [[r s'] w'] eqn:E.
    cbn [fst snd] in *. subst r.
    apply sandboxed_launch_record_fields in E as (d & Hrg & Hg & Hsb & _).
    rewrite Hrg. split_and!.
    + apply mint_not_game_id.
    + exists d. unfold instance_id. rewrite dict_get_set_eq.
      split; [reflexivity|]. split; [exact Hg|exact Hsb].
    + intros k Hk. by apply dict_get_set_ne.
    + apply dict_keys_set_absent.
    + apply dict_keys_set_mem.
  - intros σ cs s out. apply launch_all_tracks.
Qed.

(** A plain instance of [demo] is running: a second plain launch is
    refused, two sandboxed launches whose UUIDs begin differently are
    accepted, and the three instances are tracked side by side. *)
Lemma C8_duplicate_guard_is_for_plain_launches_only_witness :
  let host := Scenario.windows_sandbox_host in
  let s0 := (Scenario.service host).1 in
  let σ0 := (Scenario.service host).2 in
  let proc := SpawnLives (Scenario.game_proc 1700000000) in
  let env := Scenario.env 1 proc None in
  let plain := GameLauncherService.launch_game "demo" [] proc s0 host in
  let again := GameLauncherService.launch_game "demo" [] proc plain.1.2 plain.2 in
  let calls :=
    [ {| sc_game_id := "demo"; sc_sandbox_type := "windows_sandbox";
         sc_args := []; sc_uuid := Scenario.uuid_a; sc_env := env;
         sc_host := plain.2 |};
      {| sc_game_id := "demo"; sc_sandbox_type := "windows_sandbox";
         sc_args := []; sc_uuid := Scenario.uuid_c; sc_env := env;
         sc_host := plain.2 |} ] in
  let both := launch_all σ0 calls plain.1.2 in
  Dict.mem (GameLauncherService.running_games plain.1.2) "demo" = true
  ∧ again = (false, plain.1.2, plain.2)
  ∧ both.1 = [true; true]
  ∧ map minted calls
    = ["demo_1700000000_deadbeef"; "demo_1700000000_0badcafe"]
  ∧ Dict.keys (GameLauncherService.running_games both.2)
    = ["demo"; "demo_1700000000_deadbeef"; "demo_1700000000_0badcafe"].
Proof.
  intros host s0 σ0 proc env plain again calls both.
  destruct C8_duplicate_guard_is_for_plain_launches_only
    as (Hguard & _ & _ & _ & Hall).
  assert (Hmem : Dict.mem (GameLauncherService.running_games plain.1.2) "demo"
                 = true) by (vm_compute; reflexivity).
  assert (Hok : forallb (λ b, b) both.1 = true) by (vm_compute; reflexivity).
  assert (Hfrom : NoDup (map minted_from calls)).
  { vm_compute. apply NoDup_cons. split; [|apply NoDup_singleton].
    intros H. apply list_elem_of_singleton in H. discriminate H. }
  assert (Hfree : ∀ c, c ∈ calls →
            Dict.mem (GameLauncherService.running_games plain.1.2) (minted c)
            = false).
  { intros c Hc. apply elem_of_cons in Hc as [->|Hc];
      [vm_compute; reflexivity|].
    apply list_elem_of_singleton in Hc as ->. vm_compute. reflexivity. }
  destruct (Hall σ0 calls plain.1.2 Hok Hfrom Hfree) as (_ & Hkeys & _).
  assert (Hids : map minted calls
                 = ["demo_1700000000_deadbeef"; "demo_1700000000_0badcafe"])
    by (vm_compute; reflexivity).
  split_and!.
  - exact Hmem.
  - exact (Hguard "demo" [] proc plain.1.2 plain.2 Hmem).
  - vm_compute. reflexivity.
  - exact Hids.
  - fold both in Hkeys. rewrite Hkeys, Hids. vm_compute. reflexivity.
Defined.

(* ------------------------------------------------------------------ *)
(** ** The sandbox manager                                             *)
(* ------------------------------------------------------------------ *)

Section ManagerBehaviour.
Import SandboxManager.

Lemma find_some_exists {A} (f : A → bool) (l : list A) :
  (∃ x, List.find f l = Some x) ↔ ∃ x, x ∈ l ∧ f x = true.
Proof.
  split.
  - intros [x Hx]. apply find_some in Hx as [Hin Hf].
    exists x. split; [by apply list_elem_of_In|done].
  - intros (x & Hin & Hf). destruct (List.find f l) eqn:E; [eauto|].
    apply list_elem_of_In in Hin. by rewrite (find_none _ _ E x Hin) in Hf.
Qed.

Lemma sandboxie_probe (ex : gmap string string) (w : world) :
  let out := _is_sandboxie_available ex w in
  (out.1 = true ↔
     (get_str ex "sandboxie" ≠ "" ∧ path_exists (get_str ex "sandboxie") w = true)
     ∨ ∃ p, p ∈ common_paths ∧ path_exists p w = true)
  ∧ (out.1 = true →
     get_str out.2 "sandboxie" ≠ "" ∧ path_exists (get_str out.2 "sandboxie") w = true).
Proof.
  unfold _is_sandboxie_available.
  destruct (String.eqb (get_str ex "sandboxie") "") eqn:Hempty; cbn [negb andb].
  - apply String.eqb_eq in Hempty.
    destruct (List.find _ common_paths) as [p|] eqn:Hfind; cbn [fst snd].
    + apply find_some in Hfind as [Hin Hp]. split.
      * split; [|done]. intros _. right. exists p. split; [by apply list_elem_of_In|done].
      * intros _. unfold get_str. rewrite lookup_insert_eq. simpl. split; [|done].
        intros ->. revert Hin. simpl. intuition discriminate.
    + split; [|done]. split; [done|].
      intros [[Hne _]|(p & Hin & Hp)]; [done|].
      apply list_elem_of_In in Hin. by rewrite (find_none _ _ Hfind p Hin) in Hp.
  - apply String.eqb_neq in Hempty.
    destruct (path_exists (get_str ex "sandboxie") w) eqn:Hex; cbn [fst snd].
    + split; [|done]. split; [|done]. intros _. by left.
    + destruct (List.find _ common_paths) as [p|] eqn:Hfind; cbn [fst snd].
      * apply find_some in Hfind as [Hin Hp]. split.
        -- split; [|done]. intros _. right. exists p. split; [by apply list_elem_of_In|done].
        -- intros _. unfold get_str. rewrite lookup_insert_eq. simpl. split; [|done].
           intros ->. revert Hin. simpl. intuition discriminate.
      * split; [|done]. split; [done|].
        intros [[_ Hp]|(p & Hin & Hp)]; [done|].
        apply list_elem_of_In in Hin. by rewrite (find_none _ _ Hfind p Hin) in Hp.
Qed.

Lemma init_executables cfg σ w :
  sandbox_executables (init cfg σ w).1
  = (_is_sandboxie_available (initial_executables cfg) w).2.
Proof.
  unfold init, _check_available_sandboxes. fold (initial_executables cfg).
  by destruct (_is_sandboxie_available (initial_executables cfg) w) as [b ex1].
Qed.

Lemma sandboxie_listed_is_probe cfg σ w :
  is_sandbox_available (init cfg σ w).2 (init cfg σ w).1 "sandboxie"
  = (_is_sandboxie_available (initial_executables cfg) w).1.
Proof.
  unfold is_sandbox_available. rewrite init_available.
  fold (initial_executables cfg). unfold _check_available_sandboxes.
  destruct (_is_sandboxie_available (initial_executables cfg) w) as [b ex1].
  cbn [fst snd].
  destruct b; [apply bool_decide_eq_true | apply bool_decide_eq_false];
    rewrite !elem_of_app, !elem_of_optional, list_elem_of_singleton.
  - left; left. done.
  - rewrite elem_of_nil. intros [[[]|[[_ [=]]|[_ [=]]]]|[[_ [=]]|[=]]].
Qed.

(** X1 (Sandboxie probe).  After [__init__], [sandboxie] is listed exactly
    when the configured [sandboxie_path] is non-empty and exists, or one of
    the four common installation paths exists; and whenever it is listed,
    [sandbox_executables["sandboxie"]] holds a non-empty path that exists
    (a common path that was found is remembered there). *)
Theorem sandboxie_listed_iff (cfg : gmap string string) (σ : Store.t) (w : world) :
  let m := (init cfg σ w).1 in
  let σ' := (init cfg σ w).2 in
  let configured := get_str cfg "sandboxie_path" in
  (is_sandbox_available σ' m "sandboxie" = true
   ↔ (configured ≠ "" ∧ path_exists configured w = true)
     ∨ ∃ p, p ∈ common_paths ∧ path_exists p w = true)
  ∧ (is_sandbox_available σ' m "sandboxie" = true →
     get_str (sandbox_executables m) "sandboxie" ≠ ""
     ∧ path_exists (get_str (sandbox_executables m) "sandboxie") w = true).
Proof.
  intros m σ' configured. unfold m, σ'.
  rewrite sandboxie_listed_is_probe, init_executables.
  destruct (sandboxie_probe (initial_executables cfg) w) as [Hiff Hrem].
  assert (Hcfg : get_str (initial_executables cfg) "sandboxie" = configured).
  { unfold initial_executables, get_str at 1.
    rewrite lookup_insert_ne by done. rewrite lookup_insert_ne by done.
    by rewrite lookup_insert_eq. }
  rewrite Hcfg in Hiff. split; [exact Hiff|exact Hrem].
Qed.

(** X2 (availability list).  Every type that [__init__] lists as available
    is one of [sandboxie], [windows_sandbox], [virtualbox], [built_in]. *)
Theorem listed_types_are_known (cfg : gmap string string) (σ : Store.t)
    (w : world) (ty : string) :
  is_sandbox_available (init cfg σ w).2 (init cfg σ w).1 ty = true →
  ty ∈ known_types.
Proof.
  unfold is_sandbox_available. rewrite init_available.
  rewrite bool_decide_eq_true. unfold _check_available_sandboxes.
  destruct (_is_sandboxie_available _ w) as [b ex1]. cbn [fst snd].
  rewrite !elem_of_app, !elem_of_optional, list_elem_of_singleton.
  unfold known_types. rewrite !elem_of_cons.
  intros [[[_ ->]|[[_ ->]|[_ ->]]]|[[_ ->]| ->]]; auto.
Qed.

Lemma listed_types_are_known_witness :
  let started := init ∅ ∅ Scenario.bare in
  is_sandbox_available started.2 started.1 "built_in" = true
  ∧ "built_in" ∈ known_types.
Proof.
  intros started.
  assert (H : is_sandbox_available started.2 started.1 "built_in" = true)
    by (vm_compute; reflexivity).
  split; [exact H|].
  exact (listed_types_are_known ∅ ∅ Scenario.bare "built_in" H).
Defined.

(** X3 (missing executable).  [launch_in_sandbox] of the manager with an
    executable path that does not exist returns the boolean [False] for
    every sandbox type, starts nothing, leaves the registry and both
    backends as they were, and writes exactly one error line. *)
Theorem missing_executable_is_refused (σ : Store.t) (m : t) (w : world)
    (sandbox_type executable_path : string) (args : list string)
    (name : string) (env : launch_env) :
  path_exists executable_path w = false →
  let out := launch_in_sandbox σ sandbox_type executable_path args name env m w in
  out.1.1 = RBool false
  ∧ out.2 = w
  ∧ sandboxes out.1.2 = sandboxes m
  ∧ built_in_sandbox out.1.2 = built_in_sandbox m
  ∧ windows_sandbox out.1.2 = windows_sandbox m
  ∧ ∃ line, errors out.1.2 = (errors m ++ [line])%list.
Proof.
  intros Hex out. unfold out, launch_in_sandbox. rewrite Hex.
  destruct (is_sandbox_available σ m sandbox_type); cbn [negb fst snd];
    split_and!; try done; eexists; reflexivity.
Qed.

Lemma missing_executable_is_refused_witness :
  let started := init ∅ ∅ Scenario.bare in
  let out :=
    launch_in_sandbox started.2 "built_in" "C:\Games\gone.exe" [] "box"
      (Scenario.env 1 SpawnExited None) started.1 Scenario.bare in
  path_exists "C:\Games\gone.exe" Scenario.bare = false
  ∧ out.1.1 = RBool false
  ∧ sandboxes out.1.2 = sandboxes started.1
  ∧ built_in_sandbox out.1.2 = built_in_sandbox started.1.
Proof.
  intros started out.
  assert (H : path_exists "C:\Games\gone.exe" Scenario.bare = false)
    by (vm_compute; reflexivity).
  destruct (missing_executable_is_refused started.2 started.1 Scenario.bare
              "built_in" "C:\Games\gone.exe" [] "box"
              (Scenario.env 1 SpawnExited None) H)
    as (Hr & _ & Hs & Hb & _).
  split_and!; [exact H|exact Hr|exact Hs|exact Hb].
Defined.

(** X4 (built-in branch of the manager).  For the [built_in] type the
    manager returns the dictionary of the backend, and records the name in
    its own registry exactly when that dictionary is a success: a failure
    dictionary leaves [self.sandboxes] as it was. *)
Theorem built_in_registers_iff_launched (σ : Store.t) (m : t) (w : world)
    (executable_path : string) (args : list string) (name : string)
    (env : launch_env) :
  is_sandbox_available σ m "built_in" = true →
  path_exists executable_path w = true →
  String.eqb name "" = false →
  let out := launch_in_sandbox σ "built_in" executable_path args name env m w in
  (∀ info, out.1.1 = RBuiltIn (BuiltInSandbox.Launched info) →
     sandboxes out.1.2
     = <[name := info_of "built_in" executable_path out.2]> (sandboxes m))
  ∧ (∀ f, out.1.1 = RBuiltIn (BuiltInSandbox.Failed f) →
     sandboxes out.1.2 = sandboxes m)
  ∧ ∃ r, out.1.1 = RBuiltIn r.
Proof.
  intros Hav Hex Hname out. unfold out, launch_in_sandbox.
  rewrite Hav, Hex, Hname. cbn [negb].
  change (String.eqb "built_in" "built_in") with true. cbv iota.
  destruct (BuiltInSandbox.launch_in_sandbox _ _ _ _ _ _) as [[r b] w1].
  destruct r; cbn; split_and!; try done; eauto.
Qed.

Lemma built_in_registers_iff_launched_witness :
  let started := init ∅ ∅ Scenario.bare in
  let out :=
    launch_in_sandbox started.2 "built_in" Scenario.game_path [] "box"
      (Scenario.env 1 SpawnFails None) started.1 Scenario.bare in
  is_sandbox_available started.2 started.1 "built_in" = true
  ∧ path_exists Scenario.game_path Scenario.bare = true
  ∧ (∀ f, out.1.1 = RBuiltIn (BuiltInSandbox.Failed f) →
       sandboxes out.1.2 = sandboxes started.1)
  ∧ ∃ r, out.1.1 = RBuiltIn r.
Proof.
  intros started out.
  assert (Ha : is_sandbox_available started.2 started.1 "built_in" = true)
    by (vm_compute; reflexivity).
  assert (Hp : path_exists Scenario.game_path Scenario.bare = true)
    by (vm_compute; reflexivity).
  assert (Hn : String.eqb "box" "" = false) by reflexivity.
  destruct (built_in_registers_iff_launched started.2 started.1 Scenario.bare
              Scenario.game_path [] "box" (Scenario.env 1 SpawnFails None)
              Ha Hp Hn) as (_ & Hf & Hr).
  split_and!; [exact Ha|exact Hp|exact Hf|exact Hr].
Defined.

(** X5 (registry after termination).  [terminate_sandbox] of the manager
    never removes the manager's own entry of a sandbox whose type is not
    [sandboxie], whatever the backend answers: only [_terminate_sandboxie]
    deletes from [self.sandboxes]. *)
Theorem manager_terminate_keeps_its_entry (name : string) (m : t) (w : world)
    (info : sandbox_info) :
  sandboxes m !! name = Some info →
  String.eqb (si_type info) "sandboxie" = false →
  sandboxes (terminate_sandbox name m w).1.2 = sandboxes m.
Proof.
  intros Hinfo Hty. unfold terminate_sandbox. rewrite Hinfo.
  destruct (String.eqb (si_type info) "built_in").
  { by destruct (BuiltInSandbox.terminate_sandbox _ _ _) as [[r b] w1]. }
  rewrite Hty.
  destruct (String.eqb (si_type info) "windows_sandbox").
  { by destruct (WindowsSandbox.terminate_sandbox _ _ _) as [[r b] w1]. }
  by destruct (String.eqb (si_type info) "virtualbox").
Qed.

Lemma manager_terminate_keeps_its_entry_witness :
  let started := init ∅ ∅ Scenario.bare in
  let launch :=
    launch_in_sandbox started.2 "built_in" Scenario.game_path [] "box"
      (Scenario.env 1 SpawnExited None) started.1 Scenario.bare in
  let info := info_of "built_in" Scenario.game_path launch.2 in
  sandboxes launch.1.2 !! "box" = Some info
  ∧ sandboxes (terminate_sandbox "box" launch.1.2 launch.2).1.2
    = sandboxes launch.1.2.
Proof.
  intros started launch info.
  assert (Hi : sandboxes launch.1.2 !! "box" = Some info)
    by (vm_compute; reflexivity).
  assert (Ht : String.eqb (si_type info) "sandboxie" = false)
    by (vm_compute; reflexivity).
  split; [exact Hi|].
  exact (manager_terminate_keeps_its_entry "box" launch.1.2 launch.2 info Hi Ht).
Defined.

(** X6 (terminating a built-in sandbox through the manager).  The call
    returns [True]; since the manager keeps its entry while the backend
    has dropped the sandbox, every later health check reports [not_found]
    and every later termination returns [False]. *)
Theorem built_in_terminate_through_manager (name : string) (m : t) (w : world)
    (info : sandbox_info) :
  sandboxes m !! name = Some info →
  si_type info = "built_in" →
  is_Some (built_in_sandbox m !! name) →
  let out := terminate_sandbox name m w in
  out.1.1 = true
  ∧ ∀ w', Health.status (check_sandbox_health name out.1.2 w') = "not_found"
          ∧ (terminate_sandbox name out.1.2 w').1.1 = false.
Proof.
  intros Hinfo Hty [sb Hsb] out.
  assert (Hout : ∃ w2, terminate_sandbox name m w
            = (true, set_built_in (delete name (built_in_sandbox m)) m, w2)).
  { unfold terminate_sandbox. rewrite Hinfo, Hty.
    change (String.eqb "built_in" "built_in") with true. cbv iota.
    unfold BuiltInSandbox.terminate_sandbox. rewrite Hsb. eauto. }
  destruct Hout as [w2 Hout]. subst out. rewrite Hout. cbn [fst snd].
  split; [done|]. intros w'.
  unfold check_sandbox_health, terminate_sandbox.
  cbn [sandboxes set_built_in built_in_sandbox].
  rewrite Hinfo, Hty. change (String.eqb "built_in" "built_in") with true.
  cbv iota.
  unfold BuiltInSandbox.check_sandbox_health, BuiltInSandbox.terminate_sandbox.
  by rewrite lookup_delete_eq.
Qed.

Lemma built_in_terminate_through_manager_witness :
  let started := init ∅ ∅ Scenario.bare in
  let launch :=
    launch_in_sandbox started.2 "built_in" Scenario.game_path [] "box"
      (Scenario.env 1 SpawnExited None) started.1 Scenario.bare in
  let info := info_of "built_in" Scenario.game_path launch.2 in
  let out := terminate_sandbox "box" launch.1.2 launch.2 in
  sandboxes launch.1.2 !! "box" = Some info
  ∧ is_Some (built_in_sandbox launch.1.2 !! "box")
  ∧ out.1.1 = true
  ∧ Health.status (check_sandbox_health "box" out.1.2 out.2) = "not_found"
  ∧ (terminate_sandbox "box" out.1.2 out.2).1.1 = false.
Proof.
  intros started launch info out.
  assert (Hi : sandboxes launch.1.2 !! "box" = Some info)
    by (vm_compute; reflexivity).
  assert (Ht : si_type info = "built_in") by reflexivity.
  assert (Hb : is_Some (built_in_sandbox launch.1.2 !! "box"))
    by (vm_compute; eauto).
  destruct (built_in_terminate_through_manager "box" launch.1.2 launch.2 info
              Hi Ht Hb) as (Hr & Hafter).
  destruct (Hafter out.2) as (Hh & Hagain).
  split_and!; [exact Hi|exact Hb|exact Hr|exact Hh|exact Hagain].
Defined.

(** X7 (VirtualBox).  When [virtualbox] is available, launching in it
    returns [True] without starting a process or touching the host;
    terminating the sandbox returns [True] and changes nothing, and its
    health is reported as [running]. *)
Theorem virtualbox_is_a_stub (σ : Store.t) (m : t) (w : world)
    (executable_path : string) (args : list string) (name : string)
    (env : launch_env) :
  is_sandbox_available σ m "virtualbox" = true →
  path_exists executable_path w = true →
  String.eqb name "" = false →
  let out := launch_in_sandbox σ "virtualbox" executable_path args name env m w in
  out.1.1 = RBool true
  ∧ out.2 = w
  ∧ terminate_sandbox name out.1.2 w = (true, out.1.2, w)
  ∧ Health.status (check_sandbox_health name out.1.2 w) = "running".
Proof.
  intros Hav Hex Hname out. unfold out, launch_in_sandbox.
  rewrite Hav, Hex, Hname. cbn [negb].
  change (String.eqb "virtualbox" "built_in") with false.
  change (String.eqb "virtualbox" "windows_sandbox") with false.
  change (String.eqb "virtualbox" "sandboxie") with false.
  change (String.eqb "virtualbox" "virtualbox") with true. cbv iota.
  cbn [_launch_in_virtualbox truthy fst snd].
  unfold terminate_sandbox, check_sandbox_health. cbn [sandboxes set_sandboxes].
  rewrite lookup_insert_eq. cbn [si_type info_of].
  change (String.eqb "virtualbox" "built_in") with false.
  change (String.eqb "virtualbox" "windows_sandbox") with false.
  change (String.eqb "virtualbox" "sandboxie") with false.
  change (String.eqb "virtualbox" "virtualbox") with true. cbv iota.
  done.
Qed.

Lemma virtualbox_is_a_stub_witness :
  let started := init Cases.virtualbox_config ∅ Cases.virtualbox_host in
  let out :=
    launch_in_sandbox started.2 "virtualbox" Scenario.game_path [] "vm"
      (Scenario.env 1 SpawnFails None) started.1 Cases.virtualbox_host in
  is_sandbox_available started.2 started.1 "virtualbox" = true
  ∧ path_exists Scenario.game_path Cases.virtualbox_host = true
  ∧ out.1.1 = RBool true
  ∧ procs out.2 = []
  ∧ Health.status (check_sandbox_health "vm" out.1.2 Cases.virtualbox_host)
    = "running".
Proof.
  intros started out.
  assert (Ha : is_sandbox_available started.2 started.1 "virtualbox" = true)
    by (vm_compute; reflexivity).
  assert (Hp : path_exists Scenario.game_path Cases.virtualbox_host = true)
    by (vm_compute; reflexivity).
  assert (Hn : String.eqb "vm" "" = false) by reflexivity.
  destruct (virtualbox_is_a_stub started.2 started.1 Cases.virtualbox_host
              Scenario.game_path [] "vm" (Scenario.env 1 SpawnFails None)
              Ha Hp Hn) as (Hr & Hw & _ & Hh).
  split_and!; [exact Ha|exact Hp|exact Hr| |exact Hh].
  fold out in Hw. by rewrite Hw.
Defined.

(** X8 (Sandboxie entry).  After a successful Sandboxie launch through the
    manager the launcher process is running, and the entry stored under
    the name has neither [process] nor [pid]: the entry written by
    [_launch_in_sandboxie] is overwritten by [launch_in_sandbox]. *)
Theorem sandboxie_entry_forgets_the_handle (σ : Store.t) (m : t) (w : world)
    (executable_path : string) (args : list string) (name : string)
    (env : launch_env) :
  is_sandbox_available σ m "sandboxie" = true →
  path_exists executable_path w = true →
  String.eqb name "" = false →
  let out := launch_in_sandbox σ "sandboxie" executable_path args name env m w in
  ∀ box process p,
    out.1.1 = RSandboxie (SbxStarted box process p) →
    box = name
    ∧ popen_running out.2 p = true
    ∧ ∃ info, sandboxes out.1.2 !! name = Some info ∧ si_process info = None
              ∧ si_pid info = None.
Proof.
  intros Hav Hex Hname out. unfold out, launch_in_sandbox.
  rewrite Hav, Hex, Hname. cbn [negb].
  change (String.eqb "sandboxie" "built_in") with false.
  change (String.eqb "sandboxie" "windows_sandbox") with false.
  change (String.eqb "sandboxie" "sandboxie") with true. cbv iota.
  unfold _launch_in_sandboxie. rewrite Hname.
  destruct (String.eqb (get_str _ "sandboxie") ""); [done|].
  destruct (path_exists (get_str _ "sandboxie") w); cbn [negb]; [|done].
  destruct (popen (le_spawn env) w) as [[h|e] w1]; [|done].
  destruct (popen_running w1 (handle_pid h)) eqn:Hrun; cbn [negb]; [|done].
  cbn [truthy fst snd]. intros box process p [= <- <- <-].
  split_and!; try done.
  eexists. cbn [sandboxes set_sandboxes]. rewrite lookup_insert_eq. done.
Qed.

Lemma sandboxie_entry_forgets_the_handle_witness :
  let host := Scenario.sandboxie_host in
  let started := init ∅ ∅ host in
  let out :=
    launch_in_sandbox started.2 "sandboxie" Scenario.game_path [] "box"
      (Scenario.env 1 (SpawnLives Cases.boxed_proc) None) started.1 host in
  is_sandbox_available started.2 started.1 "sandboxie" = true
  ∧ path_exists Scenario.game_path host = true
  ∧ out.1.1 = RSandboxie (SbxStarted "box" (Popen 2%positive) 2%positive)
  ∧ popen_running out.2 2%positive = true
  ∧ ∃ info, sandboxes out.1.2 !! "box" = Some info ∧ si_process info = None
            ∧ si_pid info = None.
Proof.
  intros host started out.
  assert (Ha : is_sandbox_available started.2 started.1 "sandboxie" = true)
    by (vm_compute; reflexivity).
  assert (Hp : path_exists Scenario.game_path host = true)
    by (vm_compute; reflexivity).
  assert (Hn : String.eqb "box" "" = false) by reflexivity.
  assert (Hr : out.1.1
               = RSandboxie (SbxStarted "box" (Popen 2%positive) 2%positive))
    by (vm_compute; reflexivity).
  destruct (sandboxie_entry_forgets_the_handle started.2 started.1 host
              Scenario.game_path [] "box"
              (Scenario.env 1 (SpawnLives Cases.boxed_proc) None) Ha Hp Hn
              "box" (Popen 2%positive) 2%positive Hr) as (_ & Hrun & Hinfo).
  split_and!; [exact Ha|exact Hp|exact Hr|exact Hrun|exact Hinfo].
Defined.

End ManagerBehaviour.

Section BoxNames.
Import SandboxManager.

Lemma lower_char_not_upper (c : ascii) : is_upper_char (Py.lower_char c) = false.
Proof.
  destruct c as [[] [] [] [] [] [] [] []]; vm_compute; reflexivity.
Qed.

Lemma lower_upper_free (s : string) : upper_free (Py.lower s) = true.
Proof.
  induction s as [|c s IH]; [done|].
  unfold upper_free in *. simpl. by rewrite lower_char_not_upper, IH.
Qed.

Lemma prefix_all_chars (P : ascii → bool) (t s : string) :
  String.prefix t s = true → Py.all_chars P s = true → Py.all_chars P t = true.
Proof.
  revert s. induction t as [|c t IH]; intros [|c' s]; simpl; try done.
  destruct (Ascii.ascii_dec c c') as [->|]; [|done].
  intros Hp Hall. apply andb_true_iff in Hall as [Hc Hs].
  rewrite Hc. simpl. by apply (IH s).
Qed.

Lemma str_in_all_chars (P : ascii → bool) (t s : string) :
  Py.str_in t s = true → Py.all_chars P s = true → Py.all_chars P t = true.
Proof.
  induction s as [|c s IH]; intros Hin Hall.
  - simpl in Hin. destruct t; [done|]. simpl in Hin. done.
  - change (Py.str_in t (String c s))
      with (if String.prefix t (String c s) then true else Py.str_in t s) in Hin.
    destruct (String.prefix t (String c s)) eqn:Hp.
    + by apply (prefix_all_chars P t (String c s)).
    + simpl in Hall. apply andb_true_iff in Hall as [_ Hs]. by apply IH.
Qed.

Lemma upper_case_box_is_never_matched (name : string) (pr : os_proc) :
  upper_free name = false → is_box_process name pr = false.
Proof.
  intros Hup. unfold is_box_process.
  assert (Hnone : existsb (λ arg, Py.str_in ("/box:" +:+ name) (Py.lower arg))
                    (p_cmdline pr) = false).
  { induction (p_cmdline pr) as [|arg args IH]; [done|].
    simpl. rewrite IH, orb_false_r.
    destruct (Py.str_in ("/box:" +:+ name) (Py.lower arg)) eqn:Hin; [|done].
    apply (str_in_all_chars (λ c, negb (is_upper_char c))) in Hin;
      [|apply lower_upper_free].
    change (upper_free ("/box:" +:+ name) = true) in Hin.
    assert (Happ : ∀ a b, upper_free (a +:+ b) = upper_free a && upper_free b).
    { intros a b. induction a as [|x a IHa]; [done|].
      rewrite string_app_cons. unfold upper_free in *. simpl.
      by rewrite IHa, andb_assoc. }
    rewrite Happ, Hup in Hin. by rewrite andb_false_r in Hin. }
  by rewrite Hnone, andb_false_r.
Qed.

Lemma scan_finds_nothing (name : string) (pt : list (pid * os_proc)) :
  upper_free name = false →
  List.find (λ e, is_box_process name (snd e)) pt = None.
Proof.
  intros Hup. induction pt as [|[p pr] pt IH]; [done|].
  simpl. by rewrite upper_case_box_is_never_matched.
Qed.

Lemma terminate_scan_does_nothing (name : string) (pt : list (pid * os_proc))
    (w : world) :
  upper_free name = false → terminate_box_processes name pt w = (false, w).
Proof.
  intros Hup. induction pt as [|[p pr] pt IH]; [done|].
  simpl. by rewrite upper_case_box_is_never_matched.
Qed.

(** X9 (process scan by box name).  The scan compares [/box:<name>] with
    the lower-cased command line without lower-casing the name.  For a name
    with an upper-case letter and an entry without a process handle, no
    process ever matches: the health check reports [not_running] and
    [_terminate_sandboxie] returns [False] and changes nothing, whatever
    runs on the host. *)
Theorem sandboxie_scan_misses_upper_case_names (name : string) (m : t)
    (w : world) :
  upper_free name = false →
  sandboxes m !! name ≫= si_process = None →
  (∀ pr, is_box_process name pr = false)
  ∧ _check_sandboxie_health name m w = Health.only "not_running"
  ∧ _terminate_sandboxie name m w = (false, m, w).
Proof.
  intros Hup Hbind.
  assert (Hnohandle : ∀ info,
    sandboxes m !! name = Some info → si_process info = None).
  { intros info Hinfo. by rewrite Hinfo in Hbind. }
  split_and!.
  - intros pr. by apply upper_case_box_is_never_matched.
  - unfold _check_sandboxie_health.
    destruct (sandboxes m !! name) as [info|] eqn:Hinfo.
    + rewrite (Hnohandle info eq_refl). by rewrite scan_finds_nothing.
    + by rewrite scan_finds_nothing.
  - unfold _terminate_sandboxie.
    destruct (sandboxes m !! name) as [info|] eqn:Hinfo.
    + rewrite (Hnohandle info eq_refl). by rewrite terminate_scan_does_nothing.
    + by rewrite terminate_scan_does_nothing.
Qed.

Lemma sandboxie_scan_misses_upper_case_names_witness :
  let host := Scenario.sandboxie_host in
  let started := init ∅ ∅ host in
  let out :=
    launch_in_sandbox started.2 "sandboxie" Scenario.game_path []
      "Demo_1700000000" (Scenario.env 1 (SpawnLives Cases.boxed_proc) None)
      started.1 host in
  upper_free "Demo_1700000000" = false
  ∧ sandboxes out.1.2 !! "Demo_1700000000" ≫= si_process = None
  ∧ procs out.2 = [(2%positive, Cases.boxed_proc)]
  ∧ _check_sandboxie_health "Demo_1700000000" out.1.2 out.2
    = Health.only "not_running"
  ∧ _terminate_sandboxie "Demo_1700000000" out.1.2 out.2
    = (false, out.1.2, out.2).
Proof.
  intros host started out.
  assert (Hu : upper_free "Demo_1700000000" = false)
    by (vm_compute; reflexivity).
  assert (Hn : sandboxes out.1.2 !! "Demo_1700000000" ≫= si_process = None)
    by (vm_compute; reflexivity).
  destruct (sandboxie_scan_misses_upper_case_names "Demo_1700000000" out.1.2
              out.2 Hu Hn) as (_ & Hh & Ht).
  split_and!; [exact Hu|exact Hn| |exact Hh|exact Ht].
  vm_compute. reflexivity.
Defined.

End BoxNames.

(* ------------------------------------------------------------------ *)
(** ** The built-in backend: launch, termination, health               *)
(* ------------------------------------------------------------------ *)

Section BuiltInLaunch.
Import BuiltInSandbox.

Lemma fs_extends_refl w : fs_extends w w.
Proof. by split_and!. Qed.

Lemma fs_extends_trans w1 w2 w3 :
  fs_extends w1 w2 → fs_extends w2 w3 → fs_extends w1 w3.
Proof.
  intros (Ha & Hb & Hc & Hd) (Ha' & Hb' & Hc' & Hd'). split_and!;
    [by transitivity (paths w2) | congruence..].
Qed.

Lemma write_file_extends p w :
  fs_extends w (write_file p w) ∧ path_exists p (write_file p w) = true.
Proof.
  split; [split_and!; simpl; [apply union_subseteq_r|done..]|].
  unfold path_exists, write_file. simpl. apply bool_decide_eq_true.
  apply elem_of_union_l. by apply elem_of_singleton.
Qed.

Lemma makedirs_extends p w :
  fs_extends w (makedirs p w).2
  ∧ ((makedirs p w).1 = Ok tt → path_exists p (makedirs p w).2 = true)
  ∧ (p ∉ unwritable w → (makedirs p w).1 = Ok tt).
Proof.
  unfold makedirs. case_bool_decide; simpl.
  - split_and!; [apply fs_extends_refl|done..].
  - split_and!; [split_and!; simpl; [apply union_subseteq_r|done..]| |done].
    intros _. unfold path_exists. simpl. apply bool_decide_eq_true.
    apply elem_of_union_l. by apply elem_of_singleton.
Qed.

Lemma write_identity_files_extends d w :
  fs_extends w (write_identity_files d w)
  ∧ path_exists (Py.path_join d "launch_game.bat") (write_identity_files d w) = true.
Proof.
  unfold write_identity_files.
  split; [|apply write_file_extends].
  assert (Hfold : ∀ keys w0,
            fs_extends w0
              (fold_left (λ acc key,
                 write_file (Py.path_join d (key +:+ ".txt")) acc) keys w0)).
  { induction keys as [|k ks IH]; intros w0; simpl.
    - apply fs_extends_refl.
    - eapply fs_extends_trans; [apply write_file_extends|apply IH]. }
  eapply fs_extends_trans; [apply write_file_extends|].
  eapply fs_extends_trans; [apply Hfold|]. apply write_file_extends.
Qed.

Lemma make_profile_tree_extends d user w :
  fs_extends w (make_profile_tree d user w).2
  ∧ (unwritable w = ∅ → (make_profile_tree d user w).1 = Ok tt).
Proof.
  unfold make_profile_tree.
  set (p1 := Py.path_join (Py.path_join d "Users") user).
  set (p2 := Py.path_join (Py.path_join p1 "AppData") "Roaming").
  set (p3 := Py.path_join (Py.path_join p1 "AppData") "Local").
  set (p4 := Py.path_join p3 "Temp").
  destruct (makedirs_extends p1 w) as (E1 & _ & O1).
  destruct (makedirs p1 w) as [[[]|e] w1]; simpl in *.
  2:{ split; [done|]. intros Hu. rewrite Hu in O1. by specialize (O1 (not_elem_of_empty _)). }
  destruct (makedirs_extends p2 w1) as (E2 & _ & O2).
  destruct (makedirs p2 w1) as [[[]|e] w2]; simpl in *.
  2:{ split; [by eapply fs_extends_trans|]. intros Hu.
      destruct E1 as (_ & Hu1 & _). rewrite Hu1, Hu in O2.
      by specialize (O2 (not_elem_of_empty _)). }
  destruct (makedirs_extends p3 w2) as (E3 & _ & O3).
  destruct (makedirs p3 w2) as [[[]|e] w3]; simpl in *.
  2:{ split; [eauto using fs_extends_trans|]. intros Hu.
      destruct E1 as (_ & Hu1 & _), E2 as (_ & Hu2 & _).
      rewrite Hu2, Hu1, Hu in O3. by specialize (O3 (not_elem_of_empty _)). }
  destruct (makedirs_extends p4 w3) as (E4 & _ & O4).
  split; [eauto using fs_extends_trans|]. intros Hu.
  destruct E1 as (_ & Hu1 & _), E2 as (_ & Hu2 & _), E3 as (_ & Hu3 & _).
  apply O4. rewrite Hu3, Hu2, Hu1, Hu. apply not_elem_of_empty.
Qed.

Lemma popen_extends sp w : fs_extends w (popen sp w).2.
Proof. destruct sp; simpl; by split_and!. Qed.

Lemma settle_extends game w : fs_extends w (settle game w).
Proof. unfold settle. destruct game; simpl; by split_and!. Qed.

Lemma path_exists_mono p w w' :
  fs_extends w w' → path_exists p w = true → path_exists p w' = true.
Proof.
  intros (Hsub & _) H. unfold path_exists in *.
  apply bool_decide_eq_true in H. apply bool_decide_eq_true. by apply Hsub.
Qed.

(** What a successful run of the body leaves behind. *)
Lemma launch_body_records name exe args env sbs w info sbs' w' :
  launch_body name exe args env sbs w = (Ok info, sbs', w') →
  ∃ sb sb', sbs !! name = Some sb
    ∧ sbs' = <[name := sb']> sbs
    ∧ sb_running sb' = true
    ∧ sb_processes sb' = (sb_processes sb ++ [info])%list
    ∧ sb_temp_dir sb' = Some (temp_dir_of w name sb)
    ∧ sb_identity sb' = Some (pi_identity info)
    ∧ path_exists (temp_dir_of w name sb) w' = true
    ∧ path_exists (Py.path_join (temp_dir_of w name sb) "launch_game.bat") w' = true
    ∧ pi_sandbox_name info = name
    ∧ pi_sandbox_type info = "built_in"
    ∧ pi_pid info = handle_pid (pi_process info).
Proof.
  unfold launch_body. intros H.
  destruct (sbs !! name) as [sb|] eqn:Hsb; [|done].
  destruct (makedirs_extends (temp_dir_of w name sb) w) as (E1 & X1 & _).
  destruct (makedirs _ w) as [[[]|e] w1]; [|done].
  specialize (X1 eq_refl). cbn [fst snd] in *.
  destruct (write_identity_files_extends (temp_dir_of w name sb) w1) as [E2 X2].
  destruct (make_profile_tree_extends (temp_dir_of w name sb)
              (user_name (identity_data sb (le_ext env)))
              (write_identity_files (temp_dir_of w name sb) w1)) as [E3 _].
  destruct (make_profile_tree _ _ _) as [[[]|e] w3]; [|done].
  pose proof (popen_extends (le_spawn env) w3) as E4.
  destruct (popen _ w3) as [[process|e] w4]; [|done].
  pose proof (settle_extends (le_game env) w4) as E5.
  injection H as <- <- <-. cbn [fst snd] in *.
  assert (Eall : fs_extends w1 (settle (le_game env) w4))
    by eauto using fs_extends_trans.
  assert (Ebat : fs_extends (write_identity_files (temp_dir_of w name sb) w1)
                   (settle (le_game env) w4))
    by eauto using fs_extends_trans.
  eexists sb, _. split_and!; try reflexivity.
  - by apply (path_exists_mono _ _ _ Eall).
  - by apply (path_exists_mono _ _ _ Ebat).
Qed.

(** X10 (successful built-in launch).  When [launch_in_sandbox] succeeds,
    the sandbox is marked running, the returned process dictionary is
    appended to its process list, its identity and private directory are
    recorded, the directory and the launcher script exist on disk, and the
    dictionary's [pid] is the pid of the tracked process. *)
Theorem built_in_launch_leaves_a_running_sandbox
    (name executable_path : string) (args : list string) (env : launch_env)
    (sbs : gmap string sandbox) (w : world) :
  let out := launch_in_sandbox name executable_path args env sbs w in
  launched out.1.1 = true →
  ∃ info sb',
    out.1.1 = Launched info
    ∧ out.1.2 !! name = Some sb'
    ∧ sb_running sb' = true
    ∧ sb_processes sb'
      = (default [] (sb_processes <$> sbs !! name) ++ [info])%list
    ∧ sb_identity sb' = Some (pi_identity info)
    ∧ sb_temp_dir sb' = Some (temp_dir_of w name sb')
    ∧ path_exists (temp_dir_of w name sb') out.2 = true
    ∧ path_exists (Py.path_join (temp_dir_of w name sb') "launch_game.bat")
        out.2 = true
    ∧ pi_sandbox_name info = name
    ∧ pi_pid info = handle_pid (pi_process info).
Proof.
  intros out Hok. unfold out in *. clear out.
  unfold launch_in_sandbox, launch_created in *.
  assert (Hdir : ∀ sb sb', sb_id sb = sb_id sb' →
            temp_dir_of w name sb = temp_dir_of w name sb').
  { intros sb sb' Hid. unfold temp_dir_of. by rewrite Hid. }
  destruct (sbs !! name) as [sb0|] eqn:Hsb0.
  - destruct (launch_body _ _ _ _ sbs w) as [[[i|e] s1] w1] eqn:Hb; [|done].
    pose proof (launch_body_ok _ _ _ _ _ _ _ _ _ Hb)
      as (sb1 & sb1' & Hsb1 & Hs1 & (Hid & _) & _).
    apply launch_body_records in Hb
      as (sb & sb' & Hsb & -> & Hrun & Hps & Htd & Hidn & Hex & Hbat & Hn & _ & Hpid).
    rewrite Hsb0 in Hsb. injection Hsb as <-.
    rewrite Hsb0 in Hsb1. injection Hsb1 as <-.
    apply (f_equal (λ m, m !! name)) in Hs1. rewrite !lookup_insert_eq in Hs1.
    injection Hs1 as <-.
    exists i, sb'. cbn [fst snd]. rewrite lookup_insert_eq.
    rewrite <- (Hdir sb0 sb' Hid). split_and!; done.
  - unfold create_sandbox in *. cbn [fst snd] in *.
    destruct (launch_body _ _ _ _ _ w) as [[[i|e] s1] w1] eqn:Hb; [|done].
    pose proof (launch_body_ok _ _ _ _ _ _ _ _ _ Hb)
      as (sb1 & sb1' & Hsb1 & Hs1 & (Hid & _) & _).
    apply launch_body_records in Hb
      as (sb & sb' & Hsb & -> & Hrun & Hps & Htd & Hidn & Hex & Hbat & Hn & _ & Hpid).
    rewrite Hsb1 in Hsb. injection Hsb as <-.
    apply (f_equal (λ m, m !! name)) in Hs1. rewrite !lookup_insert_eq in Hs1.
    injection Hs1 as <-.
    rewrite lookup_insert_eq in Hsb1. injection Hsb1 as <-.
    exists i, sb'. cbn [fst snd]. rewrite lookup_insert_eq.
    rewrite <- (Hdir _ sb' Hid). split_and!; done.
Qed.

Lemma built_in_launch_leaves_a_running_sandbox_witness :
  let out :=
    launch_in_sandbox "box" Scenario.game_path []
      (Scenario.built_in_env 1 (SpawnLives Cases.script_proc) None) ∅
      Scenario.bare in
  launched out.1.1 = true
  ∧ ∃ info sb',
      out.1.1 = Launched info
      ∧ out.1.2 !! "box" = Some sb'
      ∧ sb_running sb' = true
      ∧ sb_processes sb' = [info]
      ∧ path_exists (temp_dir_of Scenario.bare "box" sb') out.2 = true.
Proof.
  intros out.
  assert (H : launched out.1.1 = true) by (vm_compute; reflexivity).
  destruct (built_in_launch_leaves_a_running_sandbox "box" Scenario.game_path
              [] (Scenario.built_in_env 1 (SpawnLives Cases.script_proc) None)
              ∅ Scenario.bare H)
    as (info & sb' & Hr & Hsb & Hrun & Hps & _ & _ & Hdir & _).
  split; [exact H|]. exists info, sb'.
  split_and!; [exact Hr|exact Hsb|exact Hrun|exact Hps|exact Hdir].
Defined.



(** X12 (failed built-in launch).  A failed launch leaves an existing
    sandbox entry untouched; for a new name it leaves the entry that
    [create_sandbox] made: not running, no process, no directory
    recorded. *)
Theorem built_in_failed_launch_adds_no_process
    (name executable_path : string) (args : list string) (env : launch_env)
    (sbs : gmap string sandbox) (w : world) :
  let out := launch_in_sandbox name executable_path args env sbs w in
  launched out.1.1 = false →
  (is_Some (sbs !! name) → out.1.2 = sbs)
  ∧ (sbs !! name = None →
     ∃ sb, out.1.2 = <[name := sb]> sbs
           ∧ sb_processes sb = [] ∧ sb_running sb = false
           ∧ sb_temp_dir sb = None).
Proof.
  intros out Hfail. unfold out in *. clear out.
  assert (Hbody : ∀ sbs0,
    launched (launch_created name executable_path args env sbs0 w).1.1 = false →
    (launch_created name executable_path args env sbs0 w).1.2 = sbs0).
  { intros sbs0. unfold launch_created, launch_body.
    destruct (sbs0 !! name) as [sb|]; [|done].
    destruct (makedirs _ w) as [[[]|e] w1]; [|done].
    destruct (make_profile_tree _ _ _) as [[[]|e] w3]; [|done].
    by destruct (popen _ w3) as [[process|e] w4]. }
  unfold launch_in_sandbox in *. destruct (sbs !! name) as [sb0|] eqn:Hsb0.
  - split; [|done]. intros _. by apply Hbody.
  - split; [by intros []|]. intros _.
    unfold create_sandbox in *. cbn [fst snd] in *.
    eexists. split; [by apply Hbody|]. done.
Qed.

Lemma built_in_failed_launch_adds_no_process_witness :
  let out :=
    launch_in_sandbox "box" Scenario.game_path []
      (Scenario.built_in_env 1 SpawnFails None) ∅ Scenario.bare in
  launched out.1.1 = false
  ∧ ∃ sb, out.1.2 = <["box" := sb]> ∅
          ∧ sb_processes sb = [] ∧ sb_running sb = false
          ∧ sb_temp_dir sb = None.
Proof.
  intros out.
  assert (H : launched out.1.1 = false) by (vm_compute; reflexivity).
  destruct (built_in_failed_launch_adds_no_process "box" Scenario.game_path []
              (Scenario.built_in_env 1 SpawnFails None) ∅ Scenario.bare H)
    as (_ & Hnew).
  split; [exact H|]. apply Hnew. apply lookup_empty.
Defined.

End BuiltInLaunch.

Section BuiltInStop.
Import BuiltInSandbox.

Lemma find_proc_remove_eq pt p : find_proc (remove_proc pt p) p = None.
Proof.
  induction pt as [|[q pr] pt IH]; simpl; [done|].
  destruct (Pos.eqb q p) eqn:E; [done|]. simpl. by rewrite E.
Qed.

Lemma find_proc_remove_ne pt p q :
  q ≠ p → find_proc (remove_proc pt p) q = find_proc pt q.
Proof.
  intros Hne. induction pt as [|[r pr] pt IH]; simpl; [done|].
  destruct (Pos.eqb r p) eqn:E; simpl.
  - apply Pos.eqb_eq in E as ->.
    destruct (Pos.eqb p q) eqn:E'; [|done].
    apply Pos.eqb_eq in E'. congruence.
  - by rewrite IH.
Qed.

(** The forced kill of the loop is never reached: [wait] returns only
    once the process is gone, and raises otherwise. *)
Lemma stop_process_cases h w :
  (stop_process h w).2 = w
  ∨ ∃ p pr, h = Popen p ∧ find_proc (procs w) p = Some pr
            ∧ p_on_terminate pr = Exits
            ∧ (stop_process h w).2 = set_procs (remove_proc (procs w) p) w.
Proof.
  destruct h as [p|p]; [|by left]. unfold stop_process.
  destruct (popen_running w p) eqn:Hrun; [|by left].
  unfold popen_terminate, signal, popen_running in *.
  destruct (find_proc (procs w) p) as [pr|] eqn:Hf; [|done].
  destruct (p_on_terminate pr) eqn:Hr.
  - right. exists p, pr. split_and!; try done.
    unfold popen_wait, popen_running. cbn [procs set_procs].
    by rewrite find_proc_remove_eq.
  - left. unfold popen_wait, popen_running. by rewrite Hf, Hrun.
  - by left.
Qed.

Lemma stop_process_survivor h w q pr :
  find_proc (procs w) q = Some pr → exits_when_asked pr = false →
  find_proc (procs (stop_process h w).2) q = Some pr.
Proof.
  intros Hq Hs. destruct (stop_process_cases h w)
    as [->|(p & pr' & -> & Hp & Hex & ->)]; [done|].
  cbn [procs set_procs]. rewrite find_proc_remove_ne; [done|].
  intros ->. rewrite Hq in Hp. injection Hp as ->.
  unfold exits_when_asked in Hs. by rewrite Hex in Hs.
Qed.

Lemma stop_processes_survivor ps w q pr :
  find_proc (procs w) q = Some pr → exits_when_asked pr = false →
  find_proc (procs (stop_processes ps w)) q = Some pr.
Proof.
  unfold stop_processes. revert w.
  induction ps as [|info ps IH]; intros w Hq Hs; simpl; [done|].
  apply IH; [|done]. by apply stop_process_survivor.
Qed.

Lemma cleanup_keeps_procs sb w : procs (cleanup_temp_dir sb w) = procs w.
Proof.
  unfold cleanup_temp_dir. destruct (sb_temp_dir sb) as [d|]; [|done].
  destruct (path_exists d w); [|done].
  unfold rmtree_ignore_errors. by case_bool_decide.
Qed.

Lemma stop_processes_psutil ps w :
  forallb psutil_tracked ps = true → stop_processes ps w = w.
Proof.
  unfold stop_processes. revert w.
  induction ps as [|info ps IH]; intros w H; simpl in *; [done|].
  apply andb_true_iff in H as [Hi Hps]. unfold psutil_tracked in Hi.
  destruct (pi_process info) eqn:E; [done|]. simpl. by apply IH.
Qed.

(** X13 (no forced kill).  [terminate_sandbox] of the built-in backend
    never removes a process that does not exit on the graceful request:
    [wait] raises for it, the exception is caught by the loop, and the
    [kill] that follows [wait] is never reached. *)
Theorem built_in_terminate_never_forces (name : string)
    (sbs : gmap string sandbox) (w : world) (q : pid) (pr : os_proc) :
  find_proc (procs w) q = Some pr → exits_when_asked pr = false →
  find_proc (procs (terminate_sandbox name sbs w).2) q = Some pr.
Proof.
  intros Hq Hs. unfold terminate_sandbox.
  destruct (sbs !! name) as [sb|]; [|done]. cbn [snd].
  rewrite cleanup_keeps_procs. by apply stop_processes_survivor.
Qed.

Lemma built_in_terminate_never_forces_witness :
  let launch :=
    launch_in_sandbox "box" Scenario.game_path []
      (Scenario.built_in_env 1 (SpawnLives Cases.stubborn_proc) None) ∅
      Scenario.bare in
  let out := terminate_sandbox "box" launch.1.2 launch.2 in
  find_proc (procs launch.2) 2%positive = Some Cases.stubborn_proc
  ∧ exits_when_asked Cases.stubborn_proc = false
  ∧ out.1.1 = true
  ∧ find_proc (procs out.2) 2%positive = Some Cases.stubborn_proc.
Proof.
  intros launch out.
  assert (Hf : find_proc (procs launch.2) 2%positive = Some Cases.stubborn_proc)
    by (vm_compute; reflexivity).
  assert (He : exits_when_asked Cases.stubborn_proc = false) by reflexivity.
  split_and!; [exact Hf|exact He|vm_compute; reflexivity|].
  exact (built_in_terminate_never_forces "box" launch.1.2 launch.2 2%positive
           Cases.stubborn_proc Hf He).
Defined.

Lemma terminate_skips_psutil_handles (name : string)
    (sbs : gmap string sandbox) (w : world) (sb : sandbox) :
  sbs !! name = Some sb →
  forallb psutil_tracked (sb_processes sb) = true →
  (terminate_sandbox name sbs w).1 = (true, delete name sbs)
  ∧ procs (terminate_sandbox name sbs w).2 = procs w.
Proof.
  intros Hsb Hps. unfold terminate_sandbox. rewrite Hsb. cbn [fst snd].
  split; [done|]. rewrite cleanup_keeps_procs.
  by rewrite stop_processes_psutil.
Qed.

Lemma running_processes_psutil ps w :
  existsb psutil_tracked ps = true →
  running_processes ps w = Raise AttributeError.
Proof.
  induction ps as [|info ps IH]; simpl; [done|].
  unfold psutil_tracked at 1. destruct (pi_process info); simpl; [|done].
  intros H. by rewrite IH.
Qed.

Lemma running_processes_popen ps w :
  existsb psutil_tracked ps = false →
  running_processes ps w = Ok (List.filter (script_running w) ps).
Proof.
  induction ps as [|info ps IH]; simpl; [done|].
  unfold psutil_tracked at 1, script_running at 1.
  destruct (pi_process info); simpl; [|done].
  intros H. rewrite IH by done. by destruct (popen_running w p).
Qed.

(** X14 (built-in health).  [check_sandbox_health] answers [not_found] for
    an unknown name and [error] as soon as one tracked process is a
    [psutil.Process]; otherwise the status is [running] exactly when a
    tracked script is still running, [process_count] counts those,
    [network_isolated] is [False] and [uptime] is counted from the
    creation of the sandbox. *)
Theorem built_in_health_by_handle_kind (name : string)
    (sbs : gmap string sandbox) (w : world) :
  let h := check_sandbox_health name sbs w in
  match sbs !! name with
  | None => h = Health.only "not_found"
  | Some sb =>
      if existsb psutil_tracked (sb_processes sb)
      then Health.status h = "error" ∧ Health.process_count h = None
      else Health.status h
           = (if existsb (script_running w) (sb_processes sb)
              then "running" else "stopped")
           ∧ Health.process_count h
             = Some (length (List.filter (script_running w) (sb_processes sb)))
           ∧ Health.network_isolated h = Some false
           ∧ Health.uptime h = Some (now w - sb_creation_time sb)%Z
  end.
Proof.
  intros h. unfold h, check_sandbox_health.
  destruct (sbs !! name) as [sb|]; [|done].
  destruct (existsb psutil_tracked (sb_processes sb)) eqn:E.
  - by rewrite running_processes_psutil.
  - rewrite running_processes_popen by done. cbn.
    split_and!; try done.
    induction (sb_processes sb) as [|info ps IH]; simpl; [done|].
    simpl in E. apply orb_false_iff in E as [_ E].
    destruct (script_running w info); simpl; [done|]. by apply IH.
Qed.

End BuiltInStop.

Section BuiltInDiscovery.
Import BuiltInSandbox.

Lemma launch_in_sandbox_appends name exe args env sbs w info sbs' w' :
  launch_in_sandbox name exe args env sbs w = (Launched info, sbs', w') →
  ∃ sb', sbs' !! name = Some sb'
    ∧ sb_processes sb'
      = (default [] (sb_processes <$> sbs !! name) ++ [info])%list.
Proof.
  unfold launch_in_sandbox, launch_created. intros H.
  destruct (sbs !! name) as [sb0|] eqn:Hsb0.
  - destruct (launch_body _ _ _ _ sbs w) as [[[i|e] s1] w1] eqn:Hb; [|done].
    injection H as <- <- <-.
    apply launch_body_records in Hb as (sb & sb' & Hsb & -> & _ & Hps & _).
    rewrite Hsb0 in Hsb. injection Hsb as <-.
    exists sb'. by rewrite lookup_insert_eq.
  - unfold create_sandbox in H. cbn [fst snd] in H.
    destruct (launch_body _ _ _ _ _ w) as [[[i|e] s1] w1] eqn:Hb; [|done].
    injection H as <- <- <-.
    apply launch_body_records in Hb as (sb & sb' & Hsb & -> & _ & Hps & _).
    rewrite lookup_insert_eq in Hsb. injection Hsb as <-.
    exists sb'. by rewrite lookup_insert_eq.
Qed.

(** X15 (a discovered game).  When the launch has found the game process
    and tracks it (a [psutil.Process]), then at any later time the health
    check of the sandbox reports [error], and [terminate_sandbox] returns
    [True] without stopping any process. *)
Theorem built_in_discovered_game_is_out_of_reach
    (name executable_path : string) (args : list string) (env : launch_env)
    (sbs : gmap string sandbox) (w : world) :
  let out := launch_in_sandbox name executable_path args env sbs w in
  discovered out.1.1 = true →
  forallb psutil_tracked (default [] (sb_processes <$> sbs !! name)) = true →
  ∀ later : world,
    Health.status (check_sandbox_health name out.1.2 later) = "error"
    ∧ (terminate_sandbox name out.1.2 later).1.1 = true
    ∧ procs (terminate_sandbox name out.1.2 later).2 = procs later.
Proof.
  intros out Hd Hold later. unfold out in *. clear out.
  destruct (launch_in_sandbox _ _ _ _ _ _) as [[[info|f] sbs'] w'] eqn:HL;
    [|done].
  cbn [fst snd discovered] in *.
  apply launch_in_sandbox_appends in HL as (sb' & Hsb' & Hps).
  assert (Hall : forallb psutil_tracked (sb_processes sb') = true).
  { rewrite Hps, forallb_app, Hold. simpl. by rewrite Hd. }
  assert (Hex : existsb psutil_tracked (sb_processes sb') = true).
  { rewrite Hps, existsb_app. simpl. rewrite Hd. by rewrite orb_true_r. }
  split_and!.
  - unfold check_sandbox_health. rewrite Hsb'.
    by rewrite running_processes_psutil.
  - unfold terminate_sandbox. by rewrite Hsb'.
  - unfold terminate_sandbox. rewrite Hsb'. cbn [snd].
    rewrite cleanup_keeps_procs. by rewrite stop_processes_psutil.
Qed.

Lemma built_in_discovered_game_is_out_of_reach_witness :
  let env := SandboxManager.le_built_in Cases.found_env in
  let out := launch_in_sandbox "box" Scenario.game_path [] env ∅ Scenario.bare in
  discovered out.1.1 = true
  ∧ procs out.2
    = [(2%positive, Cases.script_proc);
       (3%positive, Scenario.game_proc 1700000001)]
  ∧ Health.status (check_sandbox_health "box" out.1.2 out.2) = "error"
  ∧ (terminate_sandbox "box" out.1.2 out.2).1.1 = true
  ∧ procs (terminate_sandbox "box" out.1.2 out.2).2 = procs out.2.
Proof.
  intros env out.
  assert (Hd : discovered out.1.1 = true) by (vm_compute; reflexivity).
  assert (Hold : forallb psutil_tracked
                   (default [] (sb_processes <$> (∅ : gmap string sandbox) !! "box"))
                 = true) by reflexivity.
  destruct (built_in_discovered_game_is_out_of_reach "box" Scenario.game_path
              [] env ∅ Scenario.bare Hd Hold out.2) as (Hh & Ht & Hp).
  split_and!; [exact Hd|vm_compute; reflexivity|exact Hh|exact Ht|exact Hp].
Defined.

End BuiltInDiscovery.

(* ------------------------------------------------------------------ *)
(** ** The Windows Sandbox backend                                     *)
(* ------------------------------------------------------------------ *)

Section WindowsBackend.
Import WindowsSandbox.

(** X16 (terminating a Windows Sandbox).  For a running sandbox whose host
    process is alive: if the process exits on the graceful request the
    call returns [True], drops the entry and removes the directory;
    otherwise it returns [False] and leaves entry, directory and process
    as they were. *)
Theorem windows_terminate_outcome (name : string) (sbs : gmap string sandbox)
    (w : world) (sb : sandbox) (p : pid) (pr : os_proc) :
  sbs !! name = Some sb →
  running sb = true → process sb = Some (Popen p) →
  find_proc (procs w) p = Some pr → p_zombie pr = false →
  terminate_sandbox name sbs w
  = if exits_when_asked pr
    then (true, delete name sbs,
          rmtree_ignore_errors (dir sb)
            (set_procs (remove_proc (procs w) p) w))
    else (false, sbs, w).
Proof.
  intros Hsb Hrun Hproc Hfind Hz.
  unfold terminate_sandbox, stop_process. rewrite Hsb, Hrun, Hproc.
  unfold popen_running at 1. rewrite Hfind, Hz. cbn [negb].
  unfold popen_terminate, signal, exits_when_asked. rewrite Hfind.
  destruct (p_on_terminate pr).
  - unfold popen_wait, popen_running. cbn [procs set_procs].
    by rewrite find_proc_remove_eq.
  - unfold popen_wait, popen_running. by rewrite Hfind, Hz.
  - done.
Qed.

Lemma windows_terminate_outcome_witness :
  let sbs := Cases.windows_launch.1.2 in
  let w := Cases.windows_launch.2 in
  sbs !! "box" = Some Cases.windows_box
  ∧ find_proc (procs w) 2%positive = Some Cases.stubborn_proc
  ∧ terminate_sandbox "box" sbs w = (false, sbs, w).
Proof.
  intros sbs w.
  assert (Hsb : sbs !! "box" = Some Cases.windows_box)
    by (vm_compute; reflexivity).
  assert (Hr : running Cases.windows_box = true) by reflexivity.
  assert (Hp : process Cases.windows_box = Some (Popen 2%positive))
    by reflexivity.
  assert (Hf : find_proc (procs w) 2%positive = Some Cases.stubborn_proc)
    by (vm_compute; reflexivity).
  assert (Hz : p_zombie Cases.stubborn_proc = false) by reflexivity.
  split_and!; [exact Hsb|exact Hf|].
  exact (windows_terminate_outcome "box" sbs w Cases.windows_box 2%positive
           Cases.stubborn_proc Hsb Hr Hp Hf Hz).
Defined.

(** X17 (Windows Sandbox relaunch).  When the sandbox directory can be
    created, a launch under a name does not depend on an earlier entry
    under that name: identity and process handle are written afresh, and
    the earlier handle is lost. *)
Theorem windows_relaunch_forgets_previous_entry (name executable_path : string)
    (d : draw) (s : spawn) (sbs : gmap string sandbox) (w : world) :
  Py.path_join (tempdir w) ("wydbot_winsandbox_" +:+ name) ∉ unwritable w →
  launch_in_sandbox name executable_path d s sbs w
  = launch_in_sandbox name executable_path d s (delete name sbs) w.
Proof.
  intros Hw. unfold launch_in_sandbox, create_sandbox_config, makedirs.
  rewrite bool_decide_eq_false_2 by done.
  rewrite insert_delete_eq.
  destruct (popen s _) as [[h|e] w2]; [|done].
  by rewrite !lookup_insert_eq.
Qed.

Lemma windows_relaunch_forgets_previous_entry_witness :
  let sbs := Cases.windows_launch.1.2 in
  let w := Cases.windows_launch.2 in
  (Py.path_join (tempdir w) "wydbot_winsandbox_box" ∉ unwritable w)
  ∧ launch_in_sandbox "box" Scenario.game_path Scenario.windows_draw
      SpawnExited sbs w
    = launch_in_sandbox "box" Scenario.game_path Scenario.windows_draw
        SpawnExited (delete "box" sbs) w.
Proof.
  intros sbs w.
  assert (H : Py.path_join (tempdir w) ("wydbot_winsandbox_" +:+ "box")
              ∉ unwritable w) by apply not_elem_of_empty.
  split; [exact H|].
  exact (windows_relaunch_forgets_previous_entry "box" Scenario.game_path
           Scenario.windows_draw SpawnExited sbs w H).
Defined.

End WindowsBackend.

(* ------------------------------------------------------------------ *)
(** ** The service: registry, monitor and queries                      *)
(* ------------------------------------------------------------------ *)

Section DictMore.
Context {V : Type}.
Implicit Types (d : Dict.t V) (k : string) (v : V).

Lemma dict_del_set d k v : Dict.del (Dict.set d k v) k = Dict.del d k.
Proof.
  induction d as [|[k' v'] d IH]; simpl.
  - by rewrite String.eqb_refl.
  - destruct (String.eqb k' k) eqn:E; simpl; rewrite E; [done|by rewrite IH].
Qed.

Lemma dict_get_none_keys d k : Dict.get d k = None ↔ k ∉ Dict.keys d.
Proof.
  rewrite <- dict_mem_keys. unfold Dict.mem.
  destruct (Dict.get d k); split; try done; intros H; by destruct H.
Qed.

Lemma dict_del_absent d k : k ∉ Dict.keys d → Dict.del d k = d.
Proof.
  unfold Dict.keys. induction d as [|[k' v'] d IH]; simpl; [done|].
  rewrite not_elem_of_cons. intros [Hne Hd].
  destruct (String.eqb k' k) eqn:E.
  - apply String.eqb_eq in E. congruence.
  - by rewrite IH.
Qed.




Lemma dict_keys_set_present d k v :
  k ∈ Dict.keys d → Dict.keys (Dict.set d k v) = Dict.keys d.
Proof.
  unfold Dict.keys. induction d as [|[k0 v0] d IH]; simpl.
  - intros H. by apply elem_of_nil in H.
  - rewrite elem_of_cons. intros H.
    destruct (String.eqb k0 k) eqn:E; simpl; [done|].
    apply String.eqb_neq in E. f_equal. apply IH.
    destruct H as [->|H]; [done|exact H].
Qed.

End DictMore.

Section Monitor.
Import GameLauncherService.

Lemma same_launch_refl d : same_launch d d.
Proof. by split_and!. Qed.

Lemma same_launch_trans d1 d2 d3 :
  same_launch d1 d2 → same_launch d2 d3 → same_launch d1 d3.
Proof.
  intros (? & ? & ? & ? & ?) (? & ? & ? & ? & ?). split_and!; congruence.
Qed.

Lemma refreshed_refl e : refreshed e e.
Proof.
  destruct e as [k [h|d|b]]; split; simpl; try done; apply same_launch_refl.
Qed.

Lemma refreshed_trans e1 e2 e3 :
  refreshed e1 e2 → refreshed e2 e3 → refreshed e1 e3.
Proof.
  destruct e1 as [k1 v1], e2 as [k2 v2], e3 as [k3 v3].
  unfold refreshed. simpl. intros [H1 H1'] [H2 H2']. split; [congruence|].
  destruct v1, v2, v3; try congruence. by eapply same_launch_trans.
Qed.

Lemma refreshed_all_refl rg : Forall2 refreshed rg rg.
Proof. induction rg; constructor; [apply refreshed_refl|done]. Qed.

Lemma refreshed_all_trans rg1 rg2 rg3 :
  Forall2 refreshed rg1 rg2 → Forall2 refreshed rg2 rg3 →
  Forall2 refreshed rg1 rg3.
Proof.
  intros H. revert rg3. induction H as [|e1 e2 l1 l2 He Hl IH]; intros rg3 H3.
  - by inversion H3.
  - inversion H3 as [|? e3 ? l3 He3 Hl3]; subst. constructor.
    + by eapply refreshed_trans.
    + by apply IH.
Qed.

Lemma set_refreshed rg k d d' :
  Dict.get rg k = Some (GIDict d) → same_launch d d' →
  Forall2 refreshed rg (Dict.set rg k (GIDict d')).
Proof.
  induction rg as [|[k0 v0] rg IH]; simpl; [done|].
  destruct (String.eqb k0 k) eqn:E.
  - intros [= ->] Hs. constructor; [by split|apply refreshed_all_refl].
  - intros Hg Hs. constructor; [apply refreshed_refl|by apply IH].
Qed.

Lemma same_launch_set_process h d : same_launch d (set_process h d).
Proof. by split_and!. Qed.

Lemma same_launch_mark t d : same_launch d (mark_terminated t d).
Proof. by split_and!. Qed.

(** What one iteration of the loop can do to the service. *)
Lemma update_one_cases k s w s' :
  update_one k s w = Ok s' →
  s' = s
  ∨ ∃ d d', Dict.get (running_games s) k = Some (GIDict d)
      ∧ gd_terminated d ≠ Some true
      ∧ same_launch d d'
      ∧ (s' = set_running (Dict.set (running_games s) k (GIDict d')) s
         ∨ s' = schedule_removal (now w + 2) k
                  (set_running
                     (Dict.set (running_games s) k
                        (GIDict (mark_terminated (now w) d'))) s)).
Proof.
  unfold update_one.
  destruct (Dict.get (running_games s) k) as [[h|d|b]|] eqn:Hget; try done.
  case_bool_decide as Hterm; [intros [= <-]; by left|].
  match goal with
  | |- (let '(_, _) := ?m in _) = _ → _ => destruct m as [b d1] eqn:Hp
  end.
  assert (Hs : same_launch d d1).
  { destruct (negb (process_alive d w)), (gd_in_sandbox d) as [[]|],
      (gd_sandbox d) as [n|]; try (injection Hp as <- <-; apply same_launch_refl).
    destruct (String.eqb _ "built_in").
    - destruct (rediscover s d w); injection Hp as <- <-;
        [apply same_launch_set_process|apply same_launch_refl].
    - injection Hp as <- <-. apply same_launch_refl. }
  intros H. right. exists d, d1. split_and!; try done.
  destruct b; injection H as <-; [by left|by right].
Qed.

Lemma update_one_refreshed k s w s' :
  update_one k s w = Ok s' →
  Forall2 refreshed (running_games s) (running_games s')
  ∧ games s' = games s ∧ sandbox_manager s' = sandbox_manager s
  ∧ removals s `prefix_of` removals s'.
Proof.
  intros H. apply update_one_cases in H
    as [->|(d & d' & Hget & _ & Hs & [->| ->])].
  - split_and!; try done. apply refreshed_all_refl.
  - split_and!; try done. by eapply set_refreshed.
  - split_and!; try done.
    + eapply set_refreshed; [done|].
      eapply same_launch_trans; [done|apply same_launch_mark].
    + simpl. by apply prefix_app_r.
Qed.

Lemma update_loop_refreshed ks s w :
  Forall2 refreshed (running_games s) (running_games (update_loop ks s w))
  ∧ games (update_loop ks s w) = games s
  ∧ sandbox_manager (update_loop ks s w) = sandbox_manager s
  ∧ removals s `prefix_of` removals (update_loop ks s w).
Proof.
  revert s. induction ks as [|k ks IH]; intros s; simpl.
  - split_and!; try done. apply refreshed_all_refl.
  - destruct (update_one k s w) as [s1|e] eqn:H1.
    + apply update_one_refreshed in H1 as (Ha & Hb & Hc & Hd).
      destruct (IH s1) as (Ha' & Hb' & Hc' & Hd').
      split_and!; try congruence.
      * by eapply refreshed_all_trans.
      * by etrans.
    + split_and!; try done. apply refreshed_all_refl.
Qed.

Lemma refreshed_keys rg rg' :
  Forall2 refreshed rg rg' → Dict.keys rg' = Dict.keys rg.
Proof.
  unfold Dict.keys. induction 1 as [|e e' l l' [He _] _ IH]; simpl; [done|].
  by rewrite He, IH.
Qed.

Lemma refreshed_instance g e e' :
  refreshed e e' → is_instance_of g e' = is_instance_of g e.
Proof.
  destruct e as [k v], e' as [k' v']. intros [Hk Hv]. simpl in *. subst k'.
  unfold is_instance_of. simpl.
  destruct v, v'; try congruence.
  destruct Hv as (-> & _). done.
Qed.

Lemma refreshed_exists g rg rg' :
  Forall2 refreshed rg rg' →
  existsb (is_instance_of g) rg' = existsb (is_instance_of g) rg.
Proof.
  induction 1 as [|e e' l l' He _ IH]; simpl; [done|].
  by rewrite (refreshed_instance g e e' He), IH.
Qed.

(** X18 (listing instances).  [get_running_games] returns exactly the keys
    that were in [running_games] before the call: the refresh it performs
    never adds or removes an instance, and changes neither the registered
    games nor the sandbox manager. *)
Theorem get_running_games_lists_what_was_there (s : t) (w : world) :
  (get_running_games s w).1 = Dict.keys (running_games s)
  ∧ games (get_running_games s w).2 = games s
  ∧ sandbox_manager (get_running_games s w).2 = sandbox_manager s.
Proof.
  unfold get_running_games, _update_running_games. cbn [fst snd].
  destruct (update_loop_refreshed (Dict.keys (running_games s)) s w)
    as (Ha & Hb & Hc & _).
  split_and!; try done. by apply refreshed_keys.
Qed.

(** X19 (is a game running).  The answer of [is_game_running] is
    determined by [running_games] as it was before the call: the state of
    the processes has no influence on it. *)
Theorem is_game_running_ignores_the_processes (game_id : string) (s : t)
    (w : world) :
  (is_game_running game_id s w).1
  = existsb (is_instance_of game_id) (running_games s).
Proof.
  unfold is_game_running, _update_running_games. cbn [fst].
  apply refreshed_exists.
  apply (update_loop_refreshed (Dict.keys (running_games s)) s w).
Qed.














End Monitor.

Section Registry.
Import GameLauncherService.

(** X21 (plain instances).  After a successful [launch_game] the value
    stored under the game identifier is the [Popen] object itself.  From
    then on [terminate_game] returns [False] and changes nothing,
    [terminate_sandbox] of the service raises [TypeError],
    [check_sandbox_network] answers [invalid_info] and
    [is_game_in_sandbox] answers [False]. *)
Theorem plain_instance_resists_record_operations (game_id : string)
    (args : list string) (sp : spawn) (s : t) (w : world) :
  let out := launch_game game_id args sp s w in
  out.1.1 = true →
  (∃ p, Dict.get (running_games out.1.2) game_id = Some (GIPopen (Popen p)))
  ∧ is_game_in_sandbox game_id out.1.2 = false
  ∧ ∀ later : world,
      terminate_game game_id out.1.2 later = (false, out.1.2, later)
      ∧ terminate_sandbox game_id out.1.2 later
        = (Raise TypeError, out.1.2, later)
      ∧ check_sandbox_network game_id out.1.2 later
        = status_only "invalid_info".
Proof.
  intros out Hok. unfold out in *. clear out. unfold launch_game in *.
  destruct (games s !! game_id) as [path|]; [|done].
  destruct (Dict.mem (running_games s) game_id); [done|].
  assert (Hh : ∀ e w1, popen sp w = (Ok e, w1) → ∃ p, e = Popen p).
  { destruct sp; simpl; intros e w1 [= <- _]; eauto. }
  destruct (popen sp w) as [[h|e] w1]; [|done].
  destruct (Hh h w1 eq_refl) as [p ->]. cbn [fst snd].
  assert (Hget : Dict.get
            (Dict.set (running_games s) game_id (GIPopen (Popen p))) game_id
          = Some (GIPopen (Popen p))) by apply dict_get_set_eq.
  split; [by eauto|].
  unfold is_game_in_sandbox, terminate_game, terminate_sandbox,
    check_sandbox_network.
  cbn [running_games start_monitoring set_running]. rewrite Hget. done.
Qed.

Lemma plain_instance_resists_record_operations_witness :
  let s0 := (Scenario.service Scenario.bare).1 in
  let out :=
    launch_game "demo" [] (SpawnLives (Scenario.game_proc 1700000000)) s0
      Scenario.bare in
  out.1.1 = true
  ∧ terminate_game "demo" out.1.2 out.2 = (false, out.1.2, out.2)
  ∧ terminate_sandbox "demo" out.1.2 out.2 = (Raise TypeError, out.1.2, out.2)
  ∧ check_sandbox_network "demo" out.1.2 out.2 = status_only "invalid_info".
Proof.
  intros s0 out.
  assert (H : out.1.1 = true) by (vm_compute; reflexivity).
  destruct (plain_instance_resists_record_operations "demo" []
              (SpawnLives (Scenario.game_proc 1700000000)) s0 Scenario.bare H)
    as (_ & _ & Hlater).
  destruct (Hlater out.2) as (Ht & Hs & Hn).
  split_and!; [exact H|exact Ht|exact Hs|exact Hn].
Defined.

(** X22 (unregistering a running game).  [unregister_game] on a game that
    [launch_game] has started returns [True] and removes the registration,
    while the instance stays in [running_games] and no process is
    touched. *)
Theorem unregister_leaves_a_plain_instance_running (game_id : string)
    (args : list string) (sp : spawn) (s : t) (w : world) :
  let out := launch_game game_id args sp s w in
  out.1.1 = true →
  ∀ later : world,
    let un := unregister_game game_id out.1.2 later in
    un.1.1 = true
    ∧ is_game_registered game_id un.1.2 = false
    ∧ running_games un.1.2 = running_games out.1.2
    ∧ Dict.mem (running_games un.1.2) game_id = true
    ∧ un.2 = later.
Proof.
  intros out Hok later. unfold out in *. clear out. unfold launch_game in *.
  destruct (games s !! game_id) as [path|] eqn:Hreg; [|done].
  destruct (Dict.mem (running_games s) game_id); [done|].
  destruct (popen sp w) as [[h|e] w1]; [|done]. cbn [fst snd].
  unfold unregister_game. cbn [games start_monitoring set_running]. rewrite Hreg.
  assert (Hget : Dict.get (Dict.set (running_games s) game_id (GIPopen h)) game_id
          = Some (GIPopen h)) by apply dict_get_set_eq.
  unfold Dict.mem, terminate_game.
  cbn [running_games start_monitoring set_running]. rewrite Hget.
  cbn [fst snd games running_games start_monitoring set_running].
  unfold is_game_registered. cbn [games].
  rewrite Hget. split_and!; try done.
  apply bool_decide_eq_false. rewrite lookup_delete_eq. by intros [? [=]].
Qed.

Lemma unregister_leaves_a_plain_instance_running_witness :
  let s0 := (Scenario.service Scenario.bare).1 in
  let out :=
    launch_game "demo" [] (SpawnLives (Scenario.game_proc 1700000000)) s0
      Scenario.bare in
  let un := unregister_game "demo" out.1.2 out.2 in
  out.1.1 = true
  ∧ un.1.1 = true
  ∧ is_game_registered "demo" un.1.2 = false
  ∧ Dict.mem (running_games un.1.2) "demo" = true
  ∧ un.2 = out.2.
Proof.
  intros s0 out un.
  assert (H : out.1.1 = true) by (vm_compute; reflexivity).
  destruct (unregister_leaves_a_plain_instance_running "demo" []
              (SpawnLives (Scenario.game_proc 1700000000)) s0 Scenario.bare H
              out.2) as (Hr & Hreg & _ & Hmem & Hw).
  split_and!; [exact H|exact Hr|exact Hreg|exact Hmem|exact Hw].
Defined.

(** X23 (register, then unregister).  Registering a game whose path exists
    makes [is_game_registered] true; unregistering it again, when it was
    not registered before and nothing is recorded under its identifier,
    returns [True] and restores the service state. *)
Theorem register_unregister_round_trip (game_id game_path : string) (s : t)
    (w : world) :
  path_exists game_path w = true →
  games s !! game_id = None →
  Dict.mem (running_games s) game_id = false →
  is_game_registered game_id (register_game game_id game_path s w).2 = true
  ∧ unregister_game game_id (register_game game_id game_path s w).2 w
    = (true, s, w).
Proof.
  intros Hp Hnone Hrun. unfold register_game. rewrite Hp. cbn [negb snd].
  split.
  - unfold is_game_registered. cbn [games]. apply bool_decide_eq_true.
    rewrite lookup_insert_eq. eauto.
  - unfold unregister_game. cbn [games running_games].
    rewrite lookup_insert_eq, Hrun. cbn [games running_games monitoring removals
      sandbox_manager]. rewrite delete_insert_id by done. by destruct s.
Qed.

Lemma register_unregister_round_trip_witness :
  let s := (Scenario.service Scenario.bare).1 in
  path_exists Scenario.game_path Scenario.bare = true
  ∧ games s !! "second" = None
  ∧ unregister_game "second"
      (register_game "second" Scenario.game_path s Scenario.bare).2
      Scenario.bare
    = (true, s, Scenario.bare).
Proof.
  intros s.
  assert (Hp : path_exists Scenario.game_path Scenario.bare = true)
    by (vm_compute; reflexivity).
  assert (Hn : games s !! "second" = None) by (vm_compute; reflexivity).
  assert (Hm : Dict.mem (running_games s) "second" = false)
    by (vm_compute; reflexivity).
  destruct (register_unregister_round_trip "second" Scenario.game_path s
              Scenario.bare Hp Hn Hm) as (_ & Hback).
  split_and!; [exact Hp|exact Hn|exact Hback].
Defined.

(** X24 (network check).  For a record of the [built_in] or
    [windows_sandbox] backend, [check_sandbox_network] never answers [ok]
    and never reports [network_isolated] true. *)
Theorem network_check_never_reports_isolation (instance_id : string) (s : t)
    (w : world) (d : game_dict) :
  Dict.get (running_games s) instance_id = Some (GIDict d) →
  gd_sandbox_type d = Some "built_in"
  ∨ gd_sandbox_type d = Some "windows_sandbox" →
  ns_status (check_sandbox_network instance_id s w) ≠ "ok"
  ∧ ns_network_isolated (check_sandbox_network instance_id s w) ≠ Some true.
Proof.
  intros Hget Hty. unfold check_sandbox_network. rewrite Hget.
  case_bool_decide; [done|].
  destruct (negb (default false (gd_in_sandbox d))); [done|].
  destruct (gd_sandbox d) as [name|]; [|done].
  destruct (String.eqb name ""); [done|].
  assert (Hb : ∀ sbs, String.eqb
      (Health.status (BuiltInSandbox.check_sandbox_health name sbs w)) "running"
      = true →
    Health.network_isolated (BuiltInSandbox.check_sandbox_health name sbs w)
    = Some false).
  { intros sbs. unfold BuiltInSandbox.check_sandbox_health.
    destruct (sbs !! name) as [sb|]; [|done].
    by destruct (BuiltInSandbox.running_processes _ w). }
  assert (Hw : ∀ sbs, String.eqb
      (Health.status (WindowsSandbox.check_sandbox_health name sbs w)) "running"
      = true →
    Health.network_isolated (WindowsSandbox.check_sandbox_health name sbs w)
    = Some false).
  { intros sbs. unfold WindowsSandbox.check_sandbox_health.
    destruct (sbs !! name) as [sb|]; [|done].
    by destruct (WindowsSandbox.process sb) as [[p|p]|]. }
  destruct Hty as [-> | ->]; cbn [from_option id].
  - change (String.eqb "built_in" "built_in") with true. cbn iota.
    specialize (Hb (SandboxManager.built_in_sandbox (sandbox_manager s))).
    destruct (String.eqb _ "running"); [|done].
    cbn [negb ns_status ns_network_isolated]. rewrite Hb by done. done.
  - change (String.eqb "windows_sandbox" "built_in") with false.
    change (String.eqb "windows_sandbox" "windows_sandbox") with true.
    cbn iota.
    specialize (Hw (SandboxManager.windows_sandbox (sandbox_manager s))).
    destruct (String.eqb _ "running"); [|done].
    cbn [negb ns_status ns_network_isolated]. rewrite Hw by done. done.
Qed.

Lemma network_check_never_reports_isolation_witness :
  let s := Cases.sandboxed.1.2 in
  let w := Cases.sandboxed.2 in
  Dict.get (running_games s) Cases.instance = Some (GIDict Cases.record)
  ∧ ns_status (check_sandbox_network Cases.instance s w) ≠ "ok"
  ∧ ns_network_isolated (check_sandbox_network Cases.instance s w) ≠ Some true.
Proof.
  intros s w.
  assert (Hget : Dict.get (running_games s) Cases.instance
                 = Some (GIDict Cases.record)) by (vm_compute; reflexivity).
  assert (Hty : gd_sandbox_type Cases.record = Some "built_in"
                ∨ gd_sandbox_type Cases.record = Some "windows_sandbox")
    by (left; reflexivity).
  destruct (network_check_never_reports_isolation Cases.instance s w
              Cases.record Hget Hty) as (Hs & Hi).
  split_and!; [exact Hget|exact Hs|exact Hi].
Defined.

(** X25 (terminating a record).  When [terminate_game] on a record
    dictionary returns [True], the record has been deleted from
    [running_games] and the registered games are unchanged; when it
    returns [False], the service state is unchanged. *)
Theorem terminate_game_removes_the_record (instance_id : string) (s : t)
    (w : world) (d : game_dict) :
  Dict.get (running_games s) instance_id = Some (GIDict d) →
  let out := terminate_game instance_id s w in
  if out.1.1
  then running_games out.1.2 = Dict.del (running_games s) instance_id
       ∧ games out.1.2 = games s
  else out.1.2 = s.
Proof.
  intros Hget out. unfold out, terminate_game, terminate_record. rewrite Hget.
  destruct (stop_by_handle d w) as [[b|e] w1]; [|done].
  destruct (if negb b then stop_by_pid d w1 else (Ok b, w1))
    as [[b'|e] w2]; [|done].
  destruct (gd_in_sandbox d) as [[]|], (gd_sandbox d) as [name|];
    try (cbn [fst snd running_games games set_running];
         by rewrite dict_del_set).
  destruct (SandboxManager.terminate_sandbox _ _ _) as [[r m] w3].
  cbn [fst snd running_games games set_running set_manager].
  by rewrite dict_del_set.
Qed.

Lemma terminate_game_removes_the_record_witness :
  let s := Cases.sandboxed.1.2 in
  let w := Cases.sandboxed.2 in
  let out := terminate_game Cases.instance s w in
  Dict.get (running_games s) Cases.instance = Some (GIDict Cases.record)
  ∧ out.1.1 = true
  ∧ running_games out.1.2 = [].
Proof.
  intros s w out.
  assert (Hget : Dict.get (running_games s) Cases.instance
                 = Some (GIDict Cases.record)) by (vm_compute; reflexivity).
  assert (Hr : out.1.1 = true) by (vm_compute; reflexivity).
  pose proof (terminate_game_removes_the_record Cases.instance s w
                Cases.record Hget) as H.
  cbv zeta in H. fold out in H. rewrite Hr in H. destruct H as (Hdel & _).
  split_and!; [exact Hget|exact Hr|].
  rewrite Hdel. vm_compute. reflexivity.
Defined.

(** X26 (failed sandboxed launch).  When [launch_game_in_sandbox] returns
    [False], [running_games], the registered games, the monitor flag and
    the pending removals are as before. *)
Theorem failed_sandboxed_launch_records_nothing (σ : Store.t)
    (game_id sandbox_type : string) (args : list string) (u : N)
    (env : SandboxManager.launch_env) (s : t) (w : world) :
  let out := launch_game_in_sandbox σ game_id sandbox_type args u env s w in
  out.1.1 = false →
  running_games out.1.2 = running_games s
  ∧ games out.1.2 = games s
  ∧ monitoring out.1.2 = monitoring s
  ∧ removals out.1.2 = removals s.
Proof.
  intros out. unfold out, launch_game_in_sandbox.
  destruct (games s !! game_id) as [path|]; [|done].
  destruct (SandboxManager.launch_in_sandbox _ _ _ _ _ _ _ _) as [[r m] w1].
  destruct (SandboxManager.truthy r); [|done].
  destruct (SandboxManager.is_dict r); [|done].
  by case_bool_decide.
Qed.

Lemma failed_sandboxed_launch_records_nothing_witness :
  let s0 := (Scenario.service Scenario.bare).1 in
  let σ0 := (Scenario.service Scenario.bare).2 in
  let out :=
    launch_game_in_sandbox σ0 "demo" "virtualbox" [] Scenario.uuid_a
      Cases.found_env s0 Scenario.bare in
  out.1.1 = false
  ∧ running_games out.1.2 = running_games s0
  ∧ monitoring out.1.2 = monitoring s0.
Proof.
  intros s0 σ0 out.
  assert (H : out.1.1 = false) by (vm_compute; reflexivity).
  destruct (failed_sandboxed_launch_records_nothing σ0 "demo" "virtualbox" []
              Scenario.uuid_a Cases.found_env s0 Scenario.bare H)
    as (Hrg & _ & Hmon & _).
  split_and!; [exact H|exact Hrg|exact Hmon].
Defined.

(** X27 (terminating a sandbox by game identifier).  A sandboxed launch
    records its instance under the minted identifier, never under the
    game identifier.  When nothing else is recorded under the game
    identifier, [terminate_sandbox(game_id)] of the service returns
    [False] and changes nothing at any later time. *)
Theorem service_terminate_sandbox_misses_by_game_id (σ : Store.t)
    (game_id sandbox_type : string) (args : list string) (u : N)
    (env : SandboxManager.launch_env) (s : t) (w : world) :
  Dict.mem (running_games s) game_id = false →
  let out := launch_game_in_sandbox σ game_id sandbox_type args u env s w in
  out.1.1 = true →
  is_game_in_sandbox (mint_instance_id game_id (now w) u) out.1.2 = true
  ∧ ∀ later : world,
      terminate_sandbox game_id out.1.2 later = (Ok false, out.1.2, later).
Proof.
  intros Hmem out Hok.
  destruct (launch_game_in_sandbox σ game_id sandbox_type args u env s w)
    as [[b s'] w'] eqn:HL. unfold out in *. clear out. cbn [fst snd] in *.
  subst b. apply sandboxed_launch_records in HL as (d & Hrg & _ & Hin).
  split.
  - unfold is_game_in_sandbox. rewrite Hrg, dict_get_set_eq. by rewrite Hin.
  - intros later. unfold terminate_sandbox. rewrite Hrg.
    rewrite dict_get_set_ne by apply not_eq_sym, mint_not_game_id.
    unfold Dict.mem in Hmem.
    by destruct (Dict.get (running_games s) game_id).
Qed.

Lemma service_terminate_sandbox_misses_by_game_id_witness :
  let s0 := (Scenario.service Scenario.bare).1 in
  let s := Cases.sandboxed.1.2 in
  let w := Cases.sandboxed.2 in
  Dict.mem (running_games s0) "demo" = false
  ∧ Cases.sandboxed.1.1 = true
  ∧ is_game_in_sandbox Cases.instance s = true
  ∧ terminate_sandbox "demo" s w = (Ok false, s, w).
Proof.
  intros s0 s w.
  assert (Hm : Dict.mem (running_games s0) "demo" = false)
    by (vm_compute; reflexivity).
  assert (Hok : Cases.sandboxed.1.1 = true) by (vm_compute; reflexivity).
  destruct (service_terminate_sandbox_misses_by_game_id
              (Scenario.service Scenario.bare).2 "demo" "built_in" []
              Scenario.uuid_a Cases.found_env s0 Scenario.bare Hm Hok)
    as (_ & Hlater).
  split_and!; [exact Hm|exact Hok|vm_compute; reflexivity|exact (Hlater w)].
Defined.

End Registry.

(* ------------------------------------------------------------------ *)
(** ** Dependencies                                                    *)
(* ------------------------------------------------------------------ *)

Section Dependencies.
Import DependencyInstaller.

Lemma ensure_loop_failed pip deps importable failed :
  NoDup deps →
  (ensure_loop pip deps importable failed).1
  = (failed ++ List.filter (λ d, negb (satisfiable pip importable d)) deps)%list.
Proof.
  revert importable failed.
  assert (Hmono : ∀ deps importable extra,
    (∀ d, d ∈ deps → d ∉ extra) →
    List.filter (λ d, negb (satisfiable pip (extra ∪ importable) d)) deps
    = List.filter (λ d, negb (satisfiable pip importable d)) deps).
  { intros ds importable extra Hex. apply filter_ext_in. intros d Hd.
    apply list_elem_of_In in Hd. f_equal. unfold satisfiable.
    f_equal. unfold is_dependency_installed.
    apply bool_decide_ext. rewrite elem_of_union. specialize (Hex d Hd).
    tauto. }
  induction deps as [|d deps IH]; intros importable failed Hnd;
    cbn [ensure_loop List.filter].
  { by rewrite app_nil_r. }
  apply NoDup_cons in Hnd as [Hd Hnd].
  destruct (is_dependency_installed d importable) eqn:Hi; cbn [negb].
  - assert (satisfiable pip importable d = true) as ->
      by (unfold satisfiable; by rewrite Hi).
    cbn [negb]. by apply IH.
  - unfold install_dependency. destruct (pip d) eqn:Hp; cbn [negb].
    + assert (satisfiable pip importable d = true) as ->
        by (unfold satisfiable; by rewrite Hi, Hp).
      cbn [negb]. rewrite IH by done. f_equal. apply Hmono.
      intros d' Hd'. rewrite elem_of_singleton. by intros ->.
    + assert (satisfiable pip importable d = false) as ->
        by (unfold satisfiable; by rewrite Hi, Hp).
      cbn [negb]. rewrite IH by done. by rewrite <- app_assoc.
Qed.

(** X28 (dependencies).  For a list without repetition,
    [ensure_dependencies] returns, in the order of the list, the
    dependencies that can neither be imported nor installed, and reports
    success exactly when there is none. *)
Theorem ensure_dependencies_reports_what_could_not_be_had
    (pip : string → bool) (dependencies : list string)
    (importable : gset string) :
  NoDup dependencies →
  ensure_dependencies pip dependencies importable
  = (forallb (satisfiable pip importable) dependencies,
     List.filter (λ d, negb (satisfiable pip importable d)) dependencies).
Proof.
  intros Hnd. unfold ensure_dependencies.
  rewrite ensure_loop_failed by done. cbn [app]. f_equal.
  induction dependencies as [|d ds IH]; simpl; [done|].
  apply NoDup_cons in Hnd as [_ Hnd].
  destruct (satisfiable pip importable d); simpl; [by apply IH|done].
Qed.

Lemma ensure_dependencies_reports_what_could_not_be_had_witness :
  NoDup ["psutil"; "pywin32"]
  ∧ ensure_dependencies Cases.pip ["psutil"; "pywin32"] ∅
    = (false, ["pywin32"]).
Proof.
  assert (H : NoDup ["psutil"; "pywin32"]).
  { apply NoDup_cons. split; [|apply NoDup_singleton].
    rewrite list_elem_of_singleton. discriminate. }
  split; [exact H|].
  rewrite (ensure_dependencies_reports_what_could_not_be_had Cases.pip
             ["psutil"; "pywin32"] ∅ H).
  vm_compute. reflexivity.
Defined.

End Dependencies.
